(** * The MFA handlers of api/mfa.go: enrollment, challenge, verification
      and unenrollment of TOTP and WebAuthn factors.

    The handlers are embedded as functions of an explicit database state.
    The storage layer, the TOTP and WebAuthn engines, JSON decoding and the
    clock are outside the file; their outcomes are read from an environment
    record [Env], so that every statement below holds for every behaviour
    of these collaborators. *)

From Stdlib Require Import ZArith List String Bool Lia.
Import ListNotations.

Local Open Scope string_scope.
Local Open Scope Z_scope.

(** ** Data model *)

Definition uuid := nat.

(** [time.Time] and [time.Duration], both counted in nanoseconds. *)
Definition Time := Z.

Definition int64 (z : Z) : Z := (z + 2 ^ 63) mod 2 ^ 64 - 2 ^ 63.

Definition Second : Z := 1000000000.

Definition Add (t : Time) (d : Z) : Time := t + d.

Definition After (t u : Time) : bool := u <? t.

Definition Unix (t : Time) : Z := t / Second.

(** models.FactorState and its [String] method. *)
Inductive FactorState := FactorStateUnverified | FactorStateVerified.

Definition FactorState_String (s : FactorState) : string :=
  match s with
  | FactorStateUnverified => "unverified"
  | FactorStateVerified => "verified"
  end.

(** models.TOTP *)
Definition TOTP : string := "totp".

(** Modelled from the spec: the assurance levels of the package models, whose
    declaration is not part of the file; an enumeration AAL1, AAL2 (section 3). *)
Inductive AAL := AAL1 | AAL2.

Definition AAL_String (a : AAL) : string :=
  match a with AAL1 => "aal1" | AAL2 => "aal2" end.

Definition AAL_ltb (a b : AAL) : bool :=
  match a, b with AAL1, AAL2 => true | _, _ => false end.

Record User := {
  User_ID : uuid;
  IsSSOUser : bool;
  Email : string
}.

Definition GetEmail (u : User) : string := Email u.

Record Factor := {
  Factor_ID : uuid;
  Factor_UserID : uuid;
  FriendlyName : string;
  FactorType : string;
  Status : string;
  Secret : string
}.

Record Challenge := {
  Challenge_ID : uuid;
  Challenge_FactorID : uuid;
  CreatedAt : Time;
  VerifiedAt : option Time;
  IPAddress : string
}.

(** webauthn.Config, webauthn.WebAuthn and webauthn.SessionData of the
    go-webauthn library, reduced to the fields the handlers name. *)
Record WebauthnConfig := {
  RPDisplayName : string;
  RPID : string;
  RPOrigin : string;
  RPIcon : string
}.

Record WebAuthn := { Config : WebauthnConfig }.

Record SessionData := {
  SD_Challenge : string;
  SD_UserID : string
}.

(** The zero value [&webauthn.SessionData{}]. *)
Definition SessionData_zero : SessionData :=
  {| SD_Challenge := ""; SD_UserID := "" |}.

Record Session := {
  Session_ID : uuid;
  Session_UserID : uuid;
  Session_AAL : AAL;
  Session_FactorID : option uuid;
  WebauthnConfiguration : option WebAuthn;
  WebauthnRegistrationSession : option SessionData;
  WebauthnLoginSession : option SessionData
}.

Definition GetAAL (s : Session) : string := AAL_String (Session_AAL s).

Inductive AuditAction :=
| EnrollFactorAction
| CreateChallengeAction
| VerifyFactorAction
| UnenrollFactorAction.

Inductive TraitValue :=
| TraitID (id : uuid)
| TraitString (s : string).

Record AuditLogEntry := {
  Audit_Action : AuditAction;
  Audit_Actor : uuid;
  Audit_IP : string;
  Audit_Traits : list (string * TraitValue)
}.

(** The tables the handlers read and write. *)
Record DB := {
  users : list User;
  factors : list Factor;
  challenges : list Challenge;
  sessions : list Session;
  audit_log : list AuditLogEntry
}.

(** ** Errors *)

(** One tag per call of the handlers into the storage layer, the session
    collaborator and the token transport; the environment says which of them
    fail. *)
Inductive Op :=
| OpFindFactorsByUser
| OpCreateFactor
| OpCreateChallenge
| OpAuditLog
| OpUpdateWebauthnConfiguration
| OpUpdateWebauthnLoginSession
| OpUpdateWebauthnRegistrationSession
| OpFindChallenge
| OpDestroyChallenge
| OpChallengeVerify
| OpUpdateStatus
| OpFindUserByID
| OpUpdateMFASession
| OpSetCookieTokens
| OpInvalidateSessions
| OpDeleteUnverifiedFactors
| OpDestroyFactor
| OpDowngradeSessions
| OpCommit.

(** [HTTPError] carries the status code, the format string and the format
    arguments; an error of the storage layer or of a library is returned
    to the caller as it is. *)
Inductive Error :=
| HTTPError (code : nat) (fmt : string) (args : list ErrArg)
| StorageError (op : Op)
| LibraryError (what : string)
with ErrArg :=
| ArgID (id : uuid)
| ArgErr (err : Error).

Definition badRequestError (fmt : string) (args : list ErrArg) : Error :=
  HTTPError 400 fmt args.
Definition forbiddenError (fmt : string) : Error := HTTPError 403 fmt [].
Definition notFoundError (fmt : string) : Error := HTTPError 404 fmt [].
Definition unprocessableEntityError (fmt : string) : Error :=
  HTTPError 422 fmt [].
Definition internalServerError (fmt : string) (args : list ErrArg) : Error :=
  HTTPError 500 fmt args.

(** ** Request, configuration, responses *)

Record EnrollFactorParams := {
  P_FriendlyName : string;
  P_FactorType : string;
  P_Issuer : string
}.

Record VerifyFactorParams := {
  ChallengeID : uuid;
  Code : string
}.

Record TOTPObject := {
  QRCode : string;
  TOTP_Secret : string;
  URI : string
}.

(** The part of the configuration the handlers read. [MaxEnrolledFactors]
    is the value of [int(config.MFA.MaxEnrolledFactors)]. *)
Record Configuration := {
  SiteURL : string;
  MaxEnrolledFactors : Z;
  MaxVerifiedFactors : Z;
  ChallengeExpiryDuration : Z
}.

(** What the request context and the request carry: [getUser], [getFactor],
    [getSession], the body, [r.RemoteAddr] and [utilities.GetIPAddress]. *)
Record Request := {
  ctx_user : User;
  ctx_factor : Factor;
  ctx_session : Session;
  Body : string;
  RemoteAddr : string;
  GetIPAddress : string
}.

Record Key := {
  Key_Secret : string;
  Key_URL : string
}.

Record AccessTokenResponse := {
  Token : string;
  RefreshToken : string
}.

Inductive Response :=
| EnrollFactorResponse (id : uuid) (type : string) (totp : TOTPObject)
| FactorJSON (f : Factor)
| ChallengeFactorResponse (id : uuid) (expires_at : Z)
| OptionsJSON (options : string)
| AccessTokenJSON (t : AccessTokenResponse)
| EmptyStringJSON
| UnenrollFactorResponse (id : uuid).

(** ** The environment: collaborators outside the file *)

Record Env := {
  (** time.Now *)
  Now : Time;
  (** which storage calls return an error *)
  storage_fails : Op -> bool;
  (** uuid generation inside models.NewFactor and models.NewChallenge *)
  NewFactorID : option uuid;
  NewChallengeID : option uuid;
  (** getBodyBytes; the first argument counts the reads of r.Body so far *)
  getBodyBytes : nat -> string -> option string;
  (** json.Unmarshal into the three parameter structures *)
  json_EnrollFactorParams : string -> option EnrollFactorParams;
  json_VerifyFactorParams : string -> option VerifyFactorParams;
  json_ParsedCredentialCreationData : string -> bool;
  (** url.ParseRequestURI, returning the host *)
  url_ParseRequestURI : string -> option string;
  (** totp.Generate, the QR writer and totp.Validate *)
  totp_Generate : string -> string -> option Key;
  WriteQrSVG : Key -> option string;
  totp_Validate : string -> string -> bool;
  (** the checks of webauthn.New and the decoding by mapstructure *)
  webauthn_New_error : WebauthnConfig -> option Error;
  mapstructure_Decode : option WebAuthn -> Error + WebAuthn;
  (** the ceremonies of the WebAuthn engine; the parsers read r.Body, and
      their first argument counts the reads of r.Body so far: unlike
      getBodyBytes, a parser does not put the bytes back *)
  BeginLogin : WebAuthn -> User -> Error + (string * SessionData);
  BeginRegistration : WebAuthn -> User -> Error + (string * SessionData);
  ParseCredentialCreationResponseBody : nat -> string -> Error + string;
  CreateCredential : WebAuthn -> User -> SessionData -> string -> Error + string;
  ParseCredentialRequestResponseBody : nat -> string -> Error + string;
  ValidateLogin : WebAuthn -> User -> SessionData -> string -> Error + string;
  (** the access token minted by updateMFASessionAndClaims *)
  generateAccessToken : User -> uuid -> AccessTokenResponse;
  (** which sessions the removal of a factor concerns *)
  downgrade_scope : Factor -> Session -> bool
}.

(** ** A state and error monad over the database *)

Definition M (A : Type) : Type := DB -> (Error + A) * DB.

Definition ret {A : Type} (a : A) : M A := fun db => (inr a, db).

Definition throw {A : Type} (e : Error) : M A := fun db => (inl e, db).

Definition bind {A B : Type} (m : M A) (k : A -> M B) : M B :=
  fun db =>
    match m db with
    | (inl e, db') => (inl e, db')
    | (inr a, db') => k a db'
    end.

Notation "'let*' x ':=' m 'in' k" := (bind m (fun x => k))
  (at level 10, x name, m at level 100, k at level 200).
Notation "m ';;' k" := (bind m (fun _ => k))
  (at level 100, right associativity).

(** [if err != nil { return err }] *)
Definition check {A : Type} (res : Error + A) : M A :=
  match res with
  | inl err => throw err
  | inr a => ret a
  end.

(** [if terr := m; terr != nil { return wrap(terr) }] *)
Definition wrap {A : Type} (w : Error -> Error) (m : M A) : M A :=
  fun db =>
    match m db with
    | (inl e, db') => (inl (w e), db')
    | (inr a, db') => (inr a, db')
    end.

(** [db.Transaction]: the closure runs on the database; an error of the
    closure or of the commit restores the database the transaction started
    from, and is returned as a value. *)
Definition Transaction {A : Type} (env : Env) (body : M A) : M (Error + A) :=
  fun db =>
    match body db with
    | (inl e, _) => (inr (inl e), db)
    | (inr a, db') =>
        if storage_fails env OpCommit
        then (inr (inl (StorageError OpCommit)), db)
        else (inr (inr a), db')
    end.

(** A storage call that fails when the environment says so. *)
Definition storage {A : Type} (env : Env) (op : Op) (m : M A) : M A :=
  if storage_fails env op then throw (StorageError op) else m.

Definition get : M DB := fun db => (inr db, db).

Definition put (db' : DB) : M unit := fun _ => (inr tt, db').

(** ** The storage layer *)

Definition set_factors (db : DB) (fs : list Factor) : DB :=
  {| users := users db; factors := fs; challenges := challenges db;
     sessions := sessions db; audit_log := audit_log db |}.

Definition set_challenges (db : DB) (cs : list Challenge) : DB :=
  {| users := users db; factors := factors db; challenges := cs;
     sessions := sessions db; audit_log := audit_log db |}.

Definition set_sessions (db : DB) (ss : list Session) : DB :=
  {| users := users db; factors := factors db; challenges := challenges db;
     sessions := ss; audit_log := audit_log db |}.

Definition set_audit_log (db : DB) (l : list AuditLogEntry) : DB :=
  {| users := users db; factors := factors db; challenges := challenges db;
     sessions := sessions db; audit_log := l |}.

Definition is_verified (f : Factor) : bool :=
  String.eqb (Status f) (FactorState_String FactorStateVerified).

Definition is_unverified (f : Factor) : bool :=
  String.eqb (Status f) (FactorState_String FactorStateUnverified).

Definition owned_by (uid : uuid) (f : Factor) : bool :=
  Nat.eqb (Factor_UserID f) uid.

(** Modelled from the spec: models.FindFactorsByUser, the user's current
    factor set read from storage (section 4.1). *)
Definition FindFactorsByUser (env : Env) (user : User) : M (list Factor) :=
  storage env OpFindFactorsByUser
    (let* db := get in ret (filter (owned_by (User_ID user)) (factors db))).

(** models.NewFactor: a factor of the user with a fresh identifier. *)
Definition NewFactor (env : Env) (user : User) (friendlyName factorType : string)
    (state : FactorState) (secret : string) : option Factor :=
  match NewFactorID env with
  | None => None
  | Some id =>
      Some {| Factor_ID := id; Factor_UserID := User_ID user;
              FriendlyName := friendlyName; FactorType := factorType;
              Status := FactorState_String state; Secret := secret |}
  end.

(** models.NewChallenge: a challenge bound to the factor and the requester's
    address; the creation time is the one the row is stored with. *)
Definition NewChallenge (env : Env) (factor : Factor) (ipAddress : string)
    : option Challenge :=
  match NewChallengeID env with
  | None => None
  | Some id =>
      Some {| Challenge_ID := id; Challenge_FactorID := Factor_ID factor;
              CreatedAt := Now env; VerifiedAt := None;
              IPAddress := ipAddress |}
  end.

(** [tx.Create(factor)]: the primary key must be new. *)
Definition Create_factor (env : Env) (f : Factor) : M unit :=
  storage env OpCreateFactor
    (let* db := get in
     if existsb (fun g => Nat.eqb (Factor_ID g) (Factor_ID f)) (factors db)
     then throw (StorageError OpCreateFactor)
     else put (set_factors db (factors db ++ [f]))).

(** [tx.Create(challenge)] *)
Definition Create_challenge (env : Env) (c : Challenge) : M unit :=
  storage env OpCreateChallenge
    (let* db := get in
     if existsb (fun d => Nat.eqb (Challenge_ID d) (Challenge_ID c))
          (challenges db)
     then throw (StorageError OpCreateChallenge)
     else put (set_challenges db (challenges db ++ [c]))).

(** models.NewAuditLogEntry *)
Definition NewAuditLogEntry (env : Env) (user : User) (action : AuditAction)
    (ipAddress : string) (traits : list (string * TraitValue)) : M unit :=
  storage env OpAuditLog
    (let* db := get in
     put (set_audit_log db
            (audit_log db ++
             [{| Audit_Action := action; Audit_Actor := User_ID user;
                 Audit_IP := ipAddress; Audit_Traits := traits |}]))).

Definition update_session (id : uuid) (f : Session -> Session) (s : Session)
    : Session :=
  if Nat.eqb (Session_ID s) id then f s else s.

Definition with_WebauthnConfiguration (w : WebAuthn) (s : Session) : Session :=
  {| Session_ID := Session_ID s; Session_UserID := Session_UserID s;
     Session_AAL := Session_AAL s; Session_FactorID := Session_FactorID s;
     WebauthnConfiguration := Some w;
     WebauthnRegistrationSession := WebauthnRegistrationSession s;
     WebauthnLoginSession := WebauthnLoginSession s |}.

Definition with_WebauthnRegistrationSession (d : SessionData) (s : Session)
    : Session :=
  {| Session_ID := Session_ID s; Session_UserID := Session_UserID s;
     Session_AAL := Session_AAL s; Session_FactorID := Session_FactorID s;
     WebauthnConfiguration := WebauthnConfiguration s;
     WebauthnRegistrationSession := Some d;
     WebauthnLoginSession := WebauthnLoginSession s |}.

Definition with_WebauthnLoginSession (d : SessionData) (s : Session)
    : Session :=
  {| Session_ID := Session_ID s; Session_UserID := Session_UserID s;
     Session_AAL := Session_AAL s; Session_FactorID := Session_FactorID s;
     WebauthnConfiguration := WebauthnConfiguration s;
     WebauthnRegistrationSession := WebauthnRegistrationSession s;
     WebauthnLoginSession := Some d |}.

Definition with_AAL (a : AAL) (s : Session) : Session :=
  {| Session_ID := Session_ID s; Session_UserID := Session_UserID s;
     Session_AAL := a; Session_FactorID := Session_FactorID s;
     WebauthnConfiguration := WebauthnConfiguration s;
     WebauthnRegistrationSession := WebauthnRegistrationSession s;
     WebauthnLoginSession := WebauthnLoginSession s |}.

Definition with_elevation (fid : uuid) (s : Session) : Session :=
  {| Session_ID := Session_ID s; Session_UserID := Session_UserID s;
     Session_AAL := AAL2; Session_FactorID := Some fid;
     WebauthnConfiguration := WebauthnConfiguration s;
     WebauthnRegistrationSession := WebauthnRegistrationSession s;
     WebauthnLoginSession := WebauthnLoginSession s |}.

(** Modelled from the spec: session.UpdateWebauthnConfiguration, which stores
    the relying-party configuration on the session (section 4.1). *)
Definition UpdateWebauthnConfiguration (env : Env) (session : Session)
    (web : WebAuthn) : M unit :=
  storage env OpUpdateWebauthnConfiguration
    (let* db := get in
     put (set_sessions db
            (map (update_session (Session_ID session)
                    (with_WebauthnConfiguration web)) (sessions db)))).

(** Modelled from the spec: session.UpdateWebauthnLoginSession, which persists
    the ceremony challenge data of an assertion ceremony on the session
    (section 4.2). *)
Definition UpdateWebauthnLoginSession (env : Env) (session : Session)
    (sessionData : SessionData) : M unit :=
  storage env OpUpdateWebauthnLoginSession
    (let* db := get in
     put (set_sessions db
            (map (update_session (Session_ID session)
                    (with_WebauthnLoginSession sessionData)) (sessions db)))).

(** Modelled from the spec: session.UpdateWebauthnRegistrationSession, which
    persists the ceremony challenge data of a registration ceremony on the
    session (section 4.2). *)
Definition UpdateWebauthnRegistrationSession (env : Env) (session : Session)
    (sessionData : SessionData) : M unit :=
  storage env OpUpdateWebauthnRegistrationSession
    (let* db := get in
     put (set_sessions db
            (map (update_session (Session_ID session)
                    (with_WebauthnRegistrationSession sessionData))
               (sessions db)))).

(** Modelled from the spec: models.FindChallengeByChallengeID; a missing
    identifier is a not-found error, told apart by models.IsNotFoundError
    (section 4.3). The lookup returns [None] for it, and the handler turns
    that into the 404 answer; the text of the message is the one of the
    error of the package models. *)
Definition FindChallengeByChallengeID (env : Env) (id : uuid)
    : M (option Challenge) :=
  storage env OpFindChallenge
    (let* db := get in
     ret (find (fun c => Nat.eqb (Challenge_ID c) id) (challenges db))).

(** [tx.Destroy(challenge)] *)
Definition Destroy_challenge (env : Env) (c : Challenge) : M unit :=
  storage env OpDestroyChallenge
    (let* db := get in
     put (set_challenges db
            (filter (fun d => negb (Nat.eqb (Challenge_ID d) (Challenge_ID c)))
               (challenges db)))).

(** [tx.Destroy(factor)] *)
Definition Destroy_factor (env : Env) (f : Factor) : M unit :=
  storage env OpDestroyFactor
    (let* db := get in
     put (set_factors db
            (filter (fun g => negb (Nat.eqb (Factor_ID g) (Factor_ID f)))
               (factors db)))).

Definition mark_verified (id : uuid) (now : Time) (c : Challenge) : Challenge :=
  if Nat.eqb (Challenge_ID c) id
  then {| Challenge_ID := Challenge_ID c;
          Challenge_FactorID := Challenge_FactorID c;
          CreatedAt := CreatedAt c; VerifiedAt := Some now;
          IPAddress := IPAddress c |}
  else c.

(** Modelled from the spec: challenge.Verify, which marks the challenge
    verified by setting its verification time (section 4.3, step 2). *)
Definition Challenge_Verify (env : Env) (c : Challenge) : M unit :=
  storage env OpChallengeVerify
    (let* db := get in
     put (set_challenges db
            (map (mark_verified (Challenge_ID c) (Now env)) (challenges db)))).

Definition set_status (id : uuid) (state : FactorState) (f : Factor) : Factor :=
  if Nat.eqb (Factor_ID f) id
  then {| Factor_ID := Factor_ID f; Factor_UserID := Factor_UserID f;
          FriendlyName := FriendlyName f; FactorType := FactorType f;
          Status := FactorState_String state; Secret := Secret f |}
  else f.

(** Modelled from the spec: factor.UpdateStatus, the status update of the
    factor store (sections 2 and 4.3, step 3). *)
Definition UpdateStatus (env : Env) (f : Factor) (state : FactorState)
    : M unit :=
  storage env OpUpdateStatus
    (let* db := get in
     put (set_factors db (map (set_status (Factor_ID f) state) (factors db)))).

(** Modelled from the spec: models.FindUserByID, the fresh read of the user
    row (section 4.3, step 4). *)
Definition FindUserByID (env : Env) (id : uuid) : M User :=
  storage env OpFindUserByID
    (let* db := get in
     match find (fun u => Nat.eqb (User_ID u) id) (users db) with
     | Some u => ret u
     | None => throw (StorageError OpFindUserByID)
     end).

(** Modelled from the spec: updateMFASessionAndClaims, which elevates the
    session of the request to AAL2 and obtains a new access credential
    (section 4.3, step 5); the factor of the grant parameters is recorded on
    the session. *)
Definition updateMFASessionAndClaims (env : Env) (r : Request) (user : User)
    (factorID : uuid) : M AccessTokenResponse :=
  storage env OpUpdateMFASession
    (let* db := get in
     put (set_sessions db
            (map (update_session (Session_ID (ctx_session r))
                    (with_elevation factorID)) (sessions db)));;
     ret (generateAccessToken env user (Session_ID (ctx_session r)))).

(** setCookieTokens: the access credential is handed to the response
    transport. *)
Definition setCookieTokens (env : Env) (token : AccessTokenResponse) : M unit :=
  storage env OpSetCookieTokens (ret tt).

(** Modelled from the spec: models.InvalidateSessionsWithAALLessThan, the
    invalidation of the user's sessions whose assurance level is below the
    threshold (sections 2 and 4.3, step 7). *)
Definition InvalidateSessionsWithAALLessThan (env : Env) (userID : uuid)
    (level : AAL) : M unit :=
  storage env OpInvalidateSessions
    (let* db := get in
     put (set_sessions db
            (filter (fun s => negb (Nat.eqb (Session_UserID s) userID
                                    && AAL_ltb (Session_AAL s) level))
               (sessions db)))).

(** Modelled from the spec: models.DeleteUnverifiedFactors, the deletion of
    the user's unverified factors (section 4.3, step 8). *)
Definition DeleteUnverifiedFactors (env : Env) (user : User) : M unit :=
  storage env OpDeleteUnverifiedFactors
    (let* db := get in
     put (set_factors db
            (filter (fun f => negb (owned_by (User_ID user) f
                                    && is_unverified f))
               (factors db)))).

(** Modelled from the spec: factor.DowngradeSessionsToAAL1, which downgrades
    the sessions tied to the factor's removal to AAL1 (section 4.4); which
    sessions these are is left to the environment (section 9). *)
Definition DowngradeSessionsToAAL1 (env : Env) (f : Factor) : M unit :=
  storage env OpDowngradeSessions
    (let* db := get in
     put (set_sessions db
            (map (fun s => if downgrade_scope env f s then with_AAL AAL1 s
                           else s)
               (sessions db)))).

(** ** The handlers *)

(** The loop that counts the verified factors. *)
Definition numVerifiedFactors (fs : list Factor) : Z :=
  fold_left (fun n f => if is_verified f then n + 1 else n) fs 0.

(** The literal configuration handed to [webauthn.New]. *)
Definition webauthn_Config_literal : WebauthnConfig :=
  {| RPDisplayName := "Go Webauthn";
     RPID := "2175-203-116-4-74.ap.ngrok.io";
     RPOrigin := "https://2175-203-116-4-74.ap.ngrok.io";
     RPIcon := "https://go-webauthn.local/logo.png" |}.

(** [nreads] is the number of reads of the request body before the call. *)
Definition EnrollWebAuthnFactor (env : Env) (config : Configuration)
    (nreads : nat) (r : Request) : M Response :=
  let user := ctx_user r in
  let session := ctx_session r in
  match webauthn_New_error env webauthn_Config_literal with
  | Some err => throw err
  | None =>
  let web := {| Config := webauthn_Config_literal |} in
  match getBodyBytes env nreads (Body r) with
  | None => throw (internalServerError "Could not read body" [])
  | Some body =>
  match json_EnrollFactorParams env body with
  | None => throw (badRequestError "invalid body: unable to parse JSON" [])
  | Some params =>
  let* factors :=
    wrap (fun _ => internalServerError
                     "error validating number of factors in system" [])
         (FindFactorsByUser env user) in
  if Z.of_nat (List.length factors) >=? MaxEnrolledFactors config
  then throw (forbiddenError
                "Enrolled factors exceed allowed limit, unenroll to continue")
  else
  if numVerifiedFactors factors >=? 1
  then throw (forbiddenError
    "number of enrolled factors exceeds the allowed value, unenroll to continue")
  else
  match NewFactor env user (P_FriendlyName params) (P_FactorType params)
          FactorStateUnverified "" with
  | None => throw (internalServerError "database error creating factor" [])
  | Some factor =>
  let* err :=
    Transaction env
      (Create_factor env factor;;
       UpdateWebauthnConfiguration env session web;;
       NewAuditLogEntry env user EnrollFactorAction (RemoteAddr r)
         [("factor_id", TraitID (Factor_ID factor))]) in
  check err;;
  ret (FactorJSON factor)
  end end end end.

Definition EnrollFactor (env : Env) (config : Configuration) (r : Request)
    : M Response :=
  let user := ctx_user r in
  match getBodyBytes env 0 (Body r) with
  | None => throw (internalServerError "Could not read body" [])
  | Some body =>
  match json_EnrollFactorParams env body with
  | None => throw (badRequestError "invalid body: unable to parse JSON" [])
  | Some params =>
  if IsSSOUser user
  then throw (unprocessableEntityError
                "MFA enrollment only supported for non-SSO users at this time")
  else
  let factorType := P_FactorType params in
  if String.eqb factorType "webauthn"
  then EnrollWebAuthnFactor env config 1 r
  else
  if negb (String.eqb factorType TOTP)
  then throw (badRequestError "factor_type needs to be totp" [])
  else
  match (if String.eqb (P_Issuer params) ""
         then url_ParseRequestURI env (SiteURL config)
         else Some (P_Issuer params)) with
  | None => throw (internalServerError "site url is improperly formatted" [])
  | Some issuer =>
  let* factors :=
    wrap (fun _ => internalServerError
                     "error validating number of factors in system" [])
         (FindFactorsByUser env user) in
  if Z.of_nat (List.length factors) >=? MaxEnrolledFactors config
  then throw (forbiddenError
                "Enrolled factors exceed allowed limit, unenroll to continue")
  else
  if numVerifiedFactors factors >=? MaxVerifiedFactors config
  then throw (forbiddenError
           "Maximum number of enrolled factors reached, unenroll to continue")
  else
  match totp_Generate env issuer (GetEmail user) with
  | None =>
      throw (internalServerError "error generating QR Code secret key" [])
  | Some key =>
  match WriteQrSVG env key with
  | None => throw (internalServerError "error writing to QR Code" [])
  | Some buf =>
  match NewFactor env user (P_FriendlyName params) (P_FactorType params)
          FactorStateUnverified (Key_Secret key) with
  | None => throw (internalServerError "database error creating factor" [])
  | Some factor =>
  let* err :=
    Transaction env
      (Create_factor env factor;;
       NewAuditLogEntry env user EnrollFactorAction (RemoteAddr r)
         [("factor_id", TraitID (Factor_ID factor))]) in
  check err;;
  ret (EnrollFactorResponse (Factor_ID factor) TOTP
         {| QRCode := buf; TOTP_Secret := Secret factor; URI := Key_URL key |})
  end end end end end end.

(** [time.Second * time.Duration(config.MFA.ChallengeExpiryDuration)] *)
Definition expiryDuration (config : Configuration) : Z :=
  int64 (Second * int64 (ChallengeExpiryDuration config)).

(** The closure that stores the challenge and its audit entry; a challenge
    that could not be built cannot be stored. *)
Definition create_challenge_tx (env : Env) (r : Request)
    (challenge : option Challenge) : M unit :=
  match challenge with
  | None => throw (StorageError OpCreateChallenge)
  | Some c =>
      Create_challenge env c;;
      NewAuditLogEntry env (ctx_user r) CreateChallengeAction (RemoteAddr r)
        [("factor_id", TraitID (Factor_ID (ctx_factor r)));
         ("factor_status", TraitString (Status (ctx_factor r)))]
  end.

Definition ChallengeWebAuthnFactor (env : Env) (r : Request) : M Response :=
  let user := ctx_user r in
  let session := ctx_session r in
  let factor := ctx_factor r in
  let ipAddress := GetIPAddress r in
  let challenge := NewChallenge env factor ipAddress in
  let webMarshaled := WebauthnConfiguration session in
  match mapstructure_Decode env webMarshaled with
  | inl err => throw err
  | inr web =>
  let registrationSession := WebauthnRegistrationSession session in
  match registrationSession with
  | None =>
      match BeginLogin env web user with
      | inl err => throw err
      | inr (options, sessionData) =>
          let* err :=
            Transaction env
              (UpdateWebauthnLoginSession env session sessionData) in
          ret (OptionsJSON options)
      end
  | Some _ =>
      match BeginRegistration env web user with
      | inl err => throw err
      | inr (options, sessionData) =>
          let* err :=
            Transaction env
              (UpdateWebauthnRegistrationSession env session sessionData) in
          let* err := Transaction env (create_challenge_tx env r challenge) in
          check err;;
          ret (OptionsJSON options)
      end
  end end.

Definition ChallengeFactor (env : Env) (config : Configuration) (r : Request)
    : M Response :=
  let user := ctx_user r in
  let factor := ctx_factor r in
  let ipAddress := GetIPAddress r in
  match NewChallenge env factor ipAddress with
  | None => throw (internalServerError "Database error creating challenge" [])
  | Some challenge =>
  if String.eqb (FactorType factor) "webauthn"
  then ChallengeWebAuthnFactor env r
  else
  let* err := Transaction env (create_challenge_tx env r (Some challenge)) in
  check err;;
  let creationTime := CreatedAt challenge in
  let expiryTime := Add creationTime (expiryDuration config) in
  ret (ChallengeFactorResponse (Challenge_ID challenge) (Unix expiryTime))
  end.

(** The results of the first parse of the body and of the credential creation
    that follows it are printed and dropped; the parse counts as a read of the
    body, which it leaves at its end, so the parse of the chosen ceremony is
    read number [nreads + 2]. *)
Definition VerifyWebAuthnFactor (env : Env) (nreads : nat) (r : Request)
    : M Response :=
  let sessionData := SessionData_zero in
  let user := ctx_user r in
  let session := ctx_session r in
  let webMarshaled := WebauthnConfiguration session in
  match mapstructure_Decode env webMarshaled with
  | inl err => throw err
  | inr web =>
  match getBodyBytes env nreads (Body r) with
  | None => throw (internalServerError "Could not read body" [])
  | Some body =>
  if negb (json_ParsedCredentialCreationData env body)
  then throw (badRequestError "invalid body: unable to parse JSON" [])
  else
  let loginSession := WebauthnLoginSession session in
  let registrationSession := WebauthnRegistrationSession session in
  match registrationSession, loginSession with
  | Some _, _ =>
      match ParseCredentialCreationResponseBody env (nreads + 2) (Body r) with
      | inl err => throw err
      | inr parsedResponse =>
          match CreateCredential env web user sessionData parsedResponse with
          | inl err => throw err
          | inr credential => ret EmptyStringJSON
          end
      end
  | None, Some _ =>
      match ParseCredentialRequestResponseBody env (nreads + 2) (Body r) with
      | inl err => throw err
      | inr parsedResponse =>
          (* the error of ValidateLogin is not looked at *)
          let credential :=
            ValidateLogin env web user sessionData parsedResponse in
          ret EmptyStringJSON
      end
  | None, None =>
      throw (internalServerError "Please initiate a webauthn session" [])
  end end end.

Definition hasExpired (env : Env) (config : Configuration) (c : Challenge)
    : bool :=
  After (Now env) (Add (CreatedAt c) (expiryDuration config)).

(** The closure of the transaction that follows a valid TOTP code. *)
Definition verify_tx (env : Env) (r : Request) (challenge : Challenge)
    : M AccessTokenResponse :=
  let user := ctx_user r in
  let factor := ctx_factor r in
  NewAuditLogEntry env user VerifyFactorAction (RemoteAddr r)
    [("factor_id", TraitID (Factor_ID factor));
     ("challenge_id", TraitID (Challenge_ID challenge))];;
  Challenge_Verify env challenge;;
  (if negb (is_verified factor)
   then UpdateStatus env factor FactorStateVerified
   else ret tt);;
  let* user := FindUserByID env (User_ID user) in
  let* token := updateMFASessionAndClaims env r user (Factor_ID factor) in
  wrap (fun terr => internalServerError "Failed to set JWT cookie. %s"
                      [ArgErr terr])
       (setCookieTokens env token);;
  wrap (fun terr => internalServerError "Failed to update sessions. %s"
                      [ArgErr terr])
       (InvalidateSessionsWithAALLessThan env (User_ID user) AAL2);;
  wrap (fun terr => internalServerError "Error removing unverified factors. %s"
                      [ArgErr terr])
       (DeleteUnverifiedFactors env user);;
  ret token.

(** The login metering that follows the transaction writes to no table and
    is left out. *)
Definition VerifyFactor (env : Env) (config : Configuration) (r : Request)
    : M Response :=
  let user := ctx_user r in
  let factor := ctx_factor r in
  let currentIP := GetIPAddress r in
  match getBodyBytes env 0 (Body r) with
  | None => throw (internalServerError "Could not read body" [])
  | Some body =>
  match json_VerifyFactorParams env body with
  | None => throw (badRequestError "invalid body: unable to parse JSON" [])
  | Some params =>
  if negb (Nat.eqb (Factor_UserID factor) (User_ID user))
  then throw (internalServerError "user needs to own factor to verify" [])
  else
  let* found :=
    wrap (fun _ => internalServerError "Database error finding Challenge" [])
         (FindChallengeByChallengeID env (ChallengeID params)) in
  match found with
  | None => throw (notFoundError "Challenge not found")
  | Some challenge =>
  if match VerifiedAt challenge with Some _ => true | None => false end
     || negb (String.eqb (IPAddress challenge) currentIP)
  then throw (badRequestError "Challenge and verify IP addresses mismatch" [])
  else
  if hasExpired env config challenge
  then
    let* err :=
      Transaction env
        (wrap (fun terr =>
                 internalServerError "Database error deleting challenge" [])
              (Destroy_challenge env challenge)) in
    check err;;
    throw (badRequestError
      "%v has expired, verify against another challenge or create a new challenge."
      [ArgID (Challenge_ID challenge)])
  else
  if String.eqb (FactorType factor) "webauthn"
  then VerifyWebAuthnFactor env 1 r
  else
  if negb (totp_Validate env (Code params) (Secret factor))
  then throw (badRequestError "Invalid TOTP code entered" [])
  else
  let* err := Transaction env (verify_tx env r challenge) in
  let* token := check err in
  ret (AccessTokenJSON token)
  end end end.

Definition UnenrollFactor (env : Env) (r : Request) : M Response :=
  let user := ctx_user r in
  let factor := ctx_factor r in
  let session := ctx_session r in
  if is_verified factor
     && negb (String.eqb (GetAAL session) (AAL_String AAL2))
  then throw (badRequestError "AAL2 required to unenroll verified factor" [])
  else
  if negb (Nat.eqb (Factor_UserID factor) (User_ID user))
  then throw (internalServerError "user must own factor to unenroll" [])
  else
  let* err :=
    Transaction env
      (Destroy_factor env factor;;
       NewAuditLogEntry env user UnenrollFactorAction (RemoteAddr r)
         [("factor_id", TraitID (Factor_ID factor));
          ("factor_status", TraitString (Status factor));
          ("session_id", TraitID (Session_ID session))];;
       DowngradeSessionsToAAL1 env factor) in
  check err;;
  ret (UnenrollFactorResponse (Factor_ID factor)).

(** ** A concrete environment and database *)

Module Fixture.

Definition no_faults : Op -> bool := fun _ => false.

(** A toy engine: the body is the factor type on enrollment and the code on
    verification, and the TOTP code of a secret is the secret itself. The
    reads 0 and 1 of the body are the two calls of getBodyBytes, which put the
    bytes back; read 2 is the parse of the body that comes first in the
    WebAuthn verification and reads the body to its end; every later read
    finds the reader at its end and the parsers of the library fail. The
    clock and the two checks of the WebAuthn engine are left open. *)
Definition make_env (now : Time)
    (create validate : WebAuthn -> User -> SessionData -> string
                       -> Error + string) : Env :=
  {| Now := now;
     storage_fails := no_faults;
     NewFactorID := Some 10%nat;
     NewChallengeID := Some 21%nat;
     getBodyBytes := fun _ b => Some b;
     json_EnrollFactorParams := fun b =>
       Some {| P_FriendlyName := "key"; P_FactorType := b; P_Issuer := "" |};
     json_VerifyFactorParams := fun b =>
       Some {| ChallengeID := 20%nat; Code := b |};
     json_ParsedCredentialCreationData := fun _ => true;
     url_ParseRequestURI := fun u => Some u;
     totp_Generate := fun issuer account =>
       Some {| Key_Secret := "123456"; Key_URL := "otpauth://totp" |};
     WriteQrSVG := fun _ => Some "<svg/>";
     totp_Validate := String.eqb;
     webauthn_New_error := fun _ => None;
     mapstructure_Decode := fun w =>
       match w with
       | Some web => inr web
       | None => inl (LibraryError "no configuration")
       end;
     BeginLogin := fun _ _ =>
       inr ("assertion options",
            {| SD_Challenge := "login"; SD_UserID := "1" |});
     BeginRegistration := fun _ _ =>
       inr ("creation options",
            {| SD_Challenge := "registration"; SD_UserID := "1" |});
     ParseCredentialCreationResponseBody := fun n b =>
       if Nat.leb n 2 then inr b
       else inl (LibraryError "Parse error for Registration");
     CreateCredential := create;
     ParseCredentialRequestResponseBody := fun n b =>
       if Nat.leb n 2 then inr b
       else inl (LibraryError "Parse error for Assertion");
     ValidateLogin := validate;
     generateAccessToken := fun _ _ =>
       {| Token := "access"; RefreshToken := "refresh" |};
     downgrade_scope := fun f s => Nat.eqb (Session_UserID s) (Factor_UserID f)
  |}.

(** An engine that accepts every response. *)
Definition accept (web : WebAuthn) (user : User) (sd : SessionData)
    (parsed : string) : Error + string :=
  inr "credential".

Definition env : Env := make_env (1000 * Second) accept accept.

Definition config : Configuration :=
  {| SiteURL := "https://auth.example.com";
     MaxEnrolledFactors := 10;
     MaxVerifiedFactors := 10;
     ChallengeExpiryDuration := 300 |}.

Definition alice : User :=
  {| User_ID := 1%nat; IsSSOUser := false; Email := "alice@example.com" |}.

Definition web : WebAuthn := {| Config := webauthn_Config_literal |}.

Definition session (aal : AAL) (reg login : option SessionData) : Session :=
  {| Session_ID := 5%nat; Session_UserID := 1%nat; Session_AAL := aal;
     Session_FactorID := None; WebauthnConfiguration := Some web;
     WebauthnRegistrationSession := reg; WebauthnLoginSession := login |}.

Definition other_session : Session :=
  {| Session_ID := 6%nat; Session_UserID := 1%nat; Session_AAL := AAL1;
     Session_FactorID := None; WebauthnConfiguration := None;
     WebauthnRegistrationSession := None; WebauthnLoginSession := None |}.

Definition factor (type status secret : string) : Factor :=
  {| Factor_ID := 7%nat; Factor_UserID := 1%nat; FriendlyName := "key";
     FactorType := type; Status := status; Secret := secret |}.

Definition abandoned : Factor :=
  {| Factor_ID := 8%nat; Factor_UserID := 1%nat; FriendlyName := "old";
     FactorType := "totp"; Status := "unverified"; Secret := "654321" |}.

Definition challenge : Challenge :=
  {| Challenge_ID := 20%nat; Challenge_FactorID := 7%nat;
     CreatedAt := 900 * Second; VerifiedAt := None; IPAddress := "10.0.0.1" |}.

Definition db (f : Factor) (s : Session) : DB :=
  {| users := [alice]; factors := [f; abandoned]; challenges := [challenge];
     sessions := [s; other_session]; audit_log := [] |}.

Definition request (f : Factor) (s : Session) (body : string) : Request :=
  {| ctx_user := alice; ctx_factor := f; ctx_session := s; Body := body;
     RemoteAddr := "10.0.0.1:4000"; GetIPAddress := "10.0.0.1" |}.

Definition totp_factor : Factor := factor "totp" "unverified" "123456".

Definition webauthn_factor : Factor := factor "webauthn" "unverified" "".

Definition ceremony : SessionData :=
  {| SD_Challenge := "ceremony"; SD_UserID := "1" |}.

(** A session with no ceremony, with an assertion ceremony and with a
    registration ceremony in progress. *)
Definition plain_session : Session := session AAL1 None None.

Definition login_session : Session := session AAL1 None (Some ceremony).

Definition registration_session : Session :=
  session AAL1 (Some ceremony) None.

(** The same environment 400 seconds after the challenge was created. *)
Definition late_env : Env := make_env (1300 * Second) accept accept.

Definition access_token : AccessTokenResponse :=
  {| Token := "access"; RefreshToken := "refresh" |}.

Definition verified_factor : Factor := factor "totp" "verified" "123456".

(** A session on which no relying-party configuration is stored yet. *)
Definition new_session : Session :=
  {| Session_ID := 5%nat; Session_UserID := 1%nat; Session_AAL := AAL1;
     Session_FactorID := None; WebauthnConfiguration := None;
     WebauthnRegistrationSession := None; WebauthnLoginSession := None |}.

(** A service on another site, and one that allows no verified factor. *)
Definition other_config : Configuration :=
  {| SiteURL := "https://login.example.org";
     MaxEnrolledFactors := 5;
     MaxVerifiedFactors := 2;
     ChallengeExpiryDuration := 60 |}.

Definition strict_config : Configuration :=
  {| SiteURL := "https://auth.example.com";
     MaxEnrolledFactors := 10;
     MaxVerifiedFactors := 0;
     ChallengeExpiryDuration := 300 |}.

Definition enrolled_webauthn_factor : Factor :=
  {| Factor_ID := 10%nat; Factor_UserID := 1%nat; FriendlyName := "key";
     FactorType := "webauthn"; Status := "unverified"; Secret := "" |}.

Definition elevated_session : Session := session AAL2 None None.

End Fixture.

(** ** What a committed TOTP verification leaves in the database *)

(** Step 3: the promotion is skipped for a factor that is already verified. *)
Definition promote (factor : Factor) (fs : list Factor) : list Factor :=
  if is_verified factor then fs
  else map (set_status (Factor_ID factor) FactorStateVerified) fs.

Definition verify_audit_entry (r : Request) (c : Challenge) : AuditLogEntry :=
  {| Audit_Action := VerifyFactorAction;
     Audit_Actor := User_ID (ctx_user r);
     Audit_IP := RemoteAddr r;
     Audit_Traits := [("factor_id", TraitID (Factor_ID (ctx_factor r)));
                      ("challenge_id", TraitID (Challenge_ID c))] |}.

(** The database after the steps 1 to 8 of the verification transaction. *)
Definition db_after_verification (env : Env) (r : Request) (c : Challenge)
    (db : DB) : DB :=
  {| users := users db;
     factors :=
       filter (fun f => negb (owned_by (User_ID (ctx_user r)) f
                              && is_unverified f))
         (promote (ctx_factor r) (factors db));
     challenges :=
       map (mark_verified (Challenge_ID c) (Now env)) (challenges db);
     sessions :=
       filter (fun s => negb (Nat.eqb (Session_UserID s) (User_ID (ctx_user r))
                              && AAL_ltb (Session_AAL s) AAL2))
         (map (update_session (Session_ID (ctx_session r))
                 (with_elevation (Factor_ID (ctx_factor r)))) (sessions db));
     audit_log := audit_log db ++ [verify_audit_entry r c] |}.

(** The storage calls of the verification transaction, in source order. *)
Definition verify_ops (factor : Factor) : list Op :=
  [OpAuditLog; OpChallengeVerify]
  ++ (if is_verified factor then [] else [OpUpdateStatus])
  ++ [OpFindUserByID; OpUpdateMFASession; OpSetCookieTokens;
      OpInvalidateSessions; OpDeleteUnverifiedFactors; OpCommit].

(** ** What a committed unenrollment leaves in the database *)

Definition unenroll_audit_entry (r : Request) : AuditLogEntry :=
  {| Audit_Action := UnenrollFactorAction;
     Audit_Actor := User_ID (ctx_user r);
     Audit_IP := RemoteAddr r;
     Audit_Traits :=
       [("factor_id", TraitID (Factor_ID (ctx_factor r)));
        ("factor_status", TraitString (Status (ctx_factor r)));
        ("session_id", TraitID (Session_ID (ctx_session r)))] |}.

Definition db_after_unenrollment (env : Env) (r : Request) (db : DB) : DB :=
  {| users := users db;
     factors :=
       filter (fun g => negb (Nat.eqb (Factor_ID g)
                                (Factor_ID (ctx_factor r))))
         (factors db);
     challenges := challenges db;
     sessions :=
       map (fun s => if downgrade_scope env (ctx_factor r) s
                     then with_AAL AAL1 s else s)
         (sessions db);
     audit_log := audit_log db ++ [unenroll_audit_entry r] |}.

(** ** What a committed WebAuthn enrollment leaves in the database *)

Definition enroll_audit_entry (r : Request) (factor : Factor)
    : AuditLogEntry :=
  {| Audit_Action := EnrollFactorAction;
     Audit_Actor := User_ID (ctx_user r);
     Audit_IP := RemoteAddr r;
     Audit_Traits := [("factor_id", TraitID (Factor_ID factor))] |}.

Definition db_after_webauthn_enrollment (r : Request) (factor : Factor)
    (db : DB) : DB :=
  {| users := users db;
     factors := factors db ++ [factor];
     challenges := challenges db;
     sessions :=
       map (update_session (Session_ID (ctx_session r))
              (with_WebauthnConfiguration
                 {| Config := webauthn_Config_literal |}))
         (sessions db);
     audit_log := audit_log db ++ [enroll_audit_entry r factor] |}.

(** The request with other session data in the request context. *)
Definition with_ctx_session (s : Session) (r : Request) : Request :=
  {| ctx_user := ctx_user r; ctx_factor := ctx_factor r; ctx_session := s;
     Body := Body r; RemoteAddr := RemoteAddr r;
     GetIPAddress := GetIPAddress r |}.

(** The storage calls of the unenrollment transaction. *)
Definition unenroll_ops : list Op :=
  [OpDestroyFactor; OpAuditLog; OpDowngradeSessions; OpCommit].

(** The factor set the caps of the enrollment are checked on. *)
Definition factors_of_user (r : Request) (db : DB) : list Factor :=
  filter (owned_by (User_ID (ctx_user r))) (factors db).

Definition find_user (id : uuid) (db : DB) : option User :=
  find (fun u => Nat.eqb (User_ID u) id) (users db).

Definition find_challenge (id : uuid) (db : DB) : option Challenge :=
  find (fun c => Nat.eqb (Challenge_ID c) id) (challenges db).

(** ** What a committed challenge and a committed TOTP enrollment leave *)

Definition challenge_audit_entry (r : Request) : AuditLogEntry :=
  {| Audit_Action := CreateChallengeAction;
     Audit_Actor := User_ID (ctx_user r);
     Audit_IP := RemoteAddr r;
     Audit_Traits :=
       [("factor_id", TraitID (Factor_ID (ctx_factor r)));
        ("factor_status", TraitString (Status (ctx_factor r)))] |}.

Definition db_after_challenge (r : Request) (c : Challenge) (db : DB) : DB :=
  {| users := users db;
     factors := factors db;
     challenges := challenges db ++ [c];
     sessions := sessions db;
     audit_log := audit_log db ++ [challenge_audit_entry r] |}.

Definition db_after_totp_enrollment (r : Request) (factor : Factor) (db : DB)
    : DB :=
  {| users := users db;
     factors := factors db ++ [factor];
     challenges := challenges db;
     sessions := sessions db;
     audit_log := audit_log db ++ [enroll_audit_entry r factor] |}.

(** The error of an expired challenge. *)
Definition expired_error (c : Challenge) : Error :=
  badRequestError
    "%v has expired, verify against another challenge or create a new challenge."
    [ArgID (Challenge_ID c)].

Definition destroy_challenge (c : Challenge) (db : DB) : DB :=
  set_challenges db
    (filter (fun d => negb (Nat.eqb (Challenge_ID d) (Challenge_ID c)))
       (challenges db)).

(** ** Further scenarios *)

Module Scenario.

(** The environment with other answers of the storage. *)
Definition with_faults (faults : Op -> bool) (e : Env) : Env :=
  {| Now := Now e;
     storage_fails := faults;
     NewFactorID := NewFactorID e;
     NewChallengeID := NewChallengeID e;
     getBodyBytes := getBodyBytes e;
     json_EnrollFactorParams := json_EnrollFactorParams e;
     json_VerifyFactorParams := json_VerifyFactorParams e;
     json_ParsedCredentialCreationData := json_ParsedCredentialCreationData e;
     url_ParseRequestURI := url_ParseRequestURI e;
     totp_Generate := totp_Generate e;
     WriteQrSVG := WriteQrSVG e;
     totp_Validate := totp_Validate e;
     webauthn_New_error := webauthn_New_error e;
     mapstructure_Decode := mapstructure_Decode e;
     BeginLogin := BeginLogin e;
     BeginRegistration := BeginRegistration e;
     ParseCredentialCreationResponseBody :=
       ParseCredentialCreationResponseBody e;
     CreateCredential := CreateCredential e;
     ParseCredentialRequestResponseBody := ParseCredentialRequestResponseBody e;
     ValidateLogin := ValidateLogin e;
     generateAccessToken := generateAccessToken e;
     downgrade_scope := downgrade_scope e |}.

Definition Op_tag (op : Op) : nat :=
  match op with
  | OpFindFactorsByUser => 0
  | OpCreateFactor => 1
  | OpCreateChallenge => 2
  | OpAuditLog => 3
  | OpUpdateWebauthnConfiguration => 4
  | OpUpdateWebauthnLoginSession => 5
  | OpUpdateWebauthnRegistrationSession => 6
  | OpFindChallenge => 7
  | OpDestroyChallenge => 8
  | OpChallengeVerify => 9
  | OpUpdateStatus => 10
  | OpFindUserByID => 11
  | OpUpdateMFASession => 12
  | OpSetCookieTokens => 13
  | OpInvalidateSessions => 14
  | OpDeleteUnverifiedFactors => 15
  | OpDestroyFactor => 16
  | OpDowngradeSessions => 17
  | OpCommit => 18
  end%nat.

(** Only the given call fails. *)
Definition only (op : Op) : Op -> bool :=
  fun o => Nat.eqb (Op_tag op) (Op_tag o).

(** A verification that names the challenge the environment issues next. *)
Definition with_challenge_id (id : uuid) (e : Env) : Env :=
  {| Now := Now e;
     storage_fails := storage_fails e;
     NewFactorID := NewFactorID e;
     NewChallengeID := NewChallengeID e;
     getBodyBytes := getBodyBytes e;
     json_EnrollFactorParams := json_EnrollFactorParams e;
     json_VerifyFactorParams := fun b =>
       Some {| ChallengeID := id; Code := b |};
     json_ParsedCredentialCreationData := json_ParsedCredentialCreationData e;
     url_ParseRequestURI := url_ParseRequestURI e;
     totp_Generate := totp_Generate e;
     WriteQrSVG := WriteQrSVG e;
     totp_Validate := totp_Validate e;
     webauthn_New_error := webauthn_New_error e;
     mapstructure_Decode := mapstructure_Decode e;
     BeginLogin := BeginLogin e;
     BeginRegistration := BeginRegistration e;
     ParseCredentialCreationResponseBody :=
       ParseCredentialCreationResponseBody e;
     CreateCredential := CreateCredential e;
     ParseCredentialRequestResponseBody := ParseCredentialRequestResponseBody e;
     ValidateLogin := ValidateLogin e;
     generateAccessToken := generateAccessToken e;
     downgrade_scope := downgrade_scope e |}.

(** A second user with a TOTP factor of her own. *)
Definition bob : User :=
  {| User_ID := 2%nat; IsSSOUser := false; Email := "bob@example.com" |}.

Definition bob_factor : Factor :=
  {| Factor_ID := 9%nat; Factor_UserID := 2%nat; FriendlyName := "phone";
     FactorType := "totp"; Status := "unverified"; Secret := "777777" |}.

Definition bob_session : Session :=
  {| Session_ID := 11%nat; Session_UserID := 2%nat; Session_AAL := AAL1;
     Session_FactorID := None; WebauthnConfiguration := None;
     WebauthnRegistrationSession := None; WebauthnLoginSession := None |}.

Definition sso_user : User :=
  {| User_ID := 3%nat; IsSSOUser := true; Email := "carol@example.com" |}.

(** A database with both users. *)
Definition db : DB :=
  {| users := [Fixture.alice; bob];
     factors := [Fixture.totp_factor; bob_factor];
     challenges := [Fixture.challenge];
     sessions := [Fixture.plain_session; bob_session];
     audit_log := [] |}.

Definition request (user : User) (f : Factor) (s : Session) (body ip : string)
    : Request :=
  {| ctx_user := user; ctx_factor := f; ctx_session := s; Body := body;
     RemoteAddr := ip; GetIPAddress := ip |}.

(** A service that allows two factors per user. *)
Definition small_config : Configuration :=
  {| SiteURL := "https://auth.example.com";
     MaxEnrolledFactors := 2;
     MaxVerifiedFactors := 10;
     ChallengeExpiryDuration := 300 |}.

(** The service of the fixture moved to another site. *)
Definition moved_config : Configuration :=
  {| SiteURL := "https://login.example.org";
     MaxEnrolledFactors := 10;
     MaxVerifiedFactors := 10;
     ChallengeExpiryDuration := 300 |}.

(** The environment with another decoding of the enrollment body and another
    parser of the site address. *)
Definition with_enroll (json : string -> option EnrollFactorParams)
    (url : string -> option string) (e : Env) : Env :=
  {| Now := Now e;
     storage_fails := storage_fails e;
     NewFactorID := NewFactorID e;
     NewChallengeID := NewChallengeID e;
     getBodyBytes := getBodyBytes e;
     json_EnrollFactorParams := json;
     json_VerifyFactorParams := json_VerifyFactorParams e;
     json_ParsedCredentialCreationData := json_ParsedCredentialCreationData e;
     url_ParseRequestURI := url;
     totp_Generate := totp_Generate e;
     WriteQrSVG := WriteQrSVG e;
     totp_Validate := totp_Validate e;
     webauthn_New_error := webauthn_New_error e;
     mapstructure_Decode := mapstructure_Decode e;
     BeginLogin := BeginLogin e;
     BeginRegistration := BeginRegistration e;
     ParseCredentialCreationResponseBody :=
       ParseCredentialCreationResponseBody e;
     CreateCredential := CreateCredential e;
     ParseCredentialRequestResponseBody := ParseCredentialRequestResponseBody e;
     ValidateLogin := ValidateLogin e;
     generateAccessToken := generateAccessToken e;
     downgrade_scope := downgrade_scope e |}.

(** The body names the issuer, and no site address parses. *)
Definition issuer_env : Env :=
  with_enroll
    (fun b => Some {| P_FriendlyName := "key"; P_FactorType := b;
                      P_Issuer := "Example" |})
    (fun _ => None) Fixture.env.

(** The body names no issuer, and no site address parses. *)
Definition no_site_env : Env :=
  with_enroll (json_EnrollFactorParams Fixture.env) (fun _ => None)
    Fixture.env.

End Scenario.

(** ** The request body as a reader *)

(** Read [n] of the request body finds the reader at its end: the decoder of
    either parser of the library returns its parse error. This is the case of
    every read that follows a parse: a parse reads the body to its end and,
    unlike getBodyBytes, does not put it back. *)
Definition body_consumed (env : Env) (n : nat) : Prop :=
  (forall b, exists e, ParseCredentialCreationResponseBody env n b = inl e)
  /\ (forall b, exists e, ParseCredentialRequestResponseBody env n b = inl e).

(** ** Expected databases *)

Module Expected.

(** Alice's challenge marked verified at second 1000. *)
Definition consumed_challenge : Challenge :=
  {| Challenge_ID := 20%nat; Challenge_FactorID := 7%nat;
     CreatedAt := 900000000000; VerifiedAt := Some 1000000000000;
     IPAddress := "10.0.0.1" |}.

Definition elevated (config : option WebAuthn) : Session :=
  {| Session_ID := 5%nat; Session_UserID := 1%nat; Session_AAL := AAL2;
     Session_FactorID := Some 7%nat; WebauthnConfiguration := config;
     WebauthnRegistrationSession := None; WebauthnLoginSession := None |}.

Definition verify_entry : AuditLogEntry :=
  {| Audit_Action := VerifyFactorAction; Audit_Actor := 1%nat;
     Audit_IP := "10.0.0.1:4000";
     Audit_Traits := [("factor_id", TraitID 7%nat);
                      ("challenge_id", TraitID 20%nat)] |}.

(** The fixture database after Alice verified her unverified TOTP factor:
    the factor promoted, her abandoned factor and her other AAL1 session
    gone, her session elevated, the challenge consumed, one audit entry. *)
Definition after_verification : DB :=
  {| users := [Fixture.alice];
     factors := [Fixture.verified_factor];
     challenges := [consumed_challenge];
     sessions := [elevated (Some Fixture.web)];
     audit_log := [verify_entry] |}.

(** The fixture database after the expired challenge was destroyed. *)
Definition after_expiry : DB :=
  {| users := [Fixture.alice];
     factors := [Fixture.totp_factor; Fixture.abandoned];
     challenges := [];
     sessions := [Fixture.plain_session; Fixture.other_session];
     audit_log := [] |}.

Definition unenroll_entry : AuditLogEntry :=
  {| Audit_Action := UnenrollFactorAction; Audit_Actor := 1%nat;
     Audit_IP := "10.0.0.1:4000";
     Audit_Traits := [("factor_id", TraitID 7%nat);
                      ("factor_status", TraitString "verified");
                      ("session_id", TraitID 5%nat)] |}.

(** The fixture database after Alice removed her verified factor from her
    AAL2 session: the factor row gone, both her sessions at AAL1, one audit
    entry. *)
Definition after_unenrollment : DB :=
  {| users := [Fixture.alice];
     factors := [Fixture.abandoned];
     challenges := [Fixture.challenge];
     sessions := [Fixture.plain_session; Fixture.other_session];
     audit_log := [unenroll_entry] |}.

Definition enroll_entry : AuditLogEntry :=
  {| Audit_Action := EnrollFactorAction; Audit_Actor := 1%nat;
     Audit_IP := "10.0.0.1:4000";
     Audit_Traits := [("factor_id", TraitID 10%nat)] |}.

Definition ngrok : WebAuthn :=
  {| Config :=
       {| RPDisplayName := "Go Webauthn";
          RPID := "2175-203-116-4-74.ap.ngrok.io";
          RPOrigin := "https://2175-203-116-4-74.ap.ngrok.io";
          RPIcon := "https://go-webauthn.local/logo.png" |} |}.

Definition configured_session : Session :=
  {| Session_ID := 5%nat; Session_UserID := 1%nat; Session_AAL := AAL1;
     Session_FactorID := None; WebauthnConfiguration := Some ngrok;
     WebauthnRegistrationSession := None; WebauthnLoginSession := None |}.

(** The fixture database after Alice enrolled a WebAuthn factor. *)
Definition after_webauthn_enrollment : DB :=
  {| users := [Fixture.alice];
     factors := [Fixture.totp_factor; Fixture.abandoned;
                 Fixture.enrolled_webauthn_factor];
     challenges := [Fixture.challenge];
     sessions := [configured_session; Fixture.other_session];
     audit_log := [enroll_entry] |}.

End Expected.
(** ** Basic facts *)

Lemma Transaction_is_value {A : Type} (env : Env) (body : M A) (db : DB) :
  exists res db', Transaction env body db = (inr res, db').
Proof.
  unfold Transaction.
  destruct (body db) as [[e | a] db1].
  - eauto.
  - destruct (storage_fails env OpCommit); eauto.
Qed.

(** A transaction that returns an error leaves the database as it was. *)
Lemma Transaction_rollback {A : Type} (env : Env) (body : M A) (db db' : DB)
    (e : Error) (res : Error + (Error + A)) :
  Transaction env body db = (res, db') ->
  res = inr (inl e) -> db' = db.
Proof.
  unfold Transaction.
  destruct (body db) as [[e1 | a] db1].
  - intros H _. now inversion H.
  - destruct (storage_fails env OpCommit); intros H Hres.
    + now inversion H.
    + inversion H; subst. discriminate.
Qed.

Lemma Transaction_commit {A : Type} (env : Env) (body : M A) (db db' : DB)
    (a : A) :
  body db = (inr a, db') ->
  storage_fails env OpCommit = false ->
  Transaction env body db = (inr (inr a), db').
Proof.
  intros Hb Hc. unfold Transaction. now rewrite Hb, Hc.
Qed.

Lemma Transaction_abort {A : Type} (env : Env) (body : M A) (db db' : DB)
    (e : Error) :
  body db = (inl e, db') ->
  Transaction env body db = (inr (inl e), db).
Proof.
  intros Hb. unfold Transaction. now rewrite Hb.
Qed.

Lemma numVerifiedFactors_from (fs : list Factor) (n : Z) :
  fold_left (fun n f => if is_verified f then n + 1 else n) fs n
  = n + Z.of_nat (List.length (filter is_verified fs)).
Proof.
  revert n. induction fs as [| f fs IH]; intros n; simpl.
  - lia.
  - rewrite IH. destruct (is_verified f); simpl List.length; lia.
Qed.

Lemma numVerifiedFactors_count (fs : list Factor) :
  numVerifiedFactors fs = Z.of_nat (List.length (filter is_verified fs)).
Proof.
  unfold numVerifiedFactors. now rewrite numVerifiedFactors_from.
Qed.

Lemma find_user_ID (id : uuid) (db : DB) (u : User) :
  find_user id db = Some u -> User_ID u = id.
Proof.
  unfold find_user. intros H. apply find_some in H as [_ H].
  now apply Nat.eqb_eq.
Qed.

Lemma find_challenge_ID (id : uuid) (db : DB) (c : Challenge) :
  find_challenge id db = Some c -> Challenge_ID c = id.
Proof.
  unfold find_challenge. intros H. apply find_some in H as [_ H].
  now apply Nat.eqb_eq.
Qed.

Lemma mark_verified_ID (id : uuid) (now : Time) (c : Challenge) :
  Challenge_ID (mark_verified id now c) = Challenge_ID c.
Proof.
  unfold mark_verified. now destruct (Nat.eqb (Challenge_ID c) id).
Qed.

(** Marking a challenge verified is seen by every later lookup of it. *)
Lemma find_challenge_marked (id : uuid) (now : Time) (cs : list Challenge)
    (c : Challenge) :
  find (fun d => Nat.eqb (Challenge_ID d) id) cs = Some c ->
  exists c',
    find (fun d => Nat.eqb (Challenge_ID d) id) (map (mark_verified id now) cs)
    = Some c'
    /\ VerifiedAt c' = Some now.
Proof.
  induction cs as [| d cs IH]; simpl; [discriminate |].
  rewrite mark_verified_ID.
  destruct (Nat.eqb (Challenge_ID d) id) eqn:E.
  - intros _. eexists. split; [reflexivity |].
    unfold mark_verified. now rewrite E.
  - exact IH.
Qed.

Lemma Op_eq_dec (a b : Op) : {a = b} + {a <> b}.
Proof.
  decide equality.
Qed.

(** ** The verification transaction *)

Ltac unfold_M :=
  unfold storage, bind, wrap, throw, ret, get, put, check in *.

Ltac unfold_verify_tx :=
  unfold verify_tx, NewAuditLogEntry, Challenge_Verify, UpdateStatus,
    FindUserByID, updateMFASessionAndClaims, setCookieTokens,
    InvalidateSessionsWithAALLessThan, DeleteUnverifiedFactors in *;
  unfold_M.

(** Without storage errors, and with the user's row in place, the closure
    runs through its eight steps. *)
Lemma verify_tx_ok (env : Env) (r : Request) (c : Challenge) (db : DB)
    (u : User) :
  (forall op, In op (verify_ops (ctx_factor r)) ->
              storage_fails env op = false) ->
  find_user (User_ID (ctx_user r)) db = Some u ->
  verify_tx env r c db
  = (inr (generateAccessToken env u (Session_ID (ctx_session r))),
     db_after_verification env r c db).
Proof.
  intros Hnf Hu.
  pose proof (find_user_ID _ _ _ Hu) as Hid.
  unfold find_user in Hu.
  unfold db_after_verification, promote, verify_ops in *.
  unfold_verify_tx.
  destruct (is_verified (ctx_factor r)) eqn:Ev; cbn [negb app] in *;
    repeat (rewrite Hnf by (cbn; tauto)); cbn;
    rewrite Hu; cbn; rewrite Hid; reflexivity.
Qed.

(** Whatever the storage does, a closure that returns a token has run
    through its eight steps. *)
Lemma verify_tx_inv (env : Env) (r : Request) (c : Challenge) (db db' : DB)
    (token : AccessTokenResponse) :
  verify_tx env r c db = (inr token, db') ->
  db' = db_after_verification env r c db.
Proof.
  unfold db_after_verification, promote.
  unfold_verify_tx.
  destruct (storage_fails env OpAuditLog); [discriminate |].
  destruct (storage_fails env OpChallengeVerify); [discriminate |].
  destruct (is_verified (ctx_factor r)) eqn:Ev; cbn [negb];
    [| destruct (storage_fails env OpUpdateStatus); [discriminate |] ];
    (destruct (storage_fails env OpFindUserByID); [discriminate |]);
    cbn;
    (destruct (find _ (users db)) as [u |] eqn:Hu; [| discriminate]);
    apply find_some in Hu as [_ Hid]; apply Nat.eqb_eq in Hid;
    (destruct (storage_fails env OpUpdateMFASession); [discriminate |]);
    (destruct (storage_fails env OpSetCookieTokens); [discriminate |]);
    (destruct (storage_fails env OpInvalidateSessions); [discriminate |]);
    (destruct (storage_fails env OpDeleteUnverifiedFactors);
       [discriminate |]);
    cbn; rewrite Hid; intros H; inversion H; reflexivity.
Qed.

(** ** The WebAuthn verification writes nothing *)

Lemma VerifyWebAuthnFactor_db (env : Env) (nreads : nat) (r : Request)
    (db : DB) :
  snd (VerifyWebAuthnFactor env nreads r db) = db.
Proof.
  unfold VerifyWebAuthnFactor. unfold_M.
  repeat match goal with
         | |- context [match ?x with _ => _ end] => destruct x
         | |- context [if ?x then _ else _] => destruct x
         end; reflexivity.
Qed.

Lemma VerifyWebAuthnFactor_response (env : Env) (nreads : nat) (r : Request)
    (db db' : DB) (resp : Response) :
  VerifyWebAuthnFactor env nreads r db = (inr resp, db') ->
  resp = EmptyStringJSON /\ db' = db.
Proof.
  unfold VerifyWebAuthnFactor. unfold_M.
  repeat match goal with
         | |- context [match ?x with _ => _ end] => destruct x
         | |- context [if ?x then _ else _] => destruct x
         end; intros H; inversion H; auto.
Qed.

(** A parse of the body that finds the reader at its end fails in either
    ceremony, and so does the WebAuthn verification: with a ceremony on the
    session it returns the parse error, without one the state error. *)
Lemma VerifyWebAuthnFactor_body_consumed (env : Env) (nreads : nat)
    (r : Request) (db : DB) :
  body_consumed env (nreads + 2) ->
  exists e, VerifyWebAuthnFactor env nreads r db = (inl e, db).
Proof.
  intros [Hc Hr]. unfold VerifyWebAuthnFactor. unfold_M.
  destruct (mapstructure_Decode env _); [eauto |].
  destruct (getBodyBytes env nreads (Body r)); [| eauto].
  destruct (negb _); [eauto |].
  destruct (WebauthnRegistrationSession _).
  - destruct (Hc (Body r)) as [e ->]. eauto.
  - destruct (WebauthnLoginSession _); [| eauto].
    destruct (Hr (Body r)) as [e ->]. eauto.
Qed.

(** ** The guards of the verification, in source order *)

Section VerifyGuards.

Variables (env : Env) (config : Configuration) (r : Request) (db : DB).
Variables (body : string) (params : VerifyFactorParams).

Hypothesis Hbody : getBodyBytes env 0 (Body r) = Some body.
Hypothesis Hjson : json_VerifyFactorParams env body = Some params.

Lemma VerifyFactor_not_owner :
  Factor_UserID (ctx_factor r) <> User_ID (ctx_user r) ->
  VerifyFactor env config r db
  = (inl (internalServerError "user needs to own factor to verify" []), db).
Proof.
  intros Hown. apply Nat.eqb_neq in Hown.
  unfold VerifyFactor. rewrite Hbody, Hjson, Hown. reflexivity.
Qed.

Hypothesis Hown : Factor_UserID (ctx_factor r) = User_ID (ctx_user r).

Lemma VerifyFactor_lookup_error :
  storage_fails env OpFindChallenge = true ->
  VerifyFactor env config r db
  = (inl (internalServerError "Database error finding Challenge" []), db).
Proof.
  intros Hf. unfold VerifyFactor.
  rewrite Hbody, Hjson, Hown, Nat.eqb_refl. cbn [negb].
  unfold FindChallengeByChallengeID. unfold_M. rewrite Hf. reflexivity.
Qed.

Hypothesis Hlookup : storage_fails env OpFindChallenge = false.

Lemma VerifyFactor_not_found :
  find_challenge (ChallengeID params) db = None ->
  VerifyFactor env config r db
  = (inl (notFoundError "Challenge not found"), db).
Proof.
  unfold find_challenge. intros Hc. unfold VerifyFactor.
  rewrite Hbody, Hjson, Hown, Nat.eqb_refl. cbn [negb].
  unfold FindChallengeByChallengeID. unfold_M. rewrite Hlookup, Hc.
  reflexivity.
Qed.

Variable c : Challenge.
Hypothesis Hfound : find_challenge (ChallengeID params) db = Some c.

(** The single-use and address check. *)
Lemma VerifyFactor_replay_or_ip :
  VerifiedAt c <> None \/ IPAddress c <> GetIPAddress r ->
  VerifyFactor env config r db
  = (inl (badRequestError "Challenge and verify IP addresses mismatch" []),
     db).
Proof.
  intros Hc. unfold find_challenge in Hfound. unfold VerifyFactor.
  rewrite Hbody, Hjson, Hown, Nat.eqb_refl. cbn [negb].
  unfold FindChallengeByChallengeID. unfold_M. rewrite Hlookup, Hfound.
  destruct Hc as [Hc | Hc].
  - destruct (VerifiedAt c); [reflexivity | congruence].
  - apply String.eqb_neq in Hc. rewrite Hc. cbn [negb].
    rewrite orb_true_r. reflexivity.
Qed.

Hypothesis Hfresh : VerifiedAt c = None.
Hypothesis Hip : IPAddress c = GetIPAddress r.

(** The lazy expiry: the challenge is destroyed in a transaction of its
    own. *)
Lemma VerifyFactor_expired :
  hasExpired env config c = true ->
  storage_fails env OpDestroyChallenge = false ->
  storage_fails env OpCommit = false ->
  VerifyFactor env config r db
  = (inl (badRequestError
      "%v has expired, verify against another challenge or create a new challenge."
      [ArgID (Challenge_ID c)]),
     set_challenges db
       (filter (fun d => negb (Nat.eqb (Challenge_ID d) (Challenge_ID c)))
          (challenges db))).
Proof.
  intros Hexp Hd Hcommit. unfold find_challenge in Hfound.
  unfold VerifyFactor.
  rewrite Hbody, Hjson, Hown, Nat.eqb_refl. cbn [negb].
  unfold FindChallengeByChallengeID. unfold_M. rewrite Hlookup, Hfound.
  rewrite Hfresh, Hip, String.eqb_refl, Hexp. cbn [negb orb].
  unfold Transaction, Destroy_challenge. unfold_M.
  rewrite Hd, Hcommit. reflexivity.
Qed.

(** When the challenge cannot be destroyed the call fails and nothing is
    written. *)
Lemma VerifyFactor_expired_not_destroyed :
  hasExpired env config c = true ->
  storage_fails env OpDestroyChallenge = true
  \/ storage_fails env OpCommit = true ->
  exists e, VerifyFactor env config r db = (inl e, db).
Proof.
  intros Hexp Hf. unfold find_challenge in Hfound.
  unfold VerifyFactor.
  rewrite Hbody, Hjson, Hown, Nat.eqb_refl. cbn [negb].
  unfold FindChallengeByChallengeID. unfold_M. rewrite Hlookup, Hfound.
  rewrite Hfresh, Hip, String.eqb_refl, Hexp. cbn [negb orb].
  unfold Transaction, Destroy_challenge. unfold_M.
  destruct (storage_fails env OpDestroyChallenge) eqn:Hd.
  - eauto.
  - destruct Hf as [Hf | Hf]; [discriminate |]. rewrite Hf. eauto.
Qed.

Hypothesis Hlive : hasExpired env config c = false.

(** Only now is the factor type looked at. *)
Lemma VerifyFactor_dispatch :
  VerifyFactor env config r db
  = if String.eqb (FactorType (ctx_factor r)) "webauthn"
    then VerifyWebAuthnFactor env 1 r db
    else if negb (totp_Validate env (Code params) (Secret (ctx_factor r)))
    then (inl (badRequestError "Invalid TOTP code entered" []), db)
    else match Transaction env (verify_tx env r c) db with
         | (inr (inr token), db') => (inr (AccessTokenJSON token), db')
         | (inr (inl e), db') => (inl e, db')
         | (inl e, db') => (inl e, db')
         end.
Proof.
  unfold find_challenge in Hfound. unfold VerifyFactor.
  rewrite Hbody, Hjson, Hown, Nat.eqb_refl. cbn [negb].
  unfold FindChallengeByChallengeID. unfold_M. rewrite Hlookup, Hfound.
  rewrite Hfresh, Hip, String.eqb_refl, Hlive. cbn [negb orb].
  destruct (String.eqb (FactorType (ctx_factor r)) "webauthn");
    [reflexivity |].
  destruct (negb (totp_Validate env (Code params) (Secret (ctx_factor r))));
    [reflexivity |].
  destruct (Transaction env (verify_tx env r c) db) as [[e | [e | t]] db1];
    reflexivity.
Qed.

Hypothesis Htotp : FactorType (ctx_factor r) <> "webauthn".

Lemma VerifyFactor_invalid_code :
  totp_Validate env (Code params) (Secret (ctx_factor r)) = false ->
  VerifyFactor env config r db
  = (inl (badRequestError "Invalid TOTP code entered" []), db).
Proof.
  intros Hcode. rewrite VerifyFactor_dispatch.
  apply String.eqb_neq in Htotp. rewrite Htotp, Hcode. reflexivity.
Qed.

Hypothesis Hcode :
  totp_Validate env (Code params) (Secret (ctx_factor r)) = true.

(** A valid code, no storage error, the user's row in place: the
    transaction commits and the token is returned. *)
Lemma VerifyFactor_totp_commit (u : User) :
  (forall op, In op (verify_ops (ctx_factor r)) ->
              storage_fails env op = false) ->
  find_user (User_ID (ctx_user r)) db = Some u ->
  VerifyFactor env config r db
  = (inr (AccessTokenJSON
            (generateAccessToken env u (Session_ID (ctx_session r)))),
     db_after_verification env r c db).
Proof.
  intros Hnf Hu. rewrite VerifyFactor_dispatch.
  apply String.eqb_neq in Htotp. rewrite Htotp, Hcode. cbn [negb].
  rewrite (Transaction_commit _ _ _ _ _ (verify_tx_ok _ _ _ _ _ Hnf Hu)).
  - reflexivity.
  - apply Hnf. unfold verify_ops.
    rewrite !in_app_iff. right. right. cbn. tauto.
Qed.

(** A valid code: either the eight steps are committed together, or the
    call fails and the database is the one it started from. *)
Lemma VerifyFactor_totp_atomic :
  (exists token,
     VerifyFactor env config r db
     = (inr (AccessTokenJSON token), db_after_verification env r c db))
  \/ (exists e, VerifyFactor env config r db = (inl e, db)).
Proof.
  rewrite VerifyFactor_dispatch.
  apply String.eqb_neq in Htotp. rewrite Htotp, Hcode. cbn [negb].
  unfold Transaction.
  destruct (verify_tx env r c db) as [[e | token] db1] eqn:Htx.
  - right. eauto.
  - destruct (storage_fails env OpCommit).
    + right. eauto.
    + left. apply verify_tx_inv in Htx. subst db1. eauto.
Qed.

End VerifyGuards.

(** A closure that returns a token met no storage error on its way. *)
Lemma verify_tx_no_fault (env : Env) (r : Request) (c : Challenge)
    (db db' : DB) (token : AccessTokenResponse) (op : Op) :
  verify_tx env r c db = (inr token, db') ->
  In op (verify_ops (ctx_factor r)) -> op <> OpCommit ->
  storage_fails env op = false.
Proof.
  unfold verify_ops. unfold_verify_tx.
  destruct (storage_fails env OpAuditLog) eqn:E1; [discriminate |].
  destruct (storage_fails env OpChallengeVerify) eqn:E2; [discriminate |].
  destruct (is_verified (ctx_factor r)) eqn:Ev; cbn [negb app];
    [| destruct (storage_fails env OpUpdateStatus) eqn:E3; [discriminate |] ];
    (destruct (storage_fails env OpFindUserByID) eqn:E4; [discriminate |]);
    cbn;
    (destruct (find _ (users db)) as [u |]; [| discriminate]);
    (destruct (storage_fails env OpUpdateMFASession) eqn:E5;
       [discriminate |]);
    (destruct (storage_fails env OpSetCookieTokens) eqn:E6; [discriminate |]);
    (destruct (storage_fails env OpInvalidateSessions) eqn:E7;
       [discriminate |]);
    (destruct (storage_fails env OpDeleteUnverifiedFactors) eqn:E8;
       [discriminate |]);
    intros _ Hin Hne; cbn in Hin;
    repeat (destruct Hin as [<- | Hin]; [assumption || congruence |]);
    contradiction.
Qed.

(** What a call of [VerifyFactor] that does not fail has done. *)
Lemma VerifyFactor_success_inv (env : Env) (config : Configuration)
    (r : Request) (db db' : DB) (resp : Response) :
  VerifyFactor env config r db = (inr resp, db') ->
  (FactorType (ctx_factor r) = "webauthn"
   /\ resp = EmptyStringJSON /\ db' = db)
  \/ (exists body params c token,
        getBodyBytes env 0 (Body r) = Some body
        /\ json_VerifyFactorParams env body = Some params
        /\ find_challenge (ChallengeID params) db = Some c
        /\ VerifiedAt c = None
        /\ FactorType (ctx_factor r) <> "webauthn"
        /\ verify_tx env r c db = (inr token, db')
        /\ storage_fails env OpCommit = false
        /\ resp = AccessTokenJSON token
        /\ db' = db_after_verification env r c db).
Proof.
  destruct (getBodyBytes env 0 (Body r)) as [body |] eqn:Hbody;
    [| unfold VerifyFactor; rewrite Hbody; discriminate].
  destruct (json_VerifyFactorParams env body) as [params |] eqn:Hjson;
    [| unfold VerifyFactor; rewrite Hbody, Hjson; discriminate].
  destruct (Nat.eq_dec (Factor_UserID (ctx_factor r)) (User_ID (ctx_user r)))
    as [Hown | Hown];
    [| rewrite (VerifyFactor_not_owner _ config _ db _ _ Hbody Hjson Hown);
       discriminate].
  destruct (storage_fails env OpFindChallenge) eqn:Hlookup;
    [rewrite (VerifyFactor_lookup_error _ config _ db _ _ Hbody Hjson Hown
                Hlookup); discriminate |].
  destruct (find_challenge (ChallengeID params) db) as [c |] eqn:Hfound;
    [| rewrite (VerifyFactor_not_found _ config _ db _ _ Hbody Hjson Hown
                  Hlookup Hfound); discriminate].
  destruct (VerifiedAt c) as [t |] eqn:Hfresh.
  { rewrite (VerifyFactor_replay_or_ip _ config _ db _ _ Hbody Hjson Hown
               Hlookup c Hfound); [discriminate |].
    left. congruence. }
  destruct (String.eqb (IPAddress c) (GetIPAddress r)) eqn:Hip.
  2:{ apply String.eqb_neq in Hip.
      rewrite (VerifyFactor_replay_or_ip _ config _ db _ _ Hbody Hjson Hown
                 Hlookup c Hfound); [discriminate | now right]. }
  apply String.eqb_eq in Hip.
  destruct (hasExpired env config c) eqn:Hexp.
  { destruct (storage_fails env OpDestroyChallenge) eqn:Hd.
    - destruct (VerifyFactor_expired_not_destroyed _ config _ db _ _ Hbody
                  Hjson Hown Hlookup c Hfound Hfresh Hip Hexp
                  (or_introl Hd)) as [e ->].
      discriminate.
    - destruct (storage_fails env OpCommit) eqn:Hc.
      + destruct (VerifyFactor_expired_not_destroyed _ config _ db _ _ Hbody
                    Hjson Hown Hlookup c Hfound Hfresh Hip Hexp
                    (or_intror Hc)) as [e ->].
        discriminate.
      + rewrite (VerifyFactor_expired _ config _ db _ _ Hbody Hjson Hown
                   Hlookup c Hfound Hfresh Hip Hexp Hd Hc).
        discriminate. }
  rewrite (VerifyFactor_dispatch _ config _ db _ _ Hbody Hjson Hown Hlookup
             c Hfound Hfresh Hip Hexp).
  destruct (String.eqb (FactorType (ctx_factor r)) "webauthn") eqn:Hty.
  - intros H. apply VerifyWebAuthnFactor_response in H as [-> ->].
    apply String.eqb_eq in Hty. now left.
  - apply String.eqb_neq in Hty.
    destruct (negb (totp_Validate env (Code params) (Secret (ctx_factor r))));
      [discriminate |].
    unfold Transaction.
    destruct (verify_tx env r c db) as [[e | token] db1] eqn:Htx;
      [discriminate |].
    destruct (storage_fails env OpCommit) eqn:Hc; [discriminate |].
    intros H. inversion H; subst. right.
    exists body, params, c, token.
    repeat (split; [assumption || reflexivity |]).
    now apply verify_tx_inv in Htx.
Qed.

(** Whatever else happens, a challenge that is marked verified stops every
    later call that names it. *)
Lemma VerifyFactor_consumed_fails (env : Env) (config : Configuration)
    (r : Request) (db : DB) (body : string) (params : VerifyFactorParams)
    (c : Challenge) :
  getBodyBytes env 0 (Body r) = Some body ->
  json_VerifyFactorParams env body = Some params ->
  find_challenge (ChallengeID params) db = Some c ->
  VerifiedAt c <> None ->
  exists e, VerifyFactor env config r db = (inl e, db).
Proof.
  intros Hbody Hjson Hfound Hc.
  destruct (Nat.eq_dec (Factor_UserID (ctx_factor r)) (User_ID (ctx_user r)))
    as [Hown | Hown];
    [| rewrite (VerifyFactor_not_owner _ config _ db _ _ Hbody Hjson Hown);
       eauto].
  destruct (storage_fails env OpFindChallenge) eqn:Hlookup;
    [rewrite (VerifyFactor_lookup_error _ config _ db _ _ Hbody Hjson Hown
                Hlookup); eauto |].
  rewrite (VerifyFactor_replay_or_ip _ config _ db _ _ Hbody Hjson Hown
             Hlookup c Hfound); eauto.
Qed.

(** A call that does not fail was made for a factor of the requester. *)
Lemma VerifyFactor_success_owner (env : Env) (config : Configuration)
    (r : Request) (db db' : DB) (resp : Response) :
  VerifyFactor env config r db = (inr resp, db') ->
  Factor_UserID (ctx_factor r) = User_ID (ctx_user r).
Proof.
  destruct (getBodyBytes env 0 (Body r)) as [body |] eqn:Hbody;
    [| unfold VerifyFactor; rewrite Hbody; discriminate].
  destruct (json_VerifyFactorParams env body) as [params |] eqn:Hjson;
    [| unfold VerifyFactor; rewrite Hbody, Hjson; discriminate].
  destruct (Nat.eq_dec (Factor_UserID (ctx_factor r)) (User_ID (ctx_user r)))
    as [Hown | Hown]; [intros _; exact Hown |].
  rewrite (VerifyFactor_not_owner _ config _ db _ _ Hbody Hjson Hown).
  discriminate.
Qed.

(** The verification of a WebAuthn factor either fails at a guard or is the
    call of [VerifyWebAuthnFactor] after two reads of the body. *)
Lemma VerifyFactor_webauthn_cases (env : Env) (config : Configuration)
    (r : Request) (db : DB) :
  FactorType (ctx_factor r) = "webauthn" ->
  (exists e d, VerifyFactor env config r db = (inl e, d))
  \/ VerifyFactor env config r db = VerifyWebAuthnFactor env 1 r db.
Proof.
  intros Hty.
  destruct (getBodyBytes env 0 (Body r)) as [body |] eqn:Hbody;
    [| left; unfold VerifyFactor, throw; rewrite Hbody; eauto].
  destruct (json_VerifyFactorParams env body) as [params |] eqn:Hjson;
    [| left; unfold VerifyFactor, throw; rewrite Hbody, Hjson; eauto].
  destruct (Nat.eq_dec (Factor_UserID (ctx_factor r)) (User_ID (ctx_user r)))
    as [Hown | Hown];
    [| left; rewrite (VerifyFactor_not_owner _ config _ db _ _ Hbody Hjson
                        Hown); eauto].
  destruct (storage_fails env OpFindChallenge) eqn:Hlookup;
    [left; rewrite (VerifyFactor_lookup_error _ config _ db _ _ Hbody Hjson
                      Hown Hlookup); eauto |].
  destruct (find_challenge (ChallengeID params) db) as [c |] eqn:Hfound;
    [| left; rewrite (VerifyFactor_not_found _ config _ db _ _ Hbody Hjson
                        Hown Hlookup Hfound); eauto].
  destruct (VerifiedAt c) as [t |] eqn:Hfresh.
  { left.
    rewrite (VerifyFactor_replay_or_ip _ config _ db _ _ Hbody Hjson Hown
               Hlookup c Hfound); [eauto |].
    left. congruence. }
  destruct (String.eqb (IPAddress c) (GetIPAddress r)) eqn:Hip.
  2:{ apply String.eqb_neq in Hip. left.
      rewrite (VerifyFactor_replay_or_ip _ config _ db _ _ Hbody Hjson Hown
                 Hlookup c Hfound); [eauto | now right]. }
  apply String.eqb_eq in Hip.
  destruct (hasExpired env config c) eqn:Hexp.
  { left. destruct (storage_fails env OpDestroyChallenge) eqn:Hd.
    - destruct (VerifyFactor_expired_not_destroyed _ config _ db _ _ Hbody
                  Hjson Hown Hlookup c Hfound Hfresh Hip Hexp
                  (or_introl Hd)) as [e ->].
      eauto.
    - destruct (storage_fails env OpCommit) eqn:Hc.
      + destruct (VerifyFactor_expired_not_destroyed _ config _ db _ _ Hbody
                    Hjson Hown Hlookup c Hfound Hfresh Hip Hexp
                    (or_intror Hc)) as [e ->].
        eauto.
      + rewrite (VerifyFactor_expired _ config _ db _ _ Hbody Hjson Hown
                   Hlookup c Hfound Hfresh Hip Hexp Hd Hc).
        eauto. }
  right.
  rewrite (VerifyFactor_dispatch _ config _ db _ _ Hbody Hjson Hown Hlookup
             c Hfound Hfresh Hip Hexp).
  apply String.eqb_eq in Hty. now rewrite Hty.
Qed.

(** On a request whose body the first parse has read to its end, the
    verification of a WebAuthn factor never succeeds. *)
Lemma VerifyFactor_webauthn_fails (env : Env) (config : Configuration)
    (r : Request) (db : DB) :
  body_consumed env 3 ->
  FactorType (ctx_factor r) = "webauthn" ->
  exists e d, VerifyFactor env config r db = (inl e, d).
Proof.
  intros Hcons Hty.
  destruct (VerifyFactor_webauthn_cases env config r db Hty) as [H | ->];
    [exact H |].
  destruct (VerifyWebAuthnFactor_body_consumed env 1 r db Hcons) as [e ->].
  eauto.
Qed.

(** ** Expiry *)

Lemma int64_in_range (z : Z) :
  - 2 ^ 63 <= z < 2 ^ 63 -> int64 z = z.
Proof.
  intros H. unfold int64.
  rewrite Z.mod_small by lia. lia.
Qed.

(** For a configured number of seconds that fits a duration, the expiry
    duration is that many seconds. *)
Lemma expiryDuration_seconds (config : Configuration) :
  0 <= ChallengeExpiryDuration config <= 9223372036 ->
  expiryDuration config = Second * ChallengeExpiryDuration config.
Proof.
  intros H. unfold expiryDuration, Second.
  rewrite (int64_in_range (ChallengeExpiryDuration config)) by lia.
  apply int64_in_range. lia.
Qed.

(** One second more than a duration holds, and the product wraps to a
    negative duration: a challenge is then expired as soon as it is
    created. *)
Lemma expiryDuration_wraps (config : Configuration) :
  ChallengeExpiryDuration config = 9223372037 ->
  expiryDuration config = -9223372036709551616.
Proof.
  intros H. unfold expiryDuration. rewrite H. reflexivity.
Qed.

Lemma hasExpired_after (env : Env) (config : Configuration) (c : Challenge) :
  hasExpired env config c = true
  <-> Add (CreatedAt c) (expiryDuration config) < Now env.
Proof.
  unfold hasExpired, After. apply Z.ltb_lt.
Qed.

Lemma hasExpired_before (env : Env) (config : Configuration) (c : Challenge) :
  hasExpired env config c = false
  <-> Now env <= Add (CreatedAt c) (expiryDuration config).
Proof.
  unfold hasExpired, After. rewrite Z.ltb_ge. reflexivity.
Qed.

Lemma find_challenge_destroyed (id : uuid) (db : DB) :
  find_challenge id
    (set_challenges db
       (filter (fun d => negb (Nat.eqb (Challenge_ID d) id)) (challenges db)))
  = None.
Proof.
  unfold find_challenge. cbn [challenges set_challenges].
  induction (challenges db) as [| d cs IH]; [reflexivity |].
  cbn [filter]. destruct (Nat.eqb (Challenge_ID d) id) eqn:E; cbn [negb].
  - exact IH.
  - cbn [find]. now rewrite E.
Qed.

(** C3: with a configured expiry of 0 to 9223372036 seconds (a duration of
    64-bit nanoseconds holds no more), a request that reaches the expiry
    check later than the creation time of the challenge plus that many
    seconds fails, whatever the type of the factor and the proof: with the
    storage working, the challenge is destroyed in a transaction of its own,
    which is committed although the call fails with the expiry error, and no
    other table is written; when the deletion or its commit fails, the call
    fails and nothing is written. A TOTP request that arrives no later than
    that, with a valid code and past the other checks, succeeds with the
    access token and commits the verification (the storage working). *)
Theorem C3_lazy_expiry (env : Env) (config : Configuration) (r : Request)
    (db : DB) (body : string) (params : VerifyFactorParams) (c : Challenge)
    (u : User) :
  0 <= ChallengeExpiryDuration config <= 9223372036 ->
  getBodyBytes env 0 (Body r) = Some body ->
  json_VerifyFactorParams env body = Some params ->
  Factor_UserID (ctx_factor r) = User_ID (ctx_user r) ->
  storage_fails env OpFindChallenge = false ->
  find_challenge (ChallengeID params) db = Some c ->
  VerifiedAt c = None ->
  IPAddress c = GetIPAddress r ->
  (CreatedAt c + 1000000000 * ChallengeExpiryDuration config < Now env ->
   (storage_fails env OpDestroyChallenge = false ->
    storage_fails env OpCommit = false ->
    exists db',
      VerifyFactor env config r db
      = (inl (badRequestError
          "%v has expired, verify against another challenge or create a new challenge."
          [ArgID (Challenge_ID c)]), db')
      /\ db' = set_challenges db
                 (filter (fun d => negb (Nat.eqb (Challenge_ID d)
                                           (Challenge_ID c)))
                    (challenges db))
      /\ challenges db'
         = filter (fun d => negb (Nat.eqb (Challenge_ID d) (Challenge_ID c)))
             (challenges db)
      /\ find_challenge (ChallengeID params) db' = None
      /\ (forall d, In d (challenges db') -> Challenge_ID d <> Challenge_ID c)
      /\ users db' = users db
      /\ factors db' = factors db
      /\ sessions db' = sessions db
      /\ audit_log db' = audit_log db)
   /\ (storage_fails env OpDestroyChallenge = true
       \/ storage_fails env OpCommit = true ->
       exists e, VerifyFactor env config r db = (inl e, db)))
  /\ (Now env <= CreatedAt c + 1000000000 * ChallengeExpiryDuration config ->
      FactorType (ctx_factor r) <> "webauthn" ->
      totp_Validate env (Code params) (Secret (ctx_factor r)) = true ->
      (forall op, In op (verify_ops (ctx_factor r)) ->
                  storage_fails env op = false) ->
      find_user (User_ID (ctx_user r)) db = Some u ->
      VerifyFactor env config r db
      = (inr (AccessTokenJSON
                (generateAccessToken env u (Session_ID (ctx_session r)))),
         db_after_verification env r c db)).
Proof.
  intros Hrange Hbody Hjson Hown Hlookup Hfound Hfresh Hip.
  pose proof (expiryDuration_seconds config Hrange) as Hdur.
  unfold Second in Hdur.
  split; [intros Hlate; split |].
  - intros Hd Hc.
    assert (Hexp : hasExpired env config c = true).
    { apply hasExpired_after. unfold Add. rewrite Hdur. exact Hlate. }
    eexists. split; [| split; [reflexivity |]].
    + exact (VerifyFactor_expired env config r db body params Hbody Hjson
               Hown Hlookup c Hfound Hfresh Hip Hexp Hd Hc).
    + cbn [challenges users factors sessions audit_log set_challenges].
      split; [reflexivity |]. split; [| split].
      * rewrite <- (find_challenge_ID _ _ _ Hfound).
        apply find_challenge_destroyed.
      * intros d Hin Hid. apply filter_In in Hin as [_ Hin].
        rewrite Hid, Nat.eqb_refl in Hin. discriminate.
      * repeat split; reflexivity.
  - intros Hf.
    assert (Hexp : hasExpired env config c = true).
    { apply hasExpired_after. unfold Add. rewrite Hdur. exact Hlate. }
    exact (VerifyFactor_expired_not_destroyed env config r db body params
             Hbody Hjson Hown Hlookup c Hfound Hfresh Hip Hexp Hf).
  - intros Hearly Hty Hcode Hnf Hu.
    assert (Hlive : hasExpired env config c = false).
    { apply hasExpired_before. unfold Add. rewrite Hdur. exact Hearly. }
    exact (VerifyFactor_totp_commit env config r db body params Hbody Hjson
             Hown Hlookup c Hfound Hfresh Hip Hlive Hty Hcode u Hnf Hu).
Qed.

(** A challenge created at second 900 under an expiry of 300 seconds: at
    second 1300 it is destroyed and the valid code refused; at second 1000
    the valid code is accepted. *)
Lemma C3_lazy_expiry_witness :
  0 <= ChallengeExpiryDuration Fixture.config <= 9223372036
  /\ VerifyFactor Fixture.late_env Fixture.config
       (Fixture.request Fixture.totp_factor Fixture.plain_session "123456")
       (Fixture.db Fixture.totp_factor Fixture.plain_session)
     = (inl (badRequestError
         "%v has expired, verify against another challenge or create a new challenge."
         [ArgID 20%nat]),
        Expected.after_expiry)
  /\ VerifyFactor Fixture.env Fixture.config
       (Fixture.request Fixture.totp_factor Fixture.plain_session "123456")
       (Fixture.db Fixture.totp_factor Fixture.plain_session)
     = (inr (AccessTokenJSON Fixture.access_token),
        Expected.after_verification).
Proof.
  assert (Hrange : 0 <= ChallengeExpiryDuration Fixture.config
                   <= 9223372036).
  { split; discriminate. }
  split; [exact Hrange |]. split.
  - destruct (C3_lazy_expiry Fixture.late_env Fixture.config
                (Fixture.request Fixture.totp_factor Fixture.plain_session
                   "123456")
                (Fixture.db Fixture.totp_factor Fixture.plain_session)
                "123456" {| ChallengeID := 20%nat; Code := "123456" |}
                Fixture.challenge Fixture.alice Hrange
                eq_refl eq_refl eq_refl eq_refl eq_refl eq_refl eq_refl)
      as [Hlate _].
    destruct (Hlate eq_refl) as [Hdestroyed _].
    destruct (Hdestroyed eq_refl eq_refl) as (db' & Hrun & Hdb & _).
    rewrite Hrun, Hdb. reflexivity.
  - destruct (C3_lazy_expiry Fixture.env Fixture.config
                (Fixture.request Fixture.totp_factor Fixture.plain_session
                   "123456")
                (Fixture.db Fixture.totp_factor Fixture.plain_session)
                "123456" {| ChallengeID := 20%nat; Code := "123456" |}
                Fixture.challenge Fixture.alice Hrange
                eq_refl eq_refl eq_refl eq_refl eq_refl eq_refl eq_refl)
      as [_ Hearly].
    rewrite Hearly; [reflexivity | discriminate | discriminate | reflexivity
                     | intros op _; reflexivity | reflexivity].
Defined.

(** ** The guards come before the dispatch on the factor type *)



(** ** Replay *)

(** C2, as amended: a challenge whose verification time is set, or whose
    address differs from the requester's, makes the call fail whatever the
    proof, with the validation error once the factor is the requester's and
    the lookup worked; hence after a call that returned the access token,
    every later call that names the same challenge fails and writes
    nothing. *)
Theorem C2_single_use (env : Env) (config : Configuration) (r : Request)
    (db : DB) (body : string) (params : VerifyFactorParams) :
  getBodyBytes env 0 (Body r) = Some body ->
  json_VerifyFactorParams env body = Some params ->
  (forall c,
     find_challenge (ChallengeID params) db = Some c ->
     VerifiedAt c <> None \/ IPAddress c <> GetIPAddress r ->
     (exists e, VerifyFactor env config r db = (inl e, db))
     /\ (Factor_UserID (ctx_factor r) = User_ID (ctx_user r) ->
         storage_fails env OpFindChallenge = false ->
         VerifyFactor env config r db
         = (inl (badRequestError
                   "Challenge and verify IP addresses mismatch" []), db)))
  /\ (forall token db1,
        VerifyFactor env config r db = (inr (AccessTokenJSON token), db1) ->
        forall env2 config2 r2,
          (forall body2 params2,
             getBodyBytes env2 0 (Body r2) = Some body2 ->
             json_VerifyFactorParams env2 body2 = Some params2 ->
             ChallengeID params2 = ChallengeID params) ->
          exists e, VerifyFactor env2 config2 r2 db1 = (inl e, db1)).
Proof.
  intros Hbody Hjson. split.
  - intros c Hfound Hc. split.
    + destruct (Nat.eq_dec (Factor_UserID (ctx_factor r))
                  (User_ID (ctx_user r))) as [Hown | Hown];
        [| rewrite (VerifyFactor_not_owner _ config _ db _ _ Hbody Hjson
                      Hown); eauto].
      destruct (storage_fails env OpFindChallenge) eqn:Hlookup;
        [rewrite (VerifyFactor_lookup_error _ config _ db _ _ Hbody Hjson
                    Hown Hlookup); eauto |].
      rewrite (VerifyFactor_replay_or_ip _ config _ db _ _ Hbody Hjson Hown
                 Hlookup c Hfound Hc); eauto.
    + intros Hown Hlookup.
      exact (VerifyFactor_replay_or_ip env config r db body params Hbody
               Hjson Hown Hlookup c Hfound Hc).
  - intros token db1 Hrun env2 config2 r2 Hsame.
    apply VerifyFactor_success_inv in Hrun
      as [(_ & Habs & _)
         | (body' & params' & c & token' & Hb & Hj & Hfound & _ & _ & _ & _
            & _ & ->)];
      [discriminate |].
    rewrite Hbody in Hb. injection Hb as <-.
    rewrite Hjson in Hj. injection Hj as <-.
    destruct (getBodyBytes env2 0 (Body r2)) as [body2 |] eqn:Hbody2;
      [| unfold VerifyFactor, throw; rewrite Hbody2; eauto].
    destruct (json_VerifyFactorParams env2 body2) as [params2 |] eqn:Hjson2;
      [| unfold VerifyFactor, throw; rewrite Hbody2, Hjson2; eauto].
    specialize (Hsame _ _ eq_refl Hjson2).
    pose proof (find_challenge_ID _ _ _ Hfound) as Hid.
    unfold find_challenge in Hfound.
    destruct (find_challenge_marked _ (Now env) _ _ Hfound)
      as (c' & Hfound' & Hmarked).
    apply (VerifyFactor_consumed_fails env2 config2 r2 _ body2 params2 c');
      try assumption.
    + unfold find_challenge. cbn [challenges db_after_verification].
      now rewrite Hsame, Hid.
    + congruence.
Qed.

(** The second of two calls with the valid code and the same challenge is
    refused. *)
Lemma C2_single_use_witness :
  exists e,
    VerifyFactor Fixture.env Fixture.config
      (Fixture.request Fixture.totp_factor Fixture.plain_session "123456")
      (snd (VerifyFactor Fixture.env Fixture.config
              (Fixture.request Fixture.totp_factor Fixture.plain_session
                 "123456")
              (Fixture.db Fixture.totp_factor Fixture.plain_session)))
    = (inl e,
       snd (VerifyFactor Fixture.env Fixture.config
              (Fixture.request Fixture.totp_factor Fixture.plain_session
                 "123456")
              (Fixture.db Fixture.totp_factor Fixture.plain_session))).
Proof.
  destruct (C2_single_use Fixture.env Fixture.config
              (Fixture.request Fixture.totp_factor Fixture.plain_session
                 "123456")
              (Fixture.db Fixture.totp_factor Fixture.plain_session)
              "123456" {| ChallengeID := 20%nat; Code := "123456" |}
              eq_refl eq_refl) as [_ H].
  apply (H Fixture.access_token); [reflexivity |].
  intros body2 params2 _ Hj. cbn in Hj. injection Hj as <-. reflexivity.
Defined.

(** C2 as stated fails: the second of two calls that name the same
    challenge succeeds when the first one carried a wrong code. *)
Lemma C2_second_call_succeeds :
  fst (VerifyFactor Fixture.env Fixture.config
         (Fixture.request Fixture.totp_factor Fixture.plain_session "000000")
         (Fixture.db Fixture.totp_factor Fixture.plain_session))
  = inl (badRequestError "Invalid TOTP code entered" [])
  /\ fst (VerifyFactor Fixture.env Fixture.config
            (Fixture.request Fixture.totp_factor Fixture.plain_session
               "123456")
            (snd (VerifyFactor Fixture.env Fixture.config
                    (Fixture.request Fixture.totp_factor
                       Fixture.plain_session "000000")
                    (Fixture.db Fixture.totp_factor Fixture.plain_session))))
     = inr (AccessTokenJSON Fixture.access_token)
  /\ option_map ChallengeID
       (json_VerifyFactorParams Fixture.env "000000")
     = option_map ChallengeID
         (json_VerifyFactorParams Fixture.env "123456").
Proof.
  repeat split; reflexivity.
Qed.

(** ** The committed verification *)

Lemma is_unverified_set_status (id : uuid) (f : Factor) :
  Factor_ID f = id ->
  is_unverified (set_status id FactorStateVerified f) = false.
Proof.
  intros <-. unfold set_status. now rewrite Nat.eqb_refl.
Qed.

Lemma is_verified_not_unverified (f : Factor) :
  is_verified f = true -> is_unverified f = false.
Proof.
  unfold is_verified, is_unverified. intros H.
  apply String.eqb_eq in H. now rewrite H.
Qed.

Lemma is_verified_Status (f : Factor) :
  is_verified f = true <-> Status f = "verified".
Proof.
  unfold is_verified. apply String.eqb_eq.
Qed.

(** A call of [VerifyFactor] that returns the access token has committed, in
    one transaction: the audit entry; the verification time of the challenge;
    the promotion of the factor, unless it was verified already; the removal
    of every session of the user below AAL2; the removal of every unverified
    factor of the user. *)
Theorem VerifyFactor_token_transaction (env : Env) (config : Configuration)
    (r : Request) (db db' : DB) (token : AccessTokenResponse) :
  VerifyFactor env config r db = (inr (AccessTokenJSON token), db') ->
  exists c,
    db' = db_after_verification env r c db
    /\ audit_log db' = (audit_log db ++ [verify_audit_entry r c])%list
    /\ (forall d, In d (challenges db') -> Challenge_ID d = Challenge_ID c ->
                  VerifiedAt d = Some (Now env))
    /\ (is_verified (ctx_factor r) = true ->
        factors db'
        = filter (fun f => negb (owned_by (User_ID (ctx_user r)) f
                                 && is_unverified f)) (factors db))
    /\ (In (ctx_factor r) (factors db) ->
        Factor_UserID (ctx_factor r) = User_ID (ctx_user r) ->
        exists f, In f (factors db')
                  /\ Factor_ID f = Factor_ID (ctx_factor r)
                  /\ is_verified f = true)
    /\ (forall s, In s (sessions db') ->
                  Session_UserID s = User_ID (ctx_user r) ->
                  Session_AAL s = AAL2)
    /\ (forall f, In f (factors db') ->
                  Factor_UserID f = User_ID (ctx_user r) ->
                  is_unverified f = false).
Proof.
  intros Hrun.
  apply VerifyFactor_success_inv in Hrun
    as [(_ & Habs & _)
       | (body & params & c & token' & _ & _ & _ & _ & _ & _ & _ & _ & ->)];
    [discriminate |].
  exists c. split; [reflexivity |].
  unfold db_after_verification; cbn [audit_log challenges factors sessions].
  split; [reflexivity |]. split; [| split; [| split; [| split]]].
  - intros d Hd Hid. apply in_map_iff in Hd as (d0 & <- & _).
    rewrite mark_verified_ID in Hid.
    unfold mark_verified. apply Nat.eqb_eq in Hid. now rewrite Hid.
  - intros Hv. unfold promote. now rewrite Hv.
  - intros Hin Hown. unfold promote.
    destruct (is_verified (ctx_factor r)) eqn:Hv.
    + exists (ctx_factor r). split; [| now split].
      apply filter_In. split; [assumption |].
      rewrite (is_verified_not_unverified _ Hv). now rewrite andb_false_r.
    + exists (set_status (Factor_ID (ctx_factor r)) FactorStateVerified
                (ctx_factor r)).
      split; [| split].
      * apply filter_In. split; [now apply in_map |].
        rewrite is_unverified_set_status by reflexivity.
        now rewrite andb_false_r.
      * unfold set_status. now rewrite Nat.eqb_refl.
      * unfold set_status. now rewrite Nat.eqb_refl.
  - intros s Hs Hu. apply filter_In in Hs as [_ Hs].
    apply Nat.eqb_eq in Hu. rewrite Hu in Hs.
    now destruct (Session_AAL s).
  - intros f Hf Hu. apply filter_In in Hf as [_ Hf].
    unfold owned_by in Hf. apply Nat.eqb_eq in Hu. rewrite Hu in Hf.
    now destruct (is_unverified f).
Qed.

(** X3: a factor that is verified already is verified again without a status
    update: the call succeeds even when the status update would fail. *)
Theorem VerifyFactor_no_second_promotion (env : Env) (config : Configuration)
    (r : Request) (db : DB) (body : string) (params : VerifyFactorParams)
    (c : Challenge) (u : User) :
  getBodyBytes env 0 (Body r) = Some body ->
  json_VerifyFactorParams env body = Some params ->
  Factor_UserID (ctx_factor r) = User_ID (ctx_user r) ->
  storage_fails env OpFindChallenge = false ->
  find_challenge (ChallengeID params) db = Some c ->
  VerifiedAt c = None ->
  IPAddress c = GetIPAddress r ->
  hasExpired env config c = false ->
  FactorType (ctx_factor r) <> "webauthn" ->
  totp_Validate env (Code params) (Secret (ctx_factor r)) = true ->
  is_verified (ctx_factor r) = true ->
  (forall op, op <> OpUpdateStatus -> storage_fails env op = false) ->
  find_user (User_ID (ctx_user r)) db = Some u ->
  exists token,
    VerifyFactor env config r db
    = (inr (AccessTokenJSON token), db_after_verification env r c db).
Proof.
  intros Hbody Hjson Hown Hlookup Hfound Hfresh Hip Hlive Hty Hcode Hv Hnf Hu.
  eexists.
  apply (VerifyFactor_totp_commit env config r db body params Hbody Hjson
           Hown Hlookup c Hfound Hfresh Hip Hlive Hty Hcode u); [| assumption].
  intros op Hin. apply Hnf. intros ->.
  unfold verify_ops in Hin. rewrite Hv in Hin. cbn in Hin.
  repeat (destruct Hin as [Hin | Hin]; [discriminate |]). contradiction.
Qed.

(** X4: when a step of the transaction that follows a valid code fails, the
    call fails and the database is the one it started from: the challenge is
    as unconsumed as before. *)
Theorem VerifyFactor_step_fails (env : Env) (config : Configuration)
    (r : Request) (db : DB) (body : string) (params : VerifyFactorParams)
    (c : Challenge) (op : Op) :
  getBodyBytes env 0 (Body r) = Some body ->
  json_VerifyFactorParams env body = Some params ->
  Factor_UserID (ctx_factor r) = User_ID (ctx_user r) ->
  storage_fails env OpFindChallenge = false ->
  find_challenge (ChallengeID params) db = Some c ->
  VerifiedAt c = None ->
  IPAddress c = GetIPAddress r ->
  hasExpired env config c = false ->
  FactorType (ctx_factor r) <> "webauthn" ->
  totp_Validate env (Code params) (Secret (ctx_factor r)) = true ->
  In op (verify_ops (ctx_factor r)) ->
  storage_fails env op = true ->
  exists e, VerifyFactor env config r db = (inl e, db).
Proof.
  intros Hbody Hjson Hown Hlookup Hfound Hfresh Hip Hlive Hty Hcode Hin Hf.
  destruct (VerifyFactor_totp_atomic env config r db body params Hbody Hjson
              Hown Hlookup c Hfound Hfresh Hip Hlive Hty Hcode)
    as [[token Hrun] | Hfail]; [| assumption].
  exfalso.
  apply VerifyFactor_success_inv in Hrun
    as [(Habs & _)
       | (body' & params' & c' & token' & Hb & Hj & Hfound' & _ & _ & Htx
          & Hcommit & _ & _)];
    [contradiction |].
  rewrite Hbody in Hb. injection Hb as <-.
  rewrite Hjson in Hj. injection Hj as <-.
  destruct (Op_eq_dec op OpCommit) as [-> | Hne]; [congruence |].
  rewrite (verify_tx_no_fault _ _ _ _ _ _ _ Htx Hin Hne) in Hf.
  discriminate.
Qed.

(** ** What the committed verification leaves in each table *)

Lemma after_verification_challenge_ids (env : Env) (r : Request)
    (c : Challenge) (db : DB) :
  map Challenge_ID (challenges (db_after_verification env r c db))
  = map Challenge_ID (challenges db).
Proof.
  cbn [challenges db_after_verification]. rewrite map_map.
  apply map_ext. intros d. apply mark_verified_ID.
Qed.

Lemma after_verification_marked (env : Env) (r : Request) (c : Challenge)
    (db : DB) (d : Challenge) :
  In d (challenges (db_after_verification env r c db)) ->
  Challenge_ID d = Challenge_ID c ->
  VerifiedAt d = Some (Now env).
Proof.
  cbn [challenges db_after_verification]. intros Hd Hid.
  apply in_map_iff in Hd as (d0 & <- & _).
  rewrite mark_verified_ID in Hid.
  unfold mark_verified. apply Nat.eqb_eq in Hid. now rewrite Hid.
Qed.

Lemma after_verification_lookup (env : Env) (r : Request) (c : Challenge)
    (db : DB) (id : uuid) :
  find_challenge id db = Some c ->
  exists d, find_challenge id (db_after_verification env r c db) = Some d
            /\ VerifiedAt d = Some (Now env).
Proof.
  intros Hfound. pose proof (find_challenge_ID _ _ _ Hfound) as Hid.
  unfold find_challenge in *. cbn [challenges db_after_verification].
  rewrite Hid. now apply find_challenge_marked with (c := c).
Qed.

Lemma after_verification_promoted (env : Env) (r : Request) (c : Challenge)
    (db : DB) :
  In (ctx_factor r) (factors db) ->
  exists f, In f (factors (db_after_verification env r c db))
            /\ Factor_ID f = Factor_ID (ctx_factor r)
            /\ Status f = "verified".
Proof.
  intros Hin. cbn [factors db_after_verification]. unfold promote.
  destruct (is_verified (ctx_factor r)) eqn:Hv.
  - exists (ctx_factor r). split; [| split; [reflexivity |]].
    + apply filter_In. split; [assumption |].
      rewrite (is_verified_not_unverified _ Hv). now rewrite andb_false_r.
    + now apply is_verified_Status.
  - exists (set_status (Factor_ID (ctx_factor r)) FactorStateVerified
              (ctx_factor r)).
    split; [| split].
    + apply filter_In. split; [now apply in_map |].
      rewrite is_unverified_set_status by reflexivity.
      now rewrite andb_false_r.
    + unfold set_status. now rewrite Nat.eqb_refl.
    + unfold set_status. now rewrite Nat.eqb_refl.
Qed.

Lemma after_verification_no_unverified (env : Env) (r : Request)
    (c : Challenge) (db : DB) (f : Factor) :
  In f (factors (db_after_verification env r c db)) ->
  Factor_UserID f = User_ID (ctx_user r) ->
  Status f <> "unverified".
Proof.
  cbn [factors db_after_verification]. intros Hf Hu.
  apply filter_In in Hf as [_ Hf].
  unfold owned_by in Hf. apply Nat.eqb_eq in Hu. rewrite Hu in Hf.
  cbn [andb] in Hf. apply negb_true_iff in Hf.
  now apply String.eqb_neq in Hf.
Qed.

Lemma after_verification_other_factors (env : Env) (r : Request)
    (c : Challenge) (db : DB) (f : Factor) :
  In f (factors db) ->
  Factor_UserID f <> User_ID (ctx_user r) ->
  Factor_ID f <> Factor_ID (ctx_factor r) ->
  In f (factors (db_after_verification env r c db)).
Proof.
  cbn [factors db_after_verification]. intros Hin Hu Hid.
  apply Nat.eqb_neq in Hu. apply filter_In. split.
  - unfold promote. destruct (is_verified (ctx_factor r)); [assumption |].
    apply in_map_iff. exists f. split; [| assumption].
    unfold set_status. apply Nat.eqb_neq in Hid. now rewrite Hid.
  - unfold owned_by. now rewrite Hu.
Qed.

Lemma after_verification_sessions (env : Env) (r : Request) (c : Challenge)
    (db : DB) (s : Session) :
  In s (sessions (db_after_verification env r c db)) ->
  Session_UserID s = User_ID (ctx_user r) ->
  Session_AAL s = AAL2.
Proof.
  cbn [sessions db_after_verification]. intros Hs Hu.
  apply filter_In in Hs as [_ Hs].
  apply Nat.eqb_eq in Hu. rewrite Hu in Hs.
  now destruct (Session_AAL s).
Qed.

Lemma after_verification_own_session (env : Env) (r : Request)
    (c : Challenge) (db : DB) :
  In (ctx_session r) (sessions db) ->
  exists s, In s (sessions (db_after_verification env r c db))
            /\ Session_ID s = Session_ID (ctx_session r)
            /\ Session_AAL s = AAL2.
Proof.
  cbn [sessions db_after_verification]. intros Hin.
  exists (with_elevation (Factor_ID (ctx_factor r)) (ctx_session r)).
  split; [| split; reflexivity].
  apply filter_In. split.
  - apply in_map_iff. exists (ctx_session r). split; [| assumption].
    unfold update_session. now rewrite Nat.eqb_refl.
  - cbn. apply negb_true_iff. apply andb_false_r.
Qed.

Lemma after_verification_other_sessions (env : Env) (r : Request)
    (c : Challenge) (db : DB) (s : Session) :
  In s (sessions db) ->
  Session_UserID s <> User_ID (ctx_user r) ->
  Session_ID s <> Session_ID (ctx_session r) ->
  In s (sessions (db_after_verification env r c db)).
Proof.
  cbn [sessions db_after_verification]. intros Hin Hu Hid.
  apply Nat.eqb_neq in Hu. apply filter_In. split.
  - apply in_map_iff. exists s. split; [| assumption].
    unfold update_session. apply Nat.eqb_neq in Hid. now rewrite Hid.
  - now rewrite Hu.
Qed.

(** C1: where the parse of a ceremony that follows the first parse of the
    body finds the body at its end, as on every request, each call of
    [VerifyFactor] that succeeds returns the access token and has run the
    closure of one transaction to its commit. That transaction has written
    the audit entry; has set the verification time of the challenge, so that
    every later call that names the challenge fails; has left a factor that
    was verified already as it was and has promoted the others; has left the
    session of the request at AAL2, no session of the user below AAL2 and no
    unverified factor of the user, and has kept the rows of other users. For
    a request with a valid code the call either commits all of this or fails
    and leaves the database as it was, with the challenge unconsumed; it
    fails when any storage step of the transaction fails; and the
    verification of a factor that is verified already succeeds although a
    status update would fail, since none is made. *)
Theorem C1_verification_transaction (env : Env) (config : Configuration)
    (r : Request) (db : DB) :
  body_consumed env 3 ->
  (forall resp db',
     VerifyFactor env config r db = (inr resp, db') ->
     exists body params c token,
       getBodyBytes env 0 (Body r) = Some body
       /\ json_VerifyFactorParams env body = Some params
       /\ find_challenge (ChallengeID params) db = Some c
       /\ VerifiedAt c = None
       /\ resp = AccessTokenJSON token
       /\ Transaction env (verify_tx env r c) db = (inr (inr token), db')
       /\ users db' = users db
       /\ audit_log db'
          = (audit_log db
             ++ [{| Audit_Action := VerifyFactorAction;
                    Audit_Actor := User_ID (ctx_user r);
                    Audit_IP := RemoteAddr r;
                    Audit_Traits :=
                      [("factor_id", TraitID (Factor_ID (ctx_factor r)));
                       ("challenge_id", TraitID (Challenge_ID c))] |}])%list
       /\ map Challenge_ID (challenges db') = map Challenge_ID (challenges db)
       /\ (forall d, In d (challenges db') ->
                     Challenge_ID d = Challenge_ID c ->
                     VerifiedAt d = Some (Now env))
       /\ (exists d, find_challenge (ChallengeID params) db' = Some d
                     /\ VerifiedAt d = Some (Now env))
       /\ (forall env2 config2 r2 body2 params2,
             getBodyBytes env2 0 (Body r2) = Some body2 ->
             json_VerifyFactorParams env2 body2 = Some params2 ->
             ChallengeID params2 = ChallengeID params ->
             exists e, VerifyFactor env2 config2 r2 db' = (inl e, db'))
       /\ factors db'
          = filter (fun f => negb (Nat.eqb (Factor_UserID f)
                                     (User_ID (ctx_user r))
                                   && String.eqb (Status f) "unverified"))
              (if String.eqb (Status (ctx_factor r)) "verified"
               then factors db
               else map (set_status (Factor_ID (ctx_factor r))
                           FactorStateVerified) (factors db))
       /\ (In (ctx_factor r) (factors db) ->
           exists f, In f (factors db')
                     /\ Factor_ID f = Factor_ID (ctx_factor r)
                     /\ Status f = "verified")
       /\ (forall f, In f (factors db') ->
                     Factor_UserID f = User_ID (ctx_user r) ->
                     Status f <> "unverified")
       /\ (forall f, In f (factors db) ->
                     Factor_UserID f <> User_ID (ctx_user r) ->
                     Factor_ID f <> Factor_ID (ctx_factor r) ->
                     In f (factors db'))
       /\ (In (ctx_session r) (sessions db) ->
           exists s, In s (sessions db')
                     /\ Session_ID s = Session_ID (ctx_session r)
                     /\ Session_AAL s = AAL2)
       /\ (forall s, In s (sessions db') ->
                     Session_UserID s = User_ID (ctx_user r) ->
                     Session_AAL s = AAL2)
       /\ (forall s, In s (sessions db) ->
                     Session_UserID s = User_ID (ctx_user r) ->
                     Session_AAL s = AAL1 ->
                     ~ In s (sessions db'))
       /\ (forall s, In s (sessions db) ->
                     Session_UserID s <> User_ID (ctx_user r) ->
                     Session_ID s <> Session_ID (ctx_session r) ->
                     In s (sessions db')))
  /\ (forall body params c,
        getBodyBytes env 0 (Body r) = Some body ->
        json_VerifyFactorParams env body = Some params ->
        Factor_UserID (ctx_factor r) = User_ID (ctx_user r) ->
        storage_fails env OpFindChallenge = false ->
        find_challenge (ChallengeID params) db = Some c ->
        VerifiedAt c = None ->
        IPAddress c = GetIPAddress r ->
        hasExpired env config c = false ->
        FactorType (ctx_factor r) <> "webauthn" ->
        totp_Validate env (Code params) (Secret (ctx_factor r)) = true ->
        ((exists token,
            VerifyFactor env config r db
            = (inr (AccessTokenJSON token), db_after_verification env r c db))
         \/ (exists e, VerifyFactor env config r db = (inl e, db)))
        /\ (forall op, In op (verify_ops (ctx_factor r)) ->
                       storage_fails env op = true ->
                       exists e, VerifyFactor env config r db = (inl e, db))
        /\ (Status (ctx_factor r) = "verified" ->
            (forall op, op <> OpUpdateStatus -> storage_fails env op = false) ->
            forall u, find_user (User_ID (ctx_user r)) db = Some u ->
            exists db',
              VerifyFactor env config r db
              = (inr (AccessTokenJSON
                        (generateAccessToken env u
                           (Session_ID (ctx_session r)))), db')
              /\ factors db'
                 = filter (fun f => negb (Nat.eqb (Factor_UserID f)
                                            (User_ID (ctx_user r))
                                          && String.eqb (Status f)
                                               "unverified"))
                     (factors db))).
Proof.
  intros Hcons. split.
  - intros resp db' Hrun.
    pose proof Hrun as Hinv.
    apply VerifyFactor_success_inv in Hinv
      as [(Hty & _ & _)
         | (body & params & c & token & Hbody & Hjson & Hfound & Hfresh & Hty
            & Htx & Hcommit & -> & ->)].
    { exfalso.
      destruct (VerifyFactor_webauthn_fails env config r db Hcons Hty)
        as (e & d & He).
      congruence. }
    exists body, params, c, token.
    repeat (split; [assumption || reflexivity |]).
    split; [unfold Transaction; now rewrite Htx, Hcommit |].
    split; [reflexivity |]. split; [reflexivity |].
    split; [apply after_verification_challenge_ids |].
    split; [apply after_verification_marked |].
    split; [now apply after_verification_lookup |].
    split.
    { intros env2 config2 r2 body2 params2 Hbody2 Hjson2 Hsame.
      destruct (after_verification_lookup env r c db _ Hfound)
        as (d & Hd & Hmarked).
      apply (VerifyFactor_consumed_fails env2 config2 r2 _ body2 params2 d);
        try assumption.
      - now rewrite Hsame.
      - congruence. }
    split; [reflexivity |].
    split; [apply after_verification_promoted |].
    split; [apply after_verification_no_unverified |].
    split; [apply after_verification_other_factors |].
    split; [apply after_verification_own_session |].
    split; [apply after_verification_sessions |].
    split; [| apply after_verification_other_sessions].
    intros s _ Hu Haal Hin.
    apply after_verification_sessions in Hin; [congruence | assumption].
  - intros body params c Hbody Hjson Hown Hlookup Hfound Hfresh Hip Hlive
      Hty Hcode.
    pose proof (VerifyFactor_totp_atomic env config r db body params Hbody
                  Hjson Hown Hlookup c Hfound Hfresh Hip Hlive Hty Hcode)
      as Hatomic.
    split; [exact Hatomic |]. split.
    + intros op Hin Hf.
      destruct Hatomic as [[token Hrun] | Hfail]; [| assumption].
      exfalso.
      apply VerifyFactor_success_inv in Hrun
        as [(Habs & _)
           | (body' & params' & c' & token' & Hb & Hj & Hfound' & _ & _ & Htx
              & Hcommit & _ & _)];
        [contradiction |].
      destruct (Op_eq_dec op OpCommit) as [-> | Hne]; [congruence |].
      rewrite (verify_tx_no_fault _ _ _ _ _ _ _ Htx Hin Hne) in Hf.
      discriminate.
    + intros Hv Hnf u Hu. apply is_verified_Status in Hv.
      eexists. split.
      * apply (VerifyFactor_totp_commit env config r db body params Hbody
                 Hjson Hown Hlookup c Hfound Hfresh Hip Hlive Hty Hcode u);
          [| assumption].
        intros op Hin. apply Hnf. intros ->.
        unfold verify_ops in Hin. rewrite Hv in Hin. cbn in Hin.
        repeat (destruct Hin as [Hin | Hin]; [discriminate |]).
        contradiction.
      * cbn [factors db_after_verification]. unfold promote.
        now rewrite Hv.
Qed.

(** Alice verifies her unverified TOTP factor: the database after the call is
    the expected one, and a second call with the same challenge and the same
    valid code is refused. *)
Lemma C1_verification_transaction_witness :
  body_consumed Fixture.env 3
  /\ VerifyFactor Fixture.env Fixture.config
       (Fixture.request Fixture.totp_factor Fixture.plain_session "123456")
       (Fixture.db Fixture.totp_factor Fixture.plain_session)
     = (inr (AccessTokenJSON Fixture.access_token),
        Expected.after_verification)
  /\ exists e,
       VerifyFactor Fixture.env Fixture.config
         (Fixture.request Fixture.totp_factor Fixture.plain_session "123456")
         Expected.after_verification
       = (inl e, Expected.after_verification).
Proof.
  assert (Hcons : body_consumed Fixture.env 3).
  { split; intros b; eexists; reflexivity. }
  split; [exact Hcons |]. split; [reflexivity |].
  destruct (C1_verification_transaction Fixture.env Fixture.config
              (Fixture.request Fixture.totp_factor Fixture.plain_session
                 "123456")
              (Fixture.db Fixture.totp_factor Fixture.plain_session) Hcons)
    as [Hsuccess _].
  destruct (Hsuccess (AccessTokenJSON Fixture.access_token)
              Expected.after_verification eq_refl)
    as (body & params & c & token & Hbody & Hjson & _ & _ & _ & _ & _ & _ & _
        & _ & _ & Hnever & _).
  apply (Hnever Fixture.env Fixture.config
           (Fixture.request Fixture.totp_factor Fixture.plain_session
              "123456")
           "123456" {| ChallengeID := 20%nat; Code := "123456" |});
    [reflexivity | reflexivity |].
  cbn in Hbody. injection Hbody as <-.
  cbn in Hjson. injection Hjson as <-. reflexivity.
Defined.


(** ** Unenrollment *)

Lemma GetAAL_not_AAL2 (s : Session) :
  negb (String.eqb (GetAAL s) (AAL_String AAL2))
  = AAL_ltb (Session_AAL s) AAL2.
Proof.
  unfold GetAAL. now destruct (Session_AAL s).
Qed.

Ltac unfold_unenroll :=
  unfold UnenrollFactor, Transaction, Destroy_factor, NewAuditLogEntry,
    DowngradeSessionsToAAL1;
  unfold_M.

(** The unenrollment either commits its three writes together or leaves the
    database as it was. *)
Lemma UnenrollFactor_atomic (env : Env) (r : Request) (db db' : DB)
    (res : Error + Response) :
  UnenrollFactor env r db = (res, db') ->
  (exists e, res = inl e /\ db' = db)
  \/ (res = inr (UnenrollFactorResponse (Factor_ID (ctx_factor r)))
      /\ db' = db_after_unenrollment env r db).
Proof.
  unfold db_after_unenrollment. unfold_unenroll.
  repeat match goal with
         | |- context [if ?x then _ else _] => destruct x
         end;
    intros H; inversion H; subst; eauto.
Qed.

(** C8: the unenrollment of a verified factor from a session below AAL2
    fails with the AAL2 error and writes nothing; otherwise, for the owner of
    the factor and with the storage working, one transaction deletes the
    factor row, writes the audit entry with the session identifier and
    downgrades the sessions the removal concerns: each of them is in the
    database with its identifier and the level AAL1, and the other sessions
    are as they were; and a call that fails leaves the database as it
    was. *)
Theorem C8_unenroll (env : Env) (r : Request) (db : DB) :
  (Status (ctx_factor r) = "verified" ->
   AAL_ltb (Session_AAL (ctx_session r)) AAL2 = true ->
   UnenrollFactor env r db
   = (inl (badRequestError "AAL2 required to unenroll verified factor" []),
      db))
  /\ (Status (ctx_factor r) <> "verified"
      \/ AAL_ltb (Session_AAL (ctx_session r)) AAL2 = false ->
      Factor_UserID (ctx_factor r) = User_ID (ctx_user r) ->
      (forall op, In op unenroll_ops -> storage_fails env op = false) ->
      exists db',
        UnenrollFactor env r db
        = (inr (UnenrollFactorResponse (Factor_ID (ctx_factor r))), db')
        /\ db' = db_after_unenrollment env r db
        /\ users db' = users db
        /\ challenges db' = challenges db
        /\ factors db'
           = filter (fun g => negb (Nat.eqb (Factor_ID g)
                                      (Factor_ID (ctx_factor r))))
               (factors db)
        /\ (forall f, In f (factors db') ->
                      Factor_ID f <> Factor_ID (ctx_factor r))
        /\ audit_log db'
           = (audit_log db
              ++ [{| Audit_Action := UnenrollFactorAction;
                     Audit_Actor := User_ID (ctx_user r);
                     Audit_IP := RemoteAddr r;
                     Audit_Traits :=
                       [("factor_id", TraitID (Factor_ID (ctx_factor r)));
                        ("factor_status",
                         TraitString (Status (ctx_factor r)));
                        ("session_id",
                         TraitID (Session_ID (ctx_session r)))] |}])%list
        /\ In ("session_id", TraitID (Session_ID (ctx_session r)))
              (Audit_Traits (last (audit_log db') (unenroll_audit_entry r)))
        /\ map Session_ID (sessions db') = map Session_ID (sessions db)
        /\ map Session_AAL (sessions db')
           = map (fun s => if downgrade_scope env (ctx_factor r) s
                           then AAL1 else Session_AAL s)
               (sessions db)
        /\ (forall s, In s (sessions db) ->
                      downgrade_scope env (ctx_factor r) s = true ->
                      In (with_AAL AAL1 s) (sessions db')
                      /\ exists s', In s' (sessions db')
                                    /\ Session_ID s' = Session_ID s
                                    /\ Session_UserID s' = Session_UserID s
                                    /\ Session_AAL s' = AAL1)
        /\ (forall s, In s (sessions db) ->
                      downgrade_scope env (ctx_factor r) s = false ->
                      In s (sessions db')))
  /\ (forall e db', UnenrollFactor env r db = (inl e, db') -> db' = db).
Proof.
  split; [| split].
  - intros Hv Haal. apply is_verified_Status in Hv.
    unfold UnenrollFactor. rewrite Hv, GetAAL_not_AAL2, Haal. reflexivity.
  - intros Hgate Hown Hnf.
    exists (db_after_unenrollment env r db).
    split; [| split; [reflexivity |]].
    + assert (Hcond : is_verified (ctx_factor r)
                      && negb (String.eqb (GetAAL (ctx_session r))
                                 (AAL_String AAL2)) = false).
      { rewrite GetAAL_not_AAL2. destruct Hgate as [Hs | Ha].
        - destruct (is_verified (ctx_factor r)) eqn:Hv; [| reflexivity].
          apply is_verified_Status in Hv. contradiction.
        - rewrite Ha. apply andb_false_r. }
      unfold db_after_unenrollment, unenroll_audit_entry. unfold_unenroll.
      rewrite Hcond, Hown, Nat.eqb_refl. cbn [negb].
      rewrite !Hnf by (unfold unenroll_ops; cbn; tauto). reflexivity.
    + cbn [users challenges factors sessions audit_log db_after_unenrollment].
      split; [reflexivity |]. split; [reflexivity |]. split; [reflexivity |].
      split.
      { intros f Hf Hid. apply filter_In in Hf as [_ Hf].
        rewrite Hid, Nat.eqb_refl in Hf. discriminate. }
      split; [reflexivity |].
      split; [rewrite last_last; cbn; tauto |].
      split.
      { rewrite map_map. apply map_ext. intros s.
        now destruct (downgrade_scope env (ctx_factor r) s). }
      split.
      { rewrite map_map. apply map_ext. intros s.
        now destruct (downgrade_scope env (ctx_factor r) s). }
      split.
      { intros s Hs Hscope.
        assert (Hin : In (with_AAL AAL1 s)
                        (map (fun s0 => if downgrade_scope env (ctx_factor r) s0
                                        then with_AAL AAL1 s0 else s0)
                           (sessions db))).
        { apply in_map_iff. exists s.
          split; [now rewrite Hscope | assumption]. }
        split; [exact Hin |].
        exists (with_AAL AAL1 s). repeat split. exact Hin. }
      intros s Hs Hscope. apply in_map_iff. exists s.
      split; [now rewrite Hscope | assumption].
  - intros e db' Hrun.
    apply UnenrollFactor_atomic in Hrun as [(e' & _ & ->) | [Habs _]];
      [reflexivity | discriminate].
Qed.

(** Alice's verified factor: refused from her AAL1 session; removed from her
    AAL2 session, after which both her sessions are at AAL1. *)
Lemma C8_unenroll_witness :
  UnenrollFactor Fixture.env
    (Fixture.request Fixture.verified_factor Fixture.plain_session "")
    (Fixture.db Fixture.verified_factor Fixture.plain_session)
  = (inl (badRequestError "AAL2 required to unenroll verified factor" []),
     Fixture.db Fixture.verified_factor Fixture.plain_session)
  /\ Session_AAL Fixture.elevated_session = AAL2
  /\ UnenrollFactor Fixture.env
       (Fixture.request Fixture.verified_factor Fixture.elevated_session "")
       (Fixture.db Fixture.verified_factor Fixture.elevated_session)
     = (inr (UnenrollFactorResponse 7%nat), Expected.after_unenrollment)
  /\ map Session_AAL (sessions Expected.after_unenrollment) = [AAL1; AAL1].
Proof.
  split; [| split; [reflexivity | split; [| reflexivity]]].
  - destruct (C8_unenroll Fixture.env
                (Fixture.request Fixture.verified_factor
                   Fixture.plain_session "")
                (Fixture.db Fixture.verified_factor Fixture.plain_session))
      as [H _].
    apply H; reflexivity.
  - destruct (C8_unenroll Fixture.env
                (Fixture.request Fixture.verified_factor
                   Fixture.elevated_session "")
                (Fixture.db Fixture.verified_factor Fixture.elevated_session))
      as (_ & H & _).
    destruct (H (or_intror eq_refl) eq_refl (fun op _ => eq_refl))
      as (db' & Hrun & Hdb & _).
    rewrite Hrun, Hdb. reflexivity.
Defined.

(** ** Enrollment *)

Section EnrollCaps.

Variables (env : Env) (config : Configuration) (r : Request) (db : DB).
Variables (body : string) (params : EnrollFactorParams).

Hypothesis Hbody : getBodyBytes env 0 (Body r) = Some body.
Hypothesis Hjson : json_EnrollFactorParams env body = Some params.
Hypothesis Hsso : IsSSOUser (ctx_user r) = false.
Hypothesis Hfind : storage_fails env OpFindFactorsByUser = false.

(** X13: the TOTP enrollment that passed the checks of the body, of the
    user and of the issuer is refused with the capacity error, before any
    write, when the user's factors in storage are as many as the configured
    cap on enrolled factors or more, and when the verified ones among them
    are as many as the configured cap on verified factors or more. *)
Lemma EnrollFactor_totp_caps (issuer : string) :
  P_FactorType params = TOTP ->
  (if String.eqb (P_Issuer params) ""
   then url_ParseRequestURI env (SiteURL config)
   else Some (P_Issuer params)) = Some issuer ->
  (MaxEnrolledFactors config
   <= Z.of_nat (List.length (factors_of_user r db)) ->
   EnrollFactor env config r db
   = (inl (forbiddenError
             "Enrolled factors exceed allowed limit, unenroll to continue"),
      db))
  /\ (Z.of_nat (List.length (factors_of_user r db))
      < MaxEnrolledFactors config ->
      MaxVerifiedFactors config
      <= Z.of_nat (List.length
                     (filter is_verified (factors_of_user r db))) ->
      EnrollFactor env config r db
      = (inl (forbiddenError
           "Maximum number of enrolled factors reached, unenroll to continue"),
         db)).
Proof.
  intros Hty Hissuer. unfold factors_of_user.
  split.
  - intros Hcap. unfold EnrollFactor.
    rewrite Hbody, Hjson, Hsso, Hty. cbn [String.eqb TOTP negb]. cbn.
    rewrite Hissuer. unfold FindFactorsByUser. unfold_M. rewrite Hfind.
    apply Z.geb_le in Hcap. rewrite Hcap. reflexivity.
  - intros Hlen Hcap. unfold EnrollFactor.
    rewrite Hbody, Hjson, Hsso, Hty. cbn.
    rewrite Hissuer. unfold FindFactorsByUser. unfold_M. rewrite Hfind.
    assert (H1 : (Z.of_nat (List.length
                    (filter (owned_by (User_ID (ctx_user r))) (factors db)))
                  >=? MaxEnrolledFactors config) = false).
    { rewrite Z.geb_leb. apply Z.leb_gt. exact Hlen. }
    rewrite H1, numVerifiedFactors_count.
    apply Z.geb_le in Hcap. rewrite Hcap. reflexivity.
Qed.

Variables (body1 : string) (params1 : EnrollFactorParams).

Hypothesis Hty : P_FactorType params = "webauthn".
Hypothesis Hnew : webauthn_New_error env webauthn_Config_literal = None.
Hypothesis Hbody1 : getBodyBytes env 1 (Body r) = Some body1.
Hypothesis Hjson1 : json_EnrollFactorParams env body1 = Some params1.

Lemma EnrollFactor_webauthn_dispatch :
  EnrollFactor env config r db = EnrollWebAuthnFactor env config 1 r db.
Proof.
  unfold EnrollFactor. rewrite Hbody, Hjson, Hsso, Hty. reflexivity.
Qed.

(** X14: the WebAuthn enrollment is refused with the capacity error, before
    any write, when the user's factors in storage are as many as the
    configured cap on enrolled factors or more, and as soon as one of them is
    verified, whatever the configured cap on verified factors is. *)
Lemma EnrollFactor_webauthn_caps :
  (MaxEnrolledFactors config
   <= Z.of_nat (List.length (factors_of_user r db)) ->
   EnrollFactor env config r db
   = (inl (forbiddenError
             "Enrolled factors exceed allowed limit, unenroll to continue"),
      db))
  /\ (Z.of_nat (List.length (factors_of_user r db))
      < MaxEnrolledFactors config ->
      1 <= Z.of_nat (List.length
                       (filter is_verified (factors_of_user r db))) ->
      EnrollFactor env config r db
      = (inl (forbiddenError
    "number of enrolled factors exceeds the allowed value, unenroll to continue"),
         db)).
Proof.
  unfold factors_of_user. rewrite EnrollFactor_webauthn_dispatch.
  split.
  - intros Hcap. unfold EnrollWebAuthnFactor.
    rewrite Hnew, Hbody1, Hjson1. unfold FindFactorsByUser. unfold_M.
    rewrite Hfind. apply Z.geb_le in Hcap. rewrite Hcap. reflexivity.
  - intros Hlen Hcap. unfold EnrollWebAuthnFactor.
    rewrite Hnew, Hbody1, Hjson1. unfold FindFactorsByUser. unfold_M.
    rewrite Hfind.
    assert (H1 : (Z.of_nat (List.length
                    (filter (owned_by (User_ID (ctx_user r))) (factors db)))
                  >=? MaxEnrolledFactors config) = false).
    { rewrite Z.geb_leb. apply Z.leb_gt. exact Hlen. }
    rewrite H1, numVerifiedFactors_count.
    apply Z.geb_le in Hcap. rewrite Hcap. reflexivity.
Qed.

(** With no verified factor the WebAuthn path creates the row, whatever the
    configured cap on verified factors is. *)
Lemma EnrollFactor_webauthn_commit (id : uuid) :
  Z.of_nat (List.length (factors_of_user r db))
  < MaxEnrolledFactors config ->
  filter is_verified (factors_of_user r db) = [] ->
  NewFactorID env = Some id ->
  existsb (fun g => Nat.eqb (Factor_ID g) id) (factors db) = false ->
  (forall op, storage_fails env op = false) ->
  let factor :=
    {| Factor_ID := id; Factor_UserID := User_ID (ctx_user r);
       FriendlyName := P_FriendlyName params1;
       FactorType := P_FactorType params1;
       Status := "unverified"; Secret := "" |} in
  EnrollFactor env config r db
  = (inr (FactorJSON factor), db_after_webauthn_enrollment r factor db).
Proof.
  unfold factors_of_user. intros Hlen Hnone Hid Hfresh Hnf.
  rewrite EnrollFactor_webauthn_dispatch.
  unfold EnrollWebAuthnFactor.
  rewrite Hnew, Hbody1, Hjson1. unfold FindFactorsByUser. unfold_M.
  rewrite Hfind.
  assert (H1 : (Z.of_nat (List.length
                  (filter (owned_by (User_ID (ctx_user r))) (factors db)))
                >=? MaxEnrolledFactors config) = false).
  { rewrite Z.geb_leb. apply Z.leb_gt. exact Hlen. }
  rewrite H1, numVerifiedFactors_count, Hnone. cbn [List.length Z.of_nat].
  cbn [Z.geb Z.compare].
  unfold NewFactor. rewrite Hid.
  unfold Transaction, Create_factor, UpdateWebauthnConfiguration,
    NewAuditLogEntry. unfold_M.
  rewrite !Hnf. cbn [Factor_ID]. rewrite Hfresh. reflexivity.
Qed.

End EnrollCaps.

(** What a WebAuthn enrollment that does not fail has written. *)
Lemma EnrollWebAuthnFactor_success_inv (env : Env) (config : Configuration)
    (nreads : nat) (r : Request) (db db' : DB) (resp : Response) :
  EnrollWebAuthnFactor env config nreads r db = (inr resp, db') ->
  exists factor,
    resp = FactorJSON factor
    /\ Factor_UserID factor = User_ID (ctx_user r)
    /\ Status factor = "unverified"
    /\ Secret factor = ""
    /\ db' = db_after_webauthn_enrollment r factor db.
Proof.
  unfold EnrollWebAuthnFactor, NewFactor.
  destruct (webauthn_New_error env webauthn_Config_literal);
    [discriminate |].
  destruct (getBodyBytes env nreads (Body r)); [| discriminate].
  destruct (json_EnrollFactorParams env s) as [params |]; [| discriminate].
  unfold FindFactorsByUser. unfold_M.
  destruct (storage_fails env OpFindFactorsByUser); [discriminate |].
  destruct (_ >=? MaxEnrolledFactors config); [discriminate |].
  destruct (_ >=? 1); [discriminate |].
  destruct (NewFactorID env) as [id |]; [| discriminate].
  unfold Transaction, Create_factor, UpdateWebauthnConfiguration,
    NewAuditLogEntry. unfold_M.
  destruct (storage_fails env OpCreateFactor); [discriminate |].
  cbn [Factor_ID].
  destruct (existsb _ (factors db)); [discriminate |].
  destruct (storage_fails env OpUpdateWebauthnConfiguration);
    [discriminate |].
  destruct (storage_fails env OpAuditLog); [discriminate |].
  destruct (storage_fails env OpCommit); [discriminate |].
  intros H. inversion H; subst. eexists. repeat split.
Qed.

(** C6 at the failing input: under a configuration whose cap on verified
    factors is 0, the TOTP enrollment of a user without verified factor is
    refused with the capacity error while the WebAuthn enrollment of the same
    user creates a factor row; and under a cap of 10 the WebAuthn enrollment
    of a user with one verified factor is refused while the TOTP enrollment
    is not: the WebAuthn path compares with the constant 1, not with the
    configured cap, and two configurations with the same cap on enrolled
    factors give the same WebAuthn enrollment. *)
Theorem C6_webauthn_cap_is_not_the_configured_one :
  fst (EnrollFactor Fixture.env Fixture.strict_config
         (Fixture.request Fixture.totp_factor Fixture.new_session "totp")
         (Fixture.db Fixture.totp_factor Fixture.new_session))
  = inl (forbiddenError
           "Maximum number of enrolled factors reached, unenroll to continue")
  /\ EnrollFactor Fixture.env Fixture.strict_config
       (Fixture.request Fixture.totp_factor Fixture.new_session "webauthn")
       (Fixture.db Fixture.totp_factor Fixture.new_session)
     = (inr (FactorJSON Fixture.enrolled_webauthn_factor),
        db_after_webauthn_enrollment
          (Fixture.request Fixture.totp_factor Fixture.new_session "webauthn")
          Fixture.enrolled_webauthn_factor
          (Fixture.db Fixture.totp_factor Fixture.new_session))
  /\ EnrollFactor Fixture.env Fixture.config
       (Fixture.request Fixture.verified_factor Fixture.new_session
          "webauthn")
       (Fixture.db Fixture.verified_factor Fixture.new_session)
     = (inl (forbiddenError
    "number of enrolled factors exceeds the allowed value, unenroll to continue"),
        Fixture.db Fixture.verified_factor Fixture.new_session)
  /\ (exists totp,
        fst (EnrollFactor Fixture.env Fixture.config
               (Fixture.request Fixture.verified_factor Fixture.new_session
                  "totp")
               (Fixture.db Fixture.verified_factor Fixture.new_session))
        = inr (EnrollFactorResponse 10%nat "totp" totp))
  /\ forall env config1 config2 nreads r db,
       MaxEnrolledFactors config1 = MaxEnrolledFactors config2 ->
       EnrollWebAuthnFactor env config1 nreads r db
       = EnrollWebAuthnFactor env config2 nreads r db.
Proof.
  split; [reflexivity |]. split; [reflexivity |]. split; [reflexivity |].
  split; [eexists; reflexivity |].
  intros env config1 config2 nreads r db Hcap.
  unfold EnrollWebAuthnFactor. rewrite Hcap. reflexivity.
Qed.

(** The WebAuthn enrollment under the two fixture configurations with the
    cap on enrolled factors made equal. *)
Lemma C6_webauthn_cap_is_not_the_configured_one_witness :
  EnrollWebAuthnFactor Fixture.env Fixture.strict_config 1
    (Fixture.request Fixture.totp_factor Fixture.new_session "webauthn")
    (Fixture.db Fixture.totp_factor Fixture.new_session)
  = EnrollWebAuthnFactor Fixture.env Fixture.config 1
      (Fixture.request Fixture.totp_factor Fixture.new_session "webauthn")
      (Fixture.db Fixture.totp_factor Fixture.new_session).
Proof.
  destruct C6_webauthn_cap_is_not_the_configured_one as (_ & _ & _ & _ & H).
  apply H. reflexivity.
Defined.


(** ** Challenges of WebAuthn factors *)

Section ChallengeWebAuthn.

Variables (env : Env) (r : Request) (db : DB) (web : WebAuthn).

Hypothesis Hdecode :
  mapstructure_Decode env (WebauthnConfiguration (ctx_session r)) = inr web.

(** Without registration data on the session the handler begins a login
    ceremony, stores its data in the login field when the storage works, and
    returns: no challenge row, no audit entry. *)
Lemma ChallengeWebAuthnFactor_no_registration (options : string)
    (sessionData : SessionData) :
  WebauthnRegistrationSession (ctx_session r) = None ->
  BeginLogin env web (ctx_user r) = inr (options, sessionData) ->
  exists db',
    ChallengeWebAuthnFactor env r db = (inr (OptionsJSON options), db')
    /\ challenges db' = challenges db
    /\ audit_log db' = audit_log db
    /\ (storage_fails env OpUpdateWebauthnLoginSession = false ->
        storage_fails env OpCommit = false ->
        db' = set_sessions db
                (map (update_session (Session_ID (ctx_session r))
                        (with_WebauthnLoginSession sessionData))
                   (sessions db))).
Proof.
  intros Hreg Hbegin. unfold ChallengeWebAuthnFactor.
  rewrite Hdecode, Hreg, Hbegin.
  unfold Transaction, UpdateWebauthnLoginSession. unfold_M.
  destruct (storage_fails env OpUpdateWebauthnLoginSession).
  - eexists. repeat split. discriminate.
  - destruct (storage_fails env OpCommit);
      eexists; repeat split; discriminate.
Qed.

(** Without registration data on the session an error of the login ceremony
    ends the call: the registration ceremony is not tried. *)
Lemma ChallengeWebAuthnFactor_no_registration_error (err : Error) :
  WebauthnRegistrationSession (ctx_session r) = None ->
  BeginLogin env web (ctx_user r) = inl err ->
  ChallengeWebAuthnFactor env r db = (inl err, db).
Proof.
  intros Hreg Hbegin. unfold ChallengeWebAuthnFactor.
  rewrite Hdecode, Hreg, Hbegin. reflexivity.
Qed.

(** With registration data on the session the handler begins a registration
    ceremony, stores its data in the registration field, and then stores the
    challenge row and the audit entry. *)
Lemma ChallengeWebAuthnFactor_registration (old : SessionData)
    (options : string) (sessionData : SessionData) (c : Challenge) :
  WebauthnRegistrationSession (ctx_session r) = Some old ->
  BeginRegistration env web (ctx_user r) = inr (options, sessionData) ->
  NewChallenge env (ctx_factor r) (GetIPAddress r) = Some c ->
  existsb (fun d => Nat.eqb (Challenge_ID d) (Challenge_ID c)) (challenges db)
  = false ->
  (forall op, storage_fails env op = false) ->
  exists db',
    ChallengeWebAuthnFactor env r db = (inr (OptionsJSON options), db')
    /\ challenges db' = (challenges db ++ [c])%list
    /\ List.length (audit_log db') = S (List.length (audit_log db))
    /\ sessions db'
       = map (update_session (Session_ID (ctx_session r))
                (with_WebauthnRegistrationSession sessionData))
           (sessions db).
Proof.
  intros Hreg Hbegin Hnew Hfresh Hnf. unfold ChallengeWebAuthnFactor.
  rewrite Hdecode, Hreg, Hbegin, Hnew.
  unfold Transaction, UpdateWebauthnRegistrationSession, create_challenge_tx,
    Create_challenge, NewAuditLogEntry. unfold_M.
  rewrite !Hnf. cbn [challenges set_sessions]. rewrite Hfresh.
  eexists. split; [reflexivity |]. cbn. rewrite length_app. cbn.
  repeat split. lia.
Qed.

End ChallengeWebAuthn.

(** C4 at the failing input: for a WebAuthn factor and a session that holds
    no registration data the handler begins a login ceremony and stores its
    data in the login field of the session; for a session that holds
    registration data it begins a registration ceremony and stores its data
    in the registration field. For every engine, a session without
    registration data gets the options of the login ceremony. *)
Theorem C4_ceremony_choice_is_inverted :
  (fst (ChallengeFactor Fixture.env Fixture.config
          (Fixture.request Fixture.webauthn_factor Fixture.plain_session "")
          (Fixture.db Fixture.webauthn_factor Fixture.plain_session))
   = inr (OptionsJSON "assertion options")
   /\ map (fun s => (WebauthnRegistrationSession s, WebauthnLoginSession s))
        (sessions
           (snd (ChallengeFactor Fixture.env Fixture.config
                   (Fixture.request Fixture.webauthn_factor
                      Fixture.plain_session "")
                   (Fixture.db Fixture.webauthn_factor
                      Fixture.plain_session))))
      = [(None, Some {| SD_Challenge := "login"; SD_UserID := "1" |});
         (None, None)])
  /\ (fst (ChallengeFactor Fixture.env Fixture.config
             (Fixture.request Fixture.webauthn_factor
                Fixture.registration_session "")
             (Fixture.db Fixture.webauthn_factor
                Fixture.registration_session))
      = inr (OptionsJSON "creation options")
      /\ map (fun s => (WebauthnRegistrationSession s, WebauthnLoginSession s))
           (sessions
              (snd (ChallengeFactor Fixture.env Fixture.config
                      (Fixture.request Fixture.webauthn_factor
                         Fixture.registration_session "")
                      (Fixture.db Fixture.webauthn_factor
                         Fixture.registration_session))))
         = [(Some {| SD_Challenge := "registration"; SD_UserID := "1" |},
             None);
            (None, None)])
  /\ forall env r db web options sessionData,
       mapstructure_Decode env (WebauthnConfiguration (ctx_session r))
       = inr web ->
       WebauthnRegistrationSession (ctx_session r) = None ->
       BeginLogin env web (ctx_user r) = inr (options, sessionData) ->
       fst (ChallengeWebAuthnFactor env r db) = inr (OptionsJSON options).
Proof.
  split; [repeat split |]. split; [repeat split |].
  intros env r db web options sessionData Hdecode Hreg Hbegin.
  destruct (ChallengeWebAuthnFactor_no_registration env r db web Hdecode
              options sessionData Hreg Hbegin) as (db' & -> & _).
  reflexivity.
Qed.

Lemma C4_ceremony_choice_is_inverted_witness :
  fst (ChallengeWebAuthnFactor Fixture.env
         (Fixture.request Fixture.webauthn_factor Fixture.new_session "")
         (Fixture.db Fixture.webauthn_factor Fixture.new_session))
  = inl (LibraryError "no configuration")
  /\ fst (ChallengeWebAuthnFactor Fixture.env
            (Fixture.request Fixture.webauthn_factor Fixture.plain_session "")
            (Fixture.db Fixture.webauthn_factor Fixture.new_session))
     = inr (OptionsJSON "assertion options").
Proof.
  split; [reflexivity |].
  destruct C4_ceremony_choice_is_inverted as (_ & _ & H).
  apply (H Fixture.env
           (Fixture.request Fixture.webauthn_factor Fixture.plain_session "")
           (Fixture.db Fixture.webauthn_factor Fixture.new_session)
           Fixture.web "assertion options"
           {| SD_Challenge := "login"; SD_UserID := "1" |});
    reflexivity.
Defined.


(** C7 at the failing input: the challenge of a WebAuthn factor on a session
    without registration data answers with the ceremony options and stores
    neither a challenge row nor an audit entry; on a session with
    registration data, and on the TOTP path, the row and the entry are
    stored. For every engine, the challenge of a session without registration
    data that does not fail leaves the challenges and the audit log as they
    were. *)
Theorem C7_login_branch_stores_no_challenge :
  (fst (ChallengeFactor Fixture.env Fixture.config
          (Fixture.request Fixture.webauthn_factor Fixture.plain_session "")
          (Fixture.db Fixture.webauthn_factor Fixture.plain_session))
   = inr (OptionsJSON "assertion options")
   /\ challenges
        (snd (ChallengeFactor Fixture.env Fixture.config
                (Fixture.request Fixture.webauthn_factor
                   Fixture.plain_session "")
                (Fixture.db Fixture.webauthn_factor Fixture.plain_session)))
      = [Fixture.challenge]
   /\ audit_log
        (snd (ChallengeFactor Fixture.env Fixture.config
                (Fixture.request Fixture.webauthn_factor
                   Fixture.plain_session "")
                (Fixture.db Fixture.webauthn_factor Fixture.plain_session)))
      = [])
  /\ (map Challenge_ID
        (challenges
           (snd (ChallengeFactor Fixture.env Fixture.config
                   (Fixture.request Fixture.webauthn_factor
                      Fixture.registration_session "")
                   (Fixture.db Fixture.webauthn_factor
                      Fixture.registration_session))))
      = [20%nat; 21%nat]
      /\ map Audit_Action
           (audit_log
              (snd (ChallengeFactor Fixture.env Fixture.config
                      (Fixture.request Fixture.webauthn_factor
                         Fixture.registration_session "")
                      (Fixture.db Fixture.webauthn_factor
                         Fixture.registration_session))))
         = [CreateChallengeAction])
  /\ (map Challenge_ID
        (challenges
           (snd (ChallengeFactor Fixture.env Fixture.config
                   (Fixture.request Fixture.totp_factor
                      Fixture.plain_session "")
                   (Fixture.db Fixture.totp_factor Fixture.plain_session))))
      = [20%nat; 21%nat]
      /\ map Audit_Action
           (audit_log
              (snd (ChallengeFactor Fixture.env Fixture.config
                      (Fixture.request Fixture.totp_factor
                         Fixture.plain_session "")
                      (Fixture.db Fixture.totp_factor
                         Fixture.plain_session))))
         = [CreateChallengeAction])
  /\ forall env r db web options sessionData,
       mapstructure_Decode env (WebauthnConfiguration (ctx_session r))
       = inr web ->
       WebauthnRegistrationSession (ctx_session r) = None ->
       BeginLogin env web (ctx_user r) = inr (options, sessionData) ->
       challenges (snd (ChallengeWebAuthnFactor env r db)) = challenges db
       /\ audit_log (snd (ChallengeWebAuthnFactor env r db)) = audit_log db.
Proof.
  split; [repeat split |]. split; [repeat split |]. split; [repeat split |].
  intros env r db web options sessionData Hdecode Hreg Hbegin.
  destruct (ChallengeWebAuthnFactor_no_registration env r db web Hdecode
              options sessionData Hreg Hbegin) as (db' & -> & Hc & Ha & _).
  now split.
Qed.

Lemma C7_login_branch_stores_no_challenge_witness :
  challenges
    (snd (ChallengeWebAuthnFactor Fixture.env
            (Fixture.request Fixture.webauthn_factor Fixture.plain_session "")
            (Fixture.db Fixture.webauthn_factor Fixture.new_session)))
  = [Fixture.challenge]
  /\ audit_log
       (snd (ChallengeWebAuthnFactor Fixture.env
               (Fixture.request Fixture.webauthn_factor Fixture.plain_session
                  "")
               (Fixture.db Fixture.webauthn_factor Fixture.new_session)))
     = [].
Proof.
  destruct C7_login_branch_stores_no_challenge as (_ & _ & _ & H).
  apply (H Fixture.env
           (Fixture.request Fixture.webauthn_factor Fixture.plain_session "")
           (Fixture.db Fixture.webauthn_factor Fixture.new_session)
           Fixture.web "assertion options"
           {| SD_Challenge := "login"; SD_UserID := "1" |});
    reflexivity.
Defined.


(** ** Verification of WebAuthn factors *)

(** With registration data on the session, the credential is created against
    the zero value of the ceremony data: the stored data is not handed to the
    engine, and the request with any other stored data has the same
    outcome. *)
Lemma VerifyWebAuthnFactor_registration (env : Env) (nreads : nat)
    (r : Request) (db : DB) (stored : SessionData) (web : WebAuthn)
    (body : string) :
  mapstructure_Decode env (WebauthnConfiguration (ctx_session r)) = inr web ->
  getBodyBytes env nreads (Body r) = Some body ->
  json_ParsedCredentialCreationData env body = true ->
  WebauthnRegistrationSession (ctx_session r) = Some stored ->
  VerifyWebAuthnFactor env nreads r db
  = match ParseCredentialCreationResponseBody env (nreads + 2) (Body r) with
    | inl err => (inl err, db)
    | inr parsedResponse =>
        match CreateCredential env web (ctx_user r) SessionData_zero
                parsedResponse with
        | inl err => (inl err, db)
        | inr _ => (inr EmptyStringJSON, db)
        end
    end.
Proof.
  intros Hdecode Hbody Hjson Hreg. unfold VerifyWebAuthnFactor.
  rewrite Hdecode, Hbody, Hjson, Hreg. cbn [negb]. unfold_M.
  destruct (ParseCredentialCreationResponseBody env (nreads + 2) (Body r));
    [reflexivity |].
  destruct (CreateCredential env web (ctx_user r) SessionData_zero s);
    reflexivity.
Qed.

Lemma VerifyWebAuthnFactor_stored_data_unused (env : Env) (nreads : nat)
    (r : Request) (db : DB) (stored other : SessionData) :
  WebauthnRegistrationSession (ctx_session r) = Some stored ->
  VerifyWebAuthnFactor env nreads
    (with_ctx_session
       (with_WebauthnRegistrationSession other (ctx_session r)) r) db
  = VerifyWebAuthnFactor env nreads r db.
Proof.
  intros Hreg. unfold VerifyWebAuthnFactor.
  cbn [ctx_session ctx_user Body with_ctx_session WebauthnConfiguration
       WebauthnRegistrationSession WebauthnLoginSession
       with_WebauthnRegistrationSession].
  rewrite Hreg. reflexivity.
Qed.

(** With an assertion ceremony on the session, the call succeeds as soon as
    the response parses: the outcome of the login validation is not part of
    the result. *)
Lemma VerifyWebAuthnFactor_login (env : Env) (nreads : nat) (r : Request)
    (db : DB) (stored : SessionData) (web : WebAuthn) (body parsed : string) :
  mapstructure_Decode env (WebauthnConfiguration (ctx_session r)) = inr web ->
  getBodyBytes env nreads (Body r) = Some body ->
  json_ParsedCredentialCreationData env body = true ->
  WebauthnRegistrationSession (ctx_session r) = None ->
  WebauthnLoginSession (ctx_session r) = Some stored ->
  ParseCredentialRequestResponseBody env (nreads + 2) (Body r) = inr parsed ->
  VerifyWebAuthnFactor env nreads r db = (inr EmptyStringJSON, db).
Proof.
  intros Hdecode Hbody Hjson Hreg Hlogin Hparse. unfold VerifyWebAuthnFactor.
  rewrite Hdecode, Hbody, Hjson, Hreg, Hlogin, Hparse. reflexivity.
Qed.

Lemma VerifyWebAuthnFactor_no_ceremony (env : Env) (nreads : nat)
    (r : Request) (db : DB) (web : WebAuthn) (body : string) :
  mapstructure_Decode env (WebauthnConfiguration (ctx_session r)) = inr web ->
  getBodyBytes env nreads (Body r) = Some body ->
  json_ParsedCredentialCreationData env body = true ->
  WebauthnRegistrationSession (ctx_session r) = None ->
  WebauthnLoginSession (ctx_session r) = None ->
  VerifyWebAuthnFactor env nreads r db
  = (inl (internalServerError "Please initiate a webauthn session" []), db).
Proof.
  intros Hdecode Hbody Hjson Hreg Hlogin. unfold VerifyWebAuthnFactor.
  rewrite Hdecode, Hbody, Hjson, Hreg, Hlogin. reflexivity.
Qed.

(** C5 at the failing input: the verification of a WebAuthn factor whose
    session holds a registration ceremony, with a fresh challenge from the
    requester's address, fails with the parse error of the library, since
    the parse of the chosen ceremony reads a body that the parse before it
    has read to its end: no credential is created, and the factor row keeps
    its empty secret material; with an assertion ceremony on the session the
    call fails in the same way and no login is validated; without ceremony
    data the call fails with the state error. For every engine and request:
    the WebAuthn verification writes nothing; when a read that follows a
    parse finds the body at its end it never succeeds; the parse error of
    either ceremony is returned as it is; and replacing the registration data
    stored on the session by any other does not change the outcome, the
    engine being handed the zero value. *)
Theorem C5_webauthn_verification_completes_nothing :
  VerifyFactor Fixture.env Fixture.config
    (Fixture.request Fixture.webauthn_factor Fixture.registration_session
       "response")
    (Fixture.db Fixture.webauthn_factor Fixture.registration_session)
  = (inl (LibraryError "Parse error for Registration"),
     Fixture.db Fixture.webauthn_factor Fixture.registration_session)
  /\ map Secret
       (factors (Fixture.db Fixture.webauthn_factor
                   Fixture.registration_session))
     = [""; "654321"]
  /\ VerifyFactor Fixture.env Fixture.config
       (Fixture.request Fixture.webauthn_factor Fixture.login_session
          "response")
       (Fixture.db Fixture.webauthn_factor Fixture.login_session)
     = (inl (LibraryError "Parse error for Assertion"),
        Fixture.db Fixture.webauthn_factor Fixture.login_session)
  /\ VerifyFactor Fixture.env Fixture.config
       (Fixture.request Fixture.webauthn_factor Fixture.plain_session
          "response")
       (Fixture.db Fixture.webauthn_factor Fixture.plain_session)
     = (inl (internalServerError "Please initiate a webauthn session" []),
        Fixture.db Fixture.webauthn_factor Fixture.plain_session)
  /\ forall env nreads r db,
       snd (VerifyWebAuthnFactor env nreads r db) = db
       /\ (body_consumed env (nreads + 2) ->
           exists e, VerifyWebAuthnFactor env nreads r db = (inl e, db))
       /\ (forall web body stored e,
             mapstructure_Decode env (WebauthnConfiguration (ctx_session r))
             = inr web ->
             getBodyBytes env nreads (Body r) = Some body ->
             json_ParsedCredentialCreationData env body = true ->
             WebauthnRegistrationSession (ctx_session r) = Some stored ->
             ParseCredentialCreationResponseBody env (nreads + 2) (Body r)
             = inl e ->
             VerifyWebAuthnFactor env nreads r db = (inl e, db))
       /\ (forall web body stored e,
             mapstructure_Decode env (WebauthnConfiguration (ctx_session r))
             = inr web ->
             getBodyBytes env nreads (Body r) = Some body ->
             json_ParsedCredentialCreationData env body = true ->
             WebauthnRegistrationSession (ctx_session r) = None ->
             WebauthnLoginSession (ctx_session r) = Some stored ->
             ParseCredentialRequestResponseBody env (nreads + 2) (Body r)
             = inl e ->
             VerifyWebAuthnFactor env nreads r db = (inl e, db))
       /\ forall stored other,
            WebauthnRegistrationSession (ctx_session r) = Some stored ->
            VerifyWebAuthnFactor env nreads
              (with_ctx_session
                 (with_WebauthnRegistrationSession other (ctx_session r)) r)
              db
            = VerifyWebAuthnFactor env nreads r db.
Proof.
  split; [reflexivity |]. split; [reflexivity |]. split; [reflexivity |].
  split; [reflexivity |].
  intros env nreads r db.
  split; [apply VerifyWebAuthnFactor_db |].
  split; [apply VerifyWebAuthnFactor_body_consumed |].
  split; [| split].
  - intros web body stored e Hdecode Hbody Hjson Hreg Hparse.
    rewrite (VerifyWebAuthnFactor_registration env nreads r db stored web
               body Hdecode Hbody Hjson Hreg).
    now rewrite Hparse.
  - intros web body stored e Hdecode Hbody Hjson Hreg Hlogin Hparse.
    unfold VerifyWebAuthnFactor.
    rewrite Hdecode, Hbody, Hjson, Hreg, Hlogin, Hparse. reflexivity.
  - intros stored other Hreg.
    now apply VerifyWebAuthnFactor_stored_data_unused with (stored := stored).
Qed.

(** The fixture is such a request: the read that follows the two calls of
    getBodyBytes and the first parse finds the body at its end, and the
    verification with a registration ceremony fails. *)
Lemma C5_webauthn_verification_completes_nothing_witness :
  body_consumed Fixture.env (1 + 2)
  /\ exists e,
       VerifyWebAuthnFactor Fixture.env 1
         (Fixture.request Fixture.webauthn_factor
            Fixture.registration_session "response")
         (Fixture.db Fixture.webauthn_factor Fixture.registration_session)
       = (inl e,
          Fixture.db Fixture.webauthn_factor Fixture.registration_session).
Proof.
  assert (Hcons : body_consumed Fixture.env (1 + 2)).
  { split; intros b; eexists; reflexivity. }
  split; [exact Hcons |].
  destruct C5_webauthn_verification_completes_nothing as (_ & _ & _ & _ & H).
  destruct (H Fixture.env 1%nat
              (Fixture.request Fixture.webauthn_factor
                 Fixture.registration_session "response")
              (Fixture.db Fixture.webauthn_factor
                 Fixture.registration_session)) as (_ & Hfails & _).
  exact (Hfails Hcons).
Defined.


(** ** What a verification can do to the database *)

Lemma VerifyFactor_early_error (env : Env) (config : Configuration)
    (r : Request) (db : DB) :
  getBodyBytes env 0 (Body r) = None
  \/ (exists body, getBodyBytes env 0 (Body r) = Some body
                   /\ json_VerifyFactorParams env body = None) ->
  exists e, VerifyFactor env config r db = (inl e, db).
Proof.
  intros [Hb | (body & Hb & Hj)]; unfold VerifyFactor, throw.
  - rewrite Hb. eauto.
  - rewrite Hb, Hj. eauto.
Qed.

(** X1: every call of [VerifyFactor] ends in one of three ways: it returns no
    token and leaves the database as it was; it fails with the expiry error
    and has removed exactly the expired challenge it was given; or it returns
    the access token and has committed the verification transaction. The
    table of users is never written. *)
Theorem VerifyFactor_outcomes (env : Env) (config : Configuration)
    (r : Request) (db : DB) :
  ((snd (VerifyFactor env config r db) = db
    /\ forall token,
         fst (VerifyFactor env config r db) <> inr (AccessTokenJSON token))
   \/ (exists c,
         In c (challenges db)
         /\ hasExpired env config c = true
         /\ VerifyFactor env config r db
            = (inl (expired_error c), destroy_challenge c db))
   \/ (exists c token,
         In c (challenges db)
         /\ hasExpired env config c = false
         /\ VerifyFactor env config r db
            = (inr (AccessTokenJSON token),
               db_after_verification env r c db)))
  /\ users (snd (VerifyFactor env config r db)) = users db.
Proof.
  assert (Hquiet : forall e,
            VerifyFactor env config r db = (inl e, db) ->
            (snd (VerifyFactor env config r db) = db
             /\ forall token,
                  fst (VerifyFactor env config r db)
                  <> inr (AccessTokenJSON token))).
  { intros e ->. split; [reflexivity | discriminate]. }
  assert (Hmain :
    (snd (VerifyFactor env config r db) = db
     /\ forall token,
          fst (VerifyFactor env config r db) <> inr (AccessTokenJSON token))
    \/ (exists c,
          In c (challenges db)
          /\ hasExpired env config c = true
          /\ VerifyFactor env config r db
             = (inl (expired_error c), destroy_challenge c db))
    \/ (exists c token,
          In c (challenges db)
          /\ hasExpired env config c = false
          /\ VerifyFactor env config r db
             = (inr (AccessTokenJSON token),
                db_after_verification env r c db))).
  { destruct (getBodyBytes env 0 (Body r)) as [body |] eqn:Hbody.
    2:{ destruct (VerifyFactor_early_error env config r db (or_introl Hbody))
          as [e He]. left. eauto. }
    destruct (json_VerifyFactorParams env body) as [params |] eqn:Hjson.
    2:{ destruct (VerifyFactor_early_error env config r db
                    (or_intror (ex_intro _ body (conj Hbody Hjson))))
          as [e He]. left. eauto. }
    destruct (Nat.eq_dec (Factor_UserID (ctx_factor r))
                (User_ID (ctx_user r))) as [Hown | Hown].
    2:{ left. eapply Hquiet.
        exact (VerifyFactor_not_owner _ config _ db _ _ Hbody Hjson Hown). }
    destruct (storage_fails env OpFindChallenge) eqn:Hlookup.
    { left. eapply Hquiet.
      exact (VerifyFactor_lookup_error _ config _ db _ _ Hbody Hjson Hown
               Hlookup). }
    destruct (find_challenge (ChallengeID params) db) as [c |] eqn:Hfound.
    2:{ left. eapply Hquiet.
        exact (VerifyFactor_not_found _ config _ db _ _ Hbody Hjson Hown
                 Hlookup Hfound). }
    assert (Hin : In c (challenges db)).
    { unfold find_challenge in Hfound. now apply find_some in Hfound. }
    destruct (VerifiedAt c) as [t |] eqn:Hfresh.
    { left. eapply Hquiet.
      apply (VerifyFactor_replay_or_ip _ config _ db _ _ Hbody Hjson Hown
               Hlookup c Hfound). left. congruence. }
    destruct (String.eqb (IPAddress c) (GetIPAddress r)) eqn:Hip.
    2:{ apply String.eqb_neq in Hip. left. eapply Hquiet.
        apply (VerifyFactor_replay_or_ip _ config _ db _ _ Hbody Hjson Hown
                 Hlookup c Hfound). now right. }
    apply String.eqb_eq in Hip.
    destruct (hasExpired env config c) eqn:Hexp.
    { destruct (storage_fails env OpDestroyChallenge) eqn:Hd.
      - destruct (VerifyFactor_expired_not_destroyed _ config _ db _ _ Hbody
                    Hjson Hown Hlookup c Hfound Hfresh Hip Hexp
                    (or_introl Hd)) as [e He].
        left. eauto.
      - destruct (storage_fails env OpCommit) eqn:Hc.
        + destruct (VerifyFactor_expired_not_destroyed _ config _ db _ _
                      Hbody Hjson Hown Hlookup c Hfound Hfresh Hip Hexp
                      (or_intror Hc)) as [e He].
          left. eauto.
        + right. left. exists c. repeat split; try assumption.
          exact (VerifyFactor_expired _ config _ db _ _ Hbody Hjson Hown
                   Hlookup c Hfound Hfresh Hip Hexp Hd Hc). }
    destruct (String.eqb (FactorType (ctx_factor r)) "webauthn") eqn:Hty.
    { left.
      rewrite (VerifyFactor_dispatch _ config _ db _ _ Hbody Hjson Hown
                 Hlookup c Hfound Hfresh Hip Hexp), Hty.
      split; [apply VerifyWebAuthnFactor_db |].
      intros token Habs.
      destruct (VerifyWebAuthnFactor env 1 r db) as [res db1] eqn:Hrun.
      cbn in Habs. subst res.
      apply VerifyWebAuthnFactor_response in Hrun as [Hresp _].
      discriminate. }
    apply String.eqb_neq in Hty.
    destruct (totp_Validate env (Code params) (Secret (ctx_factor r)))
      eqn:Hcode.
    2:{ left. eapply Hquiet.
        exact (VerifyFactor_invalid_code _ config _ db _ _ Hbody Hjson Hown
                 Hlookup c Hfound Hfresh Hip Hexp Hty Hcode). }
    destruct (VerifyFactor_totp_atomic _ config _ db _ _ Hbody Hjson Hown
                Hlookup c Hfound Hfresh Hip Hexp Hty Hcode)
      as [[token Hrun] | [e He]].
    - right. right. exists c, token. repeat split; assumption.
    - left. eauto. }
  split; [exact Hmain |].
  destruct Hmain as [[-> _] | [(c & _ & _ & ->) | (c & token & _ & _ & ->)]];
    reflexivity.
Qed.

Lemma X3_no_second_promotion_witness :
  exists token,
    VerifyFactor
      (Scenario.with_faults (Scenario.only OpUpdateStatus) Fixture.env)
      Fixture.config
      (Fixture.request Fixture.verified_factor Fixture.plain_session "123456")
      (Fixture.db Fixture.verified_factor Fixture.plain_session)
    = (inr (AccessTokenJSON token),
       db_after_verification
         (Scenario.with_faults (Scenario.only OpUpdateStatus) Fixture.env)
         (Fixture.request Fixture.verified_factor Fixture.plain_session
            "123456")
         Fixture.challenge
         (Fixture.db Fixture.verified_factor Fixture.plain_session)).
Proof.
  apply (VerifyFactor_no_second_promotion
           (Scenario.with_faults (Scenario.only OpUpdateStatus) Fixture.env)
           Fixture.config
           (Fixture.request Fixture.verified_factor Fixture.plain_session
              "123456")
           (Fixture.db Fixture.verified_factor Fixture.plain_session)
           "123456" {| ChallengeID := 20%nat; Code := "123456" |}
           Fixture.challenge Fixture.alice);
    try reflexivity.
  - discriminate.
  - intros op Hop. destruct op; try reflexivity. contradiction.
Defined.

(** The last step of the transaction fails: nothing of the seven steps before
    it is kept. *)
Lemma X4_step_fails_witness :
  exists e,
    VerifyFactor
      (Scenario.with_faults (Scenario.only OpDeleteUnverifiedFactors)
         Fixture.env)
      Fixture.config
      (Fixture.request Fixture.totp_factor Fixture.plain_session "123456")
      (Fixture.db Fixture.totp_factor Fixture.plain_session)
    = (inl e, Fixture.db Fixture.totp_factor Fixture.plain_session).
Proof.
  apply (VerifyFactor_step_fails
           (Scenario.with_faults (Scenario.only OpDeleteUnverifiedFactors)
              Fixture.env)
           Fixture.config
           (Fixture.request Fixture.totp_factor Fixture.plain_session
              "123456")
           (Fixture.db Fixture.totp_factor Fixture.plain_session)
           "123456" {| ChallengeID := 20%nat; Code := "123456" |}
           Fixture.challenge OpDeleteUnverifiedFactors);
    try reflexivity.
  - discriminate.
  - cbn. tauto.
Defined.

(** X2: a wrong TOTP code fails with the invalid-code error and writes
    nothing, so the challenge stays usable: a later call that names it, from
    the address it is bound to, before its expiry and with a valid code,
    returns the access token. *)
Theorem VerifyFactor_wrong_code_retry (env env2 : Env)
    (config : Configuration) (r r2 : Request) (db : DB)
    (body body2 : string) (params params2 : VerifyFactorParams)
    (c : Challenge) (u : User) :
  getBodyBytes env 0 (Body r) = Some body ->
  json_VerifyFactorParams env body = Some params ->
  Factor_UserID (ctx_factor r) = User_ID (ctx_user r) ->
  storage_fails env OpFindChallenge = false ->
  find_challenge (ChallengeID params) db = Some c ->
  VerifiedAt c = None ->
  IPAddress c = GetIPAddress r ->
  hasExpired env config c = false ->
  FactorType (ctx_factor r) <> "webauthn" ->
  totp_Validate env (Code params) (Secret (ctx_factor r)) = false ->
  VerifyFactor env config r db
  = (inl (badRequestError "Invalid TOTP code entered" []), db)
  /\ (getBodyBytes env2 0 (Body r2) = Some body2 ->
      json_VerifyFactorParams env2 body2 = Some params2 ->
      ChallengeID params2 = ChallengeID params ->
      Factor_UserID (ctx_factor r2) = User_ID (ctx_user r2) ->
      IPAddress c = GetIPAddress r2 ->
      hasExpired env2 config c = false ->
      FactorType (ctx_factor r2) <> "webauthn" ->
      totp_Validate env2 (Code params2) (Secret (ctx_factor r2)) = true ->
      (forall op, storage_fails env2 op = false) ->
      find_user (User_ID (ctx_user r2)) db = Some u ->
      VerifyFactor env2 config r2
        (snd (VerifyFactor env config r db))
      = (inr (AccessTokenJSON
                (generateAccessToken env2 u (Session_ID (ctx_session r2)))),
         db_after_verification env2 r2 c db)).
Proof.
  intros Hbody Hjson Hown Hlookup Hfound Hfresh Hip Hlive Hty Hcode.
  rewrite (VerifyFactor_invalid_code env config r db body params Hbody Hjson
             Hown Hlookup c Hfound Hfresh Hip Hlive Hty Hcode).
  split; [reflexivity |].
  intros Hbody2 Hjson2 Hid Hown2 Hip2 Hlive2 Hty2 Hcode2 Hnf Hu.
  cbn [snd]. rewrite <- Hid in Hfound.
  apply (VerifyFactor_totp_commit env2 config r2 db body2 params2); auto.
Qed.

Lemma VerifyFactor_wrong_code_retry_witness :
  VerifyFactor Fixture.env Fixture.config
    (Fixture.request Fixture.totp_factor Fixture.plain_session "000000")
    (Fixture.db Fixture.totp_factor Fixture.plain_session)
  = (inl (badRequestError "Invalid TOTP code entered" []),
     Fixture.db Fixture.totp_factor Fixture.plain_session)
  /\ fst (VerifyFactor Fixture.env Fixture.config
            (Fixture.request Fixture.totp_factor Fixture.plain_session
               "123456")
            (snd (VerifyFactor Fixture.env Fixture.config
                    (Fixture.request Fixture.totp_factor
                       Fixture.plain_session "000000")
                    (Fixture.db Fixture.totp_factor Fixture.plain_session))))
     = inr (AccessTokenJSON Fixture.access_token).
Proof.
  destruct (VerifyFactor_wrong_code_retry Fixture.env Fixture.env
              Fixture.config
              (Fixture.request Fixture.totp_factor Fixture.plain_session
                 "000000")
              (Fixture.request Fixture.totp_factor Fixture.plain_session
                 "123456")
              (Fixture.db Fixture.totp_factor Fixture.plain_session)
              "000000" "123456"
              {| ChallengeID := 20%nat; Code := "000000" |}
              {| ChallengeID := 20%nat; Code := "123456" |}
              Fixture.challenge Fixture.alice
              eq_refl eq_refl eq_refl eq_refl eq_refl eq_refl eq_refl eq_refl)
    as [Hfirst Hsecond]; [discriminate | reflexivity |].
  split; [exact Hfirst |].
  rewrite Hsecond; try reflexivity. discriminate.
Defined.

(** ** The expiry time a challenge reports *)




(** ** Challenges of TOTP factors *)

Lemma NewChallenge_fields (env : Env) (f : Factor) (ip : string)
    (c : Challenge) :
  NewChallenge env f ip = Some c ->
  Challenge_FactorID c = Factor_ID f
  /\ IPAddress c = ip
  /\ VerifiedAt c = None
  /\ CreatedAt c = Now env.
Proof.
  unfold NewChallenge. destruct (NewChallengeID env); [| discriminate].
  intros H. injection H as <-. repeat split.
Qed.

Lemma ChallengeFactor_totp_cases (env : Env) (config : Configuration)
    (r : Request) (db : DB) :
  FactorType (ctx_factor r) <> "webauthn" ->
  (exists e, ChallengeFactor env config r db = (inl e, db))
  \/ (exists c,
        NewChallenge env (ctx_factor r) (GetIPAddress r) = Some c
        /\ existsb (fun d => Nat.eqb (Challenge_ID d) (Challenge_ID c))
             (challenges db) = false
        /\ ChallengeFactor env config r db
           = (inr (ChallengeFactorResponse (Challenge_ID c)
                     (Unix (Add (CreatedAt c) (expiryDuration config)))),
              db_after_challenge r c db)).
Proof.
  intros Hty. apply String.eqb_neq in Hty.
  unfold ChallengeFactor.
  destruct (NewChallenge env (ctx_factor r) (GetIPAddress r)) as [c |] eqn:Hc;
    [| left; unfold throw; eauto].
  rewrite Hty.
  unfold Transaction, create_challenge_tx, Create_challenge, NewAuditLogEntry.
  unfold_M. unfold throw.
  destruct (storage_fails env OpCreateChallenge); [left; eauto |].
  destruct (existsb (fun d => Nat.eqb (Challenge_ID d) (Challenge_ID c))
              (challenges db)) eqn:Hdup; [left; eauto |].
  destruct (storage_fails env OpAuditLog); [left; eauto |].
  destruct (storage_fails env OpCommit); [left; eauto |].
  right. exists c. split; [reflexivity |]. split; [assumption |].
  reflexivity.
Qed.

Lemma find_challenge_appended (c : Challenge) (cs : list Challenge) :
  existsb (fun d => Nat.eqb (Challenge_ID d) (Challenge_ID c)) cs = false ->
  find (fun d => Nat.eqb (Challenge_ID d) (Challenge_ID c)) (cs ++ [c])
  = Some c.
Proof.
  induction cs as [| d cs IH]; cbn.
  - intros _. now rewrite Nat.eqb_refl.
  - destruct (Nat.eqb (Challenge_ID d) (Challenge_ID c)); [discriminate |].
    exact IH.
Qed.

(** The challenge a successful call has issued is the one a lookup of the
    returned identifier finds. *)
Lemma ChallengeFactor_issued (env : Env) (config : Configuration)
    (r : Request) (db db1 : DB) (id : uuid) (e : Z) :
  FactorType (ctx_factor r) <> "webauthn" ->
  ChallengeFactor env config r db = (inr (ChallengeFactorResponse id e), db1) ->
  exists c,
    db1 = db_after_challenge r c db
    /\ find_challenge id db1 = Some c
    /\ Challenge_ID c = id
    /\ Challenge_FactorID c = Factor_ID (ctx_factor r)
    /\ IPAddress c = GetIPAddress r
    /\ VerifiedAt c = None
    /\ CreatedAt c = Now env
    /\ e = Unix (Add (Now env) (expiryDuration config)).
Proof.
  intros Hty Hrun.
  destruct (ChallengeFactor_totp_cases env config r db Hty)
    as [[err Herr] | (c & Hnew & Hfresh & Hok)]; [congruence |].
  rewrite Hok in Hrun. injection Hrun as <- <- <-.
  destruct (NewChallenge_fields _ _ _ _ Hnew) as (Hf & Hi & Hv & Ht).
  exists c. rewrite Ht. repeat split; try assumption.
  unfold find_challenge. cbn [challenges db_after_challenge].
  now apply find_challenge_appended.
Qed.

(** X5: the challenge of a factor that is not a WebAuthn factor either fails
    and writes nothing, or appends exactly one challenge row and one audit
    entry: the row is bound to the factor and to the requester's address,
    carries no verification time, has an identifier that was not in the
    table, and the response reports that identifier and the second in which
    the challenge expires. *)
Theorem ChallengeFactor_totp_outcomes (env : Env) (config : Configuration)
    (r : Request) (db : DB) :
  FactorType (ctx_factor r) <> "webauthn" ->
  (exists e, ChallengeFactor env config r db = (inl e, db))
  \/ (exists c,
        ChallengeFactor env config r db
        = (inr (ChallengeFactorResponse (Challenge_ID c)
                  (Unix (Add (Now env) (expiryDuration config)))),
           db_after_challenge r c db)
        /\ Challenge_FactorID c = Factor_ID (ctx_factor r)
        /\ IPAddress c = GetIPAddress r
        /\ VerifiedAt c = None
        /\ CreatedAt c = Now env
        /\ (forall d, In d (challenges db) ->
                      Challenge_ID d <> Challenge_ID c)).
Proof.
  intros Hty.
  destruct (ChallengeFactor_totp_cases env config r db Hty)
    as [Herr | (c & Hnew & Hfresh & Hok)]; [now left |].
  destruct (NewChallenge_fields _ _ _ _ Hnew) as (Hf & Hi & Hv & Ht).
  right. exists c. rewrite <- Ht. repeat split; try assumption.
  intros d Hd Hid.
  assert (Hex : existsb (fun d => Nat.eqb (Challenge_ID d) (Challenge_ID c))
                  (challenges db) = true).
  { apply existsb_exists. exists d. split; [assumption |].
    now apply Nat.eqb_eq. }
  congruence.
Qed.

Lemma ChallengeFactor_totp_outcomes_witness :
  ChallengeFactor Fixture.env Fixture.config
    (Fixture.request Fixture.totp_factor Fixture.plain_session "")
    (Fixture.db Fixture.totp_factor Fixture.plain_session)
  = (inr (ChallengeFactorResponse 21%nat 1300),
     db_after_challenge
       (Fixture.request Fixture.totp_factor Fixture.plain_session "")
       {| Challenge_ID := 21%nat; Challenge_FactorID := 7%nat;
          CreatedAt := 1000 * Second; VerifiedAt := None;
          IPAddress := "10.0.0.1" |}
       (Fixture.db Fixture.totp_factor Fixture.plain_session)).
Proof.
  destruct (ChallengeFactor_totp_outcomes Fixture.env Fixture.config
              (Fixture.request Fixture.totp_factor Fixture.plain_session "")
              (Fixture.db Fixture.totp_factor Fixture.plain_session))
    as [[e He] | (c & Hrun & _)].
  - discriminate.
  - discriminate He.
  - reflexivity.
Defined.

(** ** A challenge and its verification *)

(** X7: the identifier returned by the challenge of a TOTP factor names a
    challenge that the verification of that factor accepts: from another
    address the call fails with the address error and writes nothing; from
    the same address, no later than the issue time plus the expiry duration
    and with a valid code, it returns the access token; later than that, it
    destroys the challenge and fails with the expiry error. *)
Theorem Challenge_then_Verify (env1 env2 : Env) (config : Configuration)
    (r1 r2 : Request) (db db1 : DB) (id : uuid) (e : Z) (body : string)
    (params : VerifyFactorParams) (u : User) :
  FactorType (ctx_factor r1) <> "webauthn" ->
  ChallengeFactor env1 config r1 db
  = (inr (ChallengeFactorResponse id e), db1) ->
  getBodyBytes env2 0 (Body r2) = Some body ->
  json_VerifyFactorParams env2 body = Some params ->
  ChallengeID params = id ->
  ctx_factor r2 = ctx_factor r1 ->
  Factor_UserID (ctx_factor r2) = User_ID (ctx_user r2) ->
  (forall op, storage_fails env2 op = false) ->
  (GetIPAddress r2 <> GetIPAddress r1 ->
   VerifyFactor env2 config r2 db1
   = (inl (badRequestError "Challenge and verify IP addresses mismatch" []),
      db1))
  /\ (GetIPAddress r2 = GetIPAddress r1 ->
      Now env2 <= Add (Now env1) (expiryDuration config) ->
      totp_Validate env2 (Code params) (Secret (ctx_factor r2)) = true ->
      find_user (User_ID (ctx_user r2)) db = Some u ->
      exists db2,
        VerifyFactor env2 config r2 db1
        = (inr (AccessTokenJSON
                  (generateAccessToken env2 u (Session_ID (ctx_session r2)))),
           db2))
  /\ (GetIPAddress r2 = GetIPAddress r1 ->
      Add (Now env1) (expiryDuration config) < Now env2 ->
      exists err db2,
        VerifyFactor env2 config r2 db1 = (inl err, db2)
        /\ find_challenge id db2 = None).
Proof.
  intros Hty Hissue Hbody Hjson Hid Hsame Hown Hnf.
  destruct (ChallengeFactor_issued env1 config r1 db db1 id e Hty Hissue)
    as (c & Hdb1 & Hfound & Hcid & _ & Hip & Hfresh & Hat & _).
  rewrite <- Hid in Hfound.
  split; [| split].
  - intros Hother.
    apply (VerifyFactor_replay_or_ip env2 config r2 db1 body params Hbody
             Hjson Hown (Hnf _) c Hfound).
    right. congruence.
  - intros Hsameip Hearly Hcode Hu.
    eexists.
    apply (VerifyFactor_totp_commit env2 config r2 db1 body params Hbody
             Hjson Hown (Hnf _) c Hfound Hfresh); auto.
    + congruence.
    + apply hasExpired_before. now rewrite Hat.
    + now rewrite Hsame.
    + subst db1. exact Hu.
  - intros Hsameip Hlate.
    eexists. eexists. split.
    + apply (VerifyFactor_expired env2 config r2 db1 body params Hbody Hjson
               Hown (Hnf _) c Hfound Hfresh); auto.
      * congruence.
      * apply hasExpired_after. now rewrite Hat.
    + rewrite <- Hcid. apply find_challenge_destroyed.
Qed.

(** Alice's challenge, verified from her address 100 seconds later. *)
Lemma Challenge_then_Verify_witness :
  exists db2,
    VerifyFactor
      (Scenario.with_challenge_id 21%nat
         (Fixture.make_env (1100 * Second) Fixture.accept Fixture.accept))
      Fixture.config
      (Fixture.request Fixture.totp_factor Fixture.plain_session "123456")
      (snd (ChallengeFactor Fixture.env Fixture.config
              (Fixture.request Fixture.totp_factor Fixture.plain_session "")
              (Fixture.db Fixture.totp_factor Fixture.plain_session)))
    = (inr (AccessTokenJSON Fixture.access_token), db2).
Proof.
  destruct (Challenge_then_Verify Fixture.env
              (Scenario.with_challenge_id 21%nat
                 (Fixture.make_env (1100 * Second) Fixture.accept
                    Fixture.accept))
              Fixture.config
              (Fixture.request Fixture.totp_factor Fixture.plain_session "")
              (Fixture.request Fixture.totp_factor Fixture.plain_session
                 "123456")
              (Fixture.db Fixture.totp_factor Fixture.plain_session)
              (snd (ChallengeFactor Fixture.env Fixture.config
                      (Fixture.request Fixture.totp_factor
                         Fixture.plain_session "")
                      (Fixture.db Fixture.totp_factor Fixture.plain_session)))
              21%nat 1300 "123456"
              {| ChallengeID := 21%nat; Code := "123456" |} Fixture.alice
              ltac:(discriminate) eq_refl eq_refl eq_refl eq_refl eq_refl
              eq_refl (fun op => eq_refl))
    as (_ & Hok & _).
  apply Hok; try reflexivity. discriminate.
Defined.

(** X8: the verification does not compare the factor of the challenge with
    the factor it verifies: a challenge issued for one factor is accepted,
    from the same address and before its expiry, by the verification of any
    other TOTP factor with a code valid for that other factor, and it is that
    other factor the transaction marks verified. *)
Theorem Verify_accepts_challenge_of_other_factor (env1 env2 : Env)
    (config : Configuration) (r1 r2 : Request) (db db1 : DB) (id : uuid)
    (e : Z) (body : string) (params : VerifyFactorParams) (u : User) :
  FactorType (ctx_factor r1) <> "webauthn" ->
  ChallengeFactor env1 config r1 db
  = (inr (ChallengeFactorResponse id e), db1) ->
  Factor_ID (ctx_factor r2) <> Factor_ID (ctx_factor r1) ->
  getBodyBytes env2 0 (Body r2) = Some body ->
  json_VerifyFactorParams env2 body = Some params ->
  ChallengeID params = id ->
  Factor_UserID (ctx_factor r2) = User_ID (ctx_user r2) ->
  FactorType (ctx_factor r2) <> "webauthn" ->
  (forall op, storage_fails env2 op = false) ->
  GetIPAddress r2 = GetIPAddress r1 ->
  Now env2 <= Add (Now env1) (expiryDuration config) ->
  totp_Validate env2 (Code params) (Secret (ctx_factor r2)) = true ->
  find_user (User_ID (ctx_user r2)) db = Some u ->
  exists c,
    find_challenge id db1 = Some c
    /\ Challenge_FactorID c <> Factor_ID (ctx_factor r2)
    /\ VerifyFactor env2 config r2 db1
       = (inr (AccessTokenJSON
                 (generateAccessToken env2 u (Session_ID (ctx_session r2)))),
          db_after_verification env2 r2 c db1).
Proof.
  intros Hty Hissue Hother Hbody Hjson Hid Hown Hty2 Hnf Hip2 Hearly Hcode Hu.
  destruct (ChallengeFactor_issued env1 config r1 db db1 id e Hty Hissue)
    as (c & Hdb1 & Hfound & Hcid & Hcf & Hip & Hfresh & Hat & _).
  exists c. split; [assumption |]. split; [congruence |].
  rewrite <- Hid in Hfound.
  apply (VerifyFactor_totp_commit env2 config r2 db1 body params Hbody
           Hjson Hown (Hnf _) c Hfound Hfresh); auto.
  - congruence.
  - apply hasExpired_before. now rewrite Hat.
  - subst db1. exact Hu.
Qed.

(** The challenge Alice requested for her factor, used by Bob from the same
    address to verify his own factor. *)
Lemma Verify_accepts_challenge_of_other_factor_witness :
  exists c,
    find_challenge 21%nat
      (snd (ChallengeFactor Fixture.env Fixture.config
              (Scenario.request Fixture.alice Fixture.totp_factor
                 Fixture.plain_session "" "10.0.0.1")
              Scenario.db)) = Some c
    /\ Challenge_FactorID c <> 9%nat
    /\ fst (VerifyFactor (Scenario.with_challenge_id 21%nat Fixture.env)
              Fixture.config
              (Scenario.request Scenario.bob Scenario.bob_factor
                 Scenario.bob_session "777777" "10.0.0.1")
              (snd (ChallengeFactor Fixture.env Fixture.config
                      (Scenario.request Fixture.alice Fixture.totp_factor
                         Fixture.plain_session "" "10.0.0.1")
                      Scenario.db)))
       = inr (AccessTokenJSON Fixture.access_token).
Proof.
  destruct (Verify_accepts_challenge_of_other_factor Fixture.env
              (Scenario.with_challenge_id 21%nat Fixture.env) Fixture.config
              (Scenario.request Fixture.alice Fixture.totp_factor
                 Fixture.plain_session "" "10.0.0.1")
              (Scenario.request Scenario.bob Scenario.bob_factor
                 Scenario.bob_session "777777" "10.0.0.1")
              Scenario.db
              (snd (ChallengeFactor Fixture.env Fixture.config
                      (Scenario.request Fixture.alice Fixture.totp_factor
                         Fixture.plain_session "" "10.0.0.1")
                      Scenario.db))
              21%nat 1300 "777777"
              {| ChallengeID := 21%nat; Code := "777777" |} Scenario.bob
              ltac:(discriminate) eq_refl ltac:(discriminate) eq_refl eq_refl
              eq_refl eq_refl ltac:(discriminate) (fun op => eq_refl) eq_refl
              ltac:(discriminate) eq_refl eq_refl)
    as (c & Hfound & Hne & Hrun).
  exists c. split; [exact Hfound |]. split; [exact Hne |].
  now rewrite Hrun.
Defined.

(** ** Storage errors in the challenge of a WebAuthn factor *)

(** X9: on a session without registration data, a storage error while the
    data of the login ceremony is saved is dropped: the call still answers
    with the options of the ceremony, and the database is the one it started
    from, so the ceremony data is lost. *)
Theorem ChallengeWebAuthnFactor_drops_storage_error (env : Env) (r : Request)
    (db : DB) (web : WebAuthn) (options : string) (sessionData : SessionData) :
  mapstructure_Decode env (WebauthnConfiguration (ctx_session r)) = inr web ->
  WebauthnRegistrationSession (ctx_session r) = None ->
  BeginLogin env web (ctx_user r) = inr (options, sessionData) ->
  storage_fails env OpUpdateWebauthnLoginSession = true
  \/ storage_fails env OpCommit = true ->
  ChallengeWebAuthnFactor env r db = (inr (OptionsJSON options), db).
Proof.
  intros Hdecode Hreg Hbegin Hfail. unfold ChallengeWebAuthnFactor.
  rewrite Hdecode, Hreg, Hbegin.
  unfold Transaction, UpdateWebauthnLoginSession. unfold_M. unfold throw.
  destruct (storage_fails env OpUpdateWebauthnLoginSession) eqn:Hs;
    [reflexivity |].
  destruct Hfail as [Hfail | Hfail]; [discriminate |].
  rewrite Hfail. reflexivity.
Qed.

Lemma ChallengeWebAuthnFactor_drops_storage_error_witness :
  ChallengeWebAuthnFactor
    (Scenario.with_faults (Scenario.only OpUpdateWebauthnLoginSession)
       Fixture.env)
    (Fixture.request Fixture.webauthn_factor Fixture.plain_session "")
    (Fixture.db Fixture.webauthn_factor Fixture.plain_session)
  = (inr (OptionsJSON "assertion options"),
     Fixture.db Fixture.webauthn_factor Fixture.plain_session).
Proof.
  apply (ChallengeWebAuthnFactor_drops_storage_error
           (Scenario.with_faults (Scenario.only OpUpdateWebauthnLoginSession)
              Fixture.env)
           (Fixture.request Fixture.webauthn_factor Fixture.plain_session "")
           (Fixture.db Fixture.webauthn_factor Fixture.plain_session)
           Fixture.web "assertion options"
           {| SD_Challenge := "login"; SD_UserID := "1" |});
    try reflexivity.
  left. reflexivity.
Defined.

(** X10: on a session with registration data the two writes are two
    transactions. When the challenge row or its audit entry cannot be stored
    the call fails, but the data of the new registration ceremony has been
    committed to the session already; and when the session cannot be updated
    that error is overwritten: the call stores the challenge row and the
    audit entry and answers with the options, the session unchanged. *)
Theorem ChallengeWebAuthnFactor_registration_not_atomic (env : Env)
    (r : Request) (db : DB) (web : WebAuthn) (old : SessionData)
    (options : string) (sessionData : SessionData) (c : Challenge) :
  mapstructure_Decode env (WebauthnConfiguration (ctx_session r)) = inr web ->
  WebauthnRegistrationSession (ctx_session r) = Some old ->
  BeginRegistration env web (ctx_user r) = inr (options, sessionData) ->
  NewChallenge env (ctx_factor r) (GetIPAddress r) = Some c ->
  storage_fails env OpCommit = false ->
  (storage_fails env OpUpdateWebauthnRegistrationSession = false ->
   storage_fails env OpCreateChallenge = true
   \/ storage_fails env OpAuditLog = true ->
   exists e,
     ChallengeWebAuthnFactor env r db
     = (inl e,
        set_sessions db
          (map (update_session (Session_ID (ctx_session r))
                  (with_WebauthnRegistrationSession sessionData))
             (sessions db))))
  /\ (storage_fails env OpUpdateWebauthnRegistrationSession = true ->
      storage_fails env OpCreateChallenge = false ->
      storage_fails env OpAuditLog = false ->
      existsb (fun d => Nat.eqb (Challenge_ID d) (Challenge_ID c))
        (challenges db) = false ->
      ChallengeWebAuthnFactor env r db
      = (inr (OptionsJSON options), db_after_challenge r c db)).
Proof.
  intros Hdecode Hreg Hbegin Hnew Hcommit. split.
  - intros Hs Hfail. unfold ChallengeWebAuthnFactor.
    rewrite Hdecode, Hreg, Hbegin, Hnew.
    unfold Transaction, UpdateWebauthnRegistrationSession,
      create_challenge_tx, Create_challenge, NewAuditLogEntry.
    unfold_M. unfold throw. rewrite Hs, Hcommit.
    destruct (storage_fails env OpCreateChallenge) eqn:Hc; [eauto |].
    destruct Hfail as [Hfail | Hfail]; [discriminate |]. rewrite Hfail.
    cbn [challenges set_sessions].
    destruct (existsb _ (challenges db)); eauto.
  - intros Hs Hc Ha Hfresh. unfold ChallengeWebAuthnFactor.
    rewrite Hdecode, Hreg, Hbegin, Hnew.
    unfold Transaction, UpdateWebauthnRegistrationSession,
      create_challenge_tx, Create_challenge, NewAuditLogEntry.
    unfold_M. unfold throw. rewrite Hs, Hc, Ha, Hcommit, Hfresh.
    reflexivity.
Qed.

Lemma ChallengeWebAuthnFactor_registration_not_atomic_witness :
  exists e,
    ChallengeWebAuthnFactor
      (Scenario.with_faults (Scenario.only OpCreateChallenge) Fixture.env)
      (Fixture.request Fixture.webauthn_factor Fixture.registration_session "")
      (Fixture.db Fixture.webauthn_factor Fixture.registration_session)
    = (inl e,
       set_sessions (Fixture.db Fixture.webauthn_factor
                       Fixture.registration_session)
         [Fixture.session AAL1
            (Some {| SD_Challenge := "registration"; SD_UserID := "1" |})
            None;
          Fixture.other_session]).
Proof.
  destruct (ChallengeWebAuthnFactor_registration_not_atomic
              (Scenario.with_faults (Scenario.only OpCreateChallenge)
                 Fixture.env)
              (Fixture.request Fixture.webauthn_factor
                 Fixture.registration_session "")
              (Fixture.db Fixture.webauthn_factor
                 Fixture.registration_session)
              Fixture.web Fixture.ceremony "creation options"
              {| SD_Challenge := "registration"; SD_UserID := "1" |}
              {| Challenge_ID := 21%nat; Challenge_FactorID := 7%nat;
                 CreatedAt := 1000 * Second; VerifiedAt := None;
                 IPAddress := "10.0.0.1" |}
              eq_refl eq_refl eq_refl eq_refl eq_refl) as [H _].
  destruct (H eq_refl (or_introl eq_refl)) as [e He].
  exists e. rewrite He. reflexivity.
Defined.

(** ** What an enrollment can do to the database *)

(** X11: the enrollment refuses, in this order and without writing: a body
    that cannot be read (500), a body that is not JSON (400), a user of single
    sign-on (422), whatever factor type is asked for, and a factor type that
    is neither webauthn nor totp (400). *)
Theorem EnrollFactor_rejections (env : Env) (config : Configuration)
    (r : Request) (db : DB) :
  (getBodyBytes env 0 (Body r) = None ->
   EnrollFactor env config r db
   = (inl (internalServerError "Could not read body" []), db))
  /\ (forall body,
        getBodyBytes env 0 (Body r) = Some body ->
        (json_EnrollFactorParams env body = None ->
         EnrollFactor env config r db
         = (inl (badRequestError "invalid body: unable to parse JSON" []),
            db))
        /\ forall params,
             json_EnrollFactorParams env body = Some params ->
             (IsSSOUser (ctx_user r) = true ->
              EnrollFactor env config r db
              = (inl (unprocessableEntityError
                  "MFA enrollment only supported for non-SSO users at this time"),
                 db))
             /\ (IsSSOUser (ctx_user r) = false ->
                 P_FactorType params <> "webauthn" ->
                 P_FactorType params <> "totp" ->
                 EnrollFactor env config r db
                 = (inl (badRequestError "factor_type needs to be totp" []),
                    db))).
Proof.
  split.
  - intros Hb. unfold EnrollFactor. now rewrite Hb.
  - intros body Hb. split.
    + intros Hj. unfold EnrollFactor. now rewrite Hb, Hj.
    + intros params Hj. split.
      * intros Hsso. unfold EnrollFactor. now rewrite Hb, Hj, Hsso.
      * intros Hsso Hw Ht. unfold EnrollFactor.
        apply String.eqb_neq in Hw, Ht.
        rewrite Hb, Hj, Hsso, Hw. unfold TOTP. now rewrite Ht.
Qed.

(** A user of single sign-on who asks for a WebAuthn factor. *)
Lemma EnrollFactor_rejections_witness :
  EnrollFactor Fixture.env Fixture.config
    (Scenario.request Scenario.sso_user Fixture.totp_factor
       Fixture.new_session "webauthn" "10.0.0.1")
    Scenario.db
  = (inl (unprocessableEntityError
            "MFA enrollment only supported for non-SSO users at this time"),
     Scenario.db)
  /\ EnrollFactor Fixture.env Fixture.config
       (Scenario.request Fixture.alice Fixture.totp_factor
          Fixture.new_session "sms" "10.0.0.1")
       Scenario.db
     = (inl (badRequestError "factor_type needs to be totp" []), Scenario.db).
Proof.
  split.
  - destruct (EnrollFactor_rejections Fixture.env Fixture.config
                (Scenario.request Scenario.sso_user Fixture.totp_factor
                   Fixture.new_session "webauthn" "10.0.0.1")
                Scenario.db) as [_ H].
    destruct (H "webauthn" eq_refl) as [_ Hp].
    destruct (Hp {| P_FriendlyName := "key"; P_FactorType := "webauthn";
                    P_Issuer := "" |} eq_refl) as [Hsso _].
    apply Hsso. reflexivity.
  - destruct (EnrollFactor_rejections Fixture.env Fixture.config
                (Scenario.request Fixture.alice Fixture.totp_factor
                   Fixture.new_session "sms" "10.0.0.1")
                Scenario.db) as [_ H].
    destruct (H "sms" eq_refl) as [_ Hp].
    destruct (Hp {| P_FriendlyName := "key"; P_FactorType := "sms";
                    P_Issuer := "" |} eq_refl) as [_ Hty].
    apply Hty; [reflexivity | discriminate | discriminate].
Defined.

Lemma existsb_fresh_factor (id : uuid) (fs : list Factor) :
  existsb (fun g => Nat.eqb (Factor_ID g) id) fs = false ->
  forall g, In g fs -> Factor_ID g <> id.
Proof.
  intros H g Hg Hid.
  assert (Hex : existsb (fun g => Nat.eqb (Factor_ID g) id) fs = true).
  { apply existsb_exists. exists g. split; [assumption |].
    now apply Nat.eqb_eq. }
  congruence.
Qed.

Lemma EnrollWebAuthnFactor_cases (env : Env) (config : Configuration)
    (nreads : nat) (r : Request) (db : DB) :
  (exists e, EnrollWebAuthnFactor env config nreads r db = (inl e, db))
  \/ (exists factor,
        NewFactorID env = Some (Factor_ID factor)
        /\ Factor_UserID factor = User_ID (ctx_user r)
        /\ Status factor = "unverified"
        /\ Secret factor = ""
        /\ (forall g, In g (factors db) -> Factor_ID g <> Factor_ID factor)
        /\ EnrollWebAuthnFactor env config nreads r db
           = (inr (FactorJSON factor),
              db_after_webauthn_enrollment r factor db)).
Proof.
  unfold EnrollWebAuthnFactor, NewFactor. unfold throw.
  destruct (webauthn_New_error env webauthn_Config_literal);
    [left; eauto |].
  destruct (getBodyBytes env nreads (Body r)); [| left; eauto].
  destruct (json_EnrollFactorParams env s) as [params |]; [| left; eauto].
  unfold FindFactorsByUser. unfold_M. unfold throw.
  destruct (storage_fails env OpFindFactorsByUser); [left; eauto |].
  destruct (_ >=? MaxEnrolledFactors config); [left; eauto |].
  destruct (_ >=? 1); [left; eauto |].
  destruct (NewFactorID env) as [id |]; [| left; eauto].
  unfold Transaction, Create_factor, UpdateWebauthnConfiguration,
    NewAuditLogEntry. unfold_M. unfold throw.
  destruct (storage_fails env OpCreateFactor); [left; eauto |].
  cbn [Factor_ID].
  destruct (existsb (fun g => Nat.eqb (Factor_ID g) id) (factors db))
    eqn:Hfresh; [left; eauto |].
  destruct (storage_fails env OpUpdateWebauthnConfiguration);
    [left; eauto |].
  destruct (storage_fails env OpAuditLog); [left; eauto |].
  destruct (storage_fails env OpCommit); [left; eauto |].
  right.
  exists {| Factor_ID := id; Factor_UserID := User_ID (ctx_user r);
            FriendlyName := P_FriendlyName params;
            FactorType := P_FactorType params;
            Status := "unverified"; Secret := "" |}.
  repeat (split; [reflexivity |]).
  split; [cbn [Factor_ID]; now apply existsb_fresh_factor | reflexivity].
Qed.

(** C9 at the failing input: a service at https://auth.example.com and a
    service at https://login.example.org get, for the same enrollment, the
    same relying party stored on the session, and its identifier and origin
    are the host 2175-203-116-4-74.ap.ngrok.io written in the handler, not
    the site of either service. For every engine, configuration and request,
    the WebAuthn enrollment either fails and leaves the database as it was
    or creates, in one transaction, the factor row with empty secret
    material, the audit entry and that same literal relying party on the
    session of the request; and the configuration is read for the cap on
    enrolled factors only: two configurations with that cap in common give
    the same enrollment. *)
Theorem C9_relying_party_is_a_literal :
  SiteURL Fixture.config = "https://auth.example.com"
  /\ EnrollFactor Fixture.env Fixture.config
       (Fixture.request Fixture.totp_factor Fixture.new_session "webauthn")
       (Fixture.db Fixture.totp_factor Fixture.new_session)
     = (inr (FactorJSON Fixture.enrolled_webauthn_factor),
        Expected.after_webauthn_enrollment)
  /\ SiteURL Scenario.moved_config = "https://login.example.org"
  /\ EnrollFactor Fixture.env Scenario.moved_config
       (Fixture.request Fixture.totp_factor Fixture.new_session "webauthn")
       (Fixture.db Fixture.totp_factor Fixture.new_session)
     = (inr (FactorJSON Fixture.enrolled_webauthn_factor),
        Expected.after_webauthn_enrollment)
  /\ forall env config nreads r db,
       ((exists e, EnrollWebAuthnFactor env config nreads r db = (inl e, db))
        \/ (exists factor db',
              EnrollWebAuthnFactor env config nreads r db
              = (inr (FactorJSON factor), db')
              /\ Factor_UserID factor = User_ID (ctx_user r)
              /\ Status factor = "unverified"
              /\ Secret factor = ""
              /\ users db' = users db
              /\ challenges db' = challenges db
              /\ factors db' = (factors db ++ [factor])%list
              /\ audit_log db'
                 = (audit_log db
                    ++ [{| Audit_Action := EnrollFactorAction;
                           Audit_Actor := User_ID (ctx_user r);
                           Audit_IP := RemoteAddr r;
                           Audit_Traits :=
                             [("factor_id", TraitID (Factor_ID factor))] |}])%list
              /\ map Session_ID (sessions db') = map Session_ID (sessions db)
              /\ (forall s, In s (sessions db') ->
                    Session_ID s = Session_ID (ctx_session r) ->
                    WebauthnConfiguration s
                    = Some {| Config :=
                                {| RPDisplayName := "Go Webauthn";
                                   RPID := "2175-203-116-4-74.ap.ngrok.io";
                                   RPOrigin :=
                                     "https://2175-203-116-4-74.ap.ngrok.io";
                                   RPIcon :=
                                     "https://go-webauthn.local/logo.png" |} |})
              /\ (forall s, In s (sessions db) ->
                    Session_ID s <> Session_ID (ctx_session r) ->
                    In s (sessions db'))))
       /\ forall config2,
            MaxEnrolledFactors config2 = MaxEnrolledFactors config ->
            EnrollWebAuthnFactor env config2 nreads r db
            = EnrollWebAuthnFactor env config nreads r db.
Proof.
  split; [reflexivity |]. split; [reflexivity |]. split; [reflexivity |].
  split; [reflexivity |].
  intros env config nreads r db. split.
  - destruct (EnrollWebAuthnFactor_cases env config nreads r db)
      as [Hfail | (factor & _ & Hu & Hs & Hsec & _ & Hrun)];
      [now left | right].
    exists factor, (db_after_webauthn_enrollment r factor db).
    repeat (split; [assumption || reflexivity |]).
    cbn [sessions db_after_webauthn_enrollment].
    split; [| split].
    + rewrite map_map. apply map_ext. intros s. unfold update_session.
      now destruct (Nat.eqb (Session_ID s) (Session_ID (ctx_session r))).
    + intros s Hin Hid. apply in_map_iff in Hin as (s0 & <- & _).
      unfold update_session in *.
      destruct (Nat.eqb (Session_ID s0) (Session_ID (ctx_session r))) eqn:E.
      * reflexivity.
      * apply Nat.eqb_neq in E. contradiction.
    + intros s Hin Hid. apply in_map_iff. exists s. split; [| assumption].
      unfold update_session. apply Nat.eqb_neq in Hid. now rewrite Hid.
  - intros config2 Hcap. unfold EnrollWebAuthnFactor. now rewrite Hcap.
Qed.

(** The relying party stored for the service at https://auth.example.com. *)
Lemma C9_relying_party_is_a_literal_witness :
  map (fun s => option_map (fun w => RPID (Config w))
                  (WebauthnConfiguration s))
    (sessions
       (snd (EnrollFactor Fixture.env Fixture.config
               (Fixture.request Fixture.totp_factor Fixture.new_session
                  "webauthn")
               (Fixture.db Fixture.totp_factor Fixture.new_session))))
  = [Some "2175-203-116-4-74.ap.ngrok.io"; None]
  /\ EnrollWebAuthnFactor Fixture.env Fixture.strict_config 1
       (Fixture.request Fixture.totp_factor Fixture.new_session "webauthn")
       (Fixture.db Fixture.totp_factor Fixture.new_session)
     = EnrollWebAuthnFactor Fixture.env Fixture.config 1
         (Fixture.request Fixture.totp_factor Fixture.new_session "webauthn")
         (Fixture.db Fixture.totp_factor Fixture.new_session).
Proof.
  destruct C9_relying_party_is_a_literal as (_ & Hrun & _ & _ & Hall).
  split.
  - rewrite Hrun. reflexivity.
  - destruct (Hall Fixture.env Fixture.config 1%nat
                (Fixture.request Fixture.totp_factor Fixture.new_session
                   "webauthn")
                (Fixture.db Fixture.totp_factor Fixture.new_session))
      as [_ Hsame].
    apply Hsame. reflexivity.
Defined.

(** X12: every enrollment either fails and leaves the database as it was, or
    adds exactly one factor row and one audit entry in one transaction. The
    new factor belongs to the requester, is unverified, and has an identifier
    no factor had before; on the TOTP path the response carries its secret
    and the sessions are not written; on the WebAuthn path its secret is
    empty and the session of the request receives the relying party. *)
Theorem EnrollFactor_outcomes (env : Env) (config : Configuration)
    (r : Request) (db : DB) :
  (exists e, EnrollFactor env config r db = (inl e, db))
  \/ (exists factor,
        NewFactorID env = Some (Factor_ID factor)
        /\ Factor_UserID factor = User_ID (ctx_user r)
        /\ Status factor = "unverified"
        /\ (forall g, In g (factors db) -> Factor_ID g <> Factor_ID factor)
        /\ ((exists totp,
               EnrollFactor env config r db
               = (inr (EnrollFactorResponse (Factor_ID factor) "totp" totp),
                  db_after_totp_enrollment r factor db)
               /\ TOTP_Secret totp = Secret factor
               /\ FactorType factor = "totp")
            \/ (EnrollFactor env config r db
                = (inr (FactorJSON factor),
                   db_after_webauthn_enrollment r factor db)
                /\ Secret factor = ""))).
Proof.
  unfold EnrollFactor. unfold throw.
  destruct (getBodyBytes env 0 (Body r)) as [body |]; [| left; eauto].
  destruct (json_EnrollFactorParams env body) as [params |]; [| left; eauto].
  destruct (IsSSOUser (ctx_user r)); [left; eauto |].
  destruct (String.eqb (P_FactorType params) "webauthn").
  { destruct (EnrollWebAuthnFactor_cases env config 1 r db)
      as [Herr | (factor & Hid & Hu & Hs & Hsec & Hfresh & Hrun)];
      [now left |].
    right. exists factor. repeat (split; [assumption |]).
    right. now split. }
  destruct (String.eqb (P_FactorType params) TOTP) eqn:Hty;
    cbn [negb]; [| left; eauto].
  apply String.eqb_eq in Hty.
  destruct (if String.eqb (P_Issuer params) ""
            then url_ParseRequestURI env (SiteURL config)
            else Some (P_Issuer params)) as [issuer |]; [| left; eauto].
  unfold FindFactorsByUser. unfold_M. unfold throw.
  destruct (storage_fails env OpFindFactorsByUser); [left; eauto |].
  destruct (_ >=? MaxEnrolledFactors config); [left; eauto |].
  destruct (_ >=? MaxVerifiedFactors config); [left; eauto |].
  destruct (totp_Generate env issuer (GetEmail (ctx_user r))) as [key |];
    [| left; eauto].
  destruct (WriteQrSVG env key) as [buf |]; [| left; eauto].
  unfold NewFactor.
  destruct (NewFactorID env) as [id |]; [| left; eauto].
  unfold Transaction, Create_factor, NewAuditLogEntry. unfold_M. unfold throw.
  destruct (storage_fails env OpCreateFactor); [left; eauto |].
  cbn [Factor_ID].
  destruct (existsb (fun g => Nat.eqb (Factor_ID g) id) (factors db))
    eqn:Hfresh; [left; eauto |].
  destruct (storage_fails env OpAuditLog); [left; eauto |].
  destruct (storage_fails env OpCommit); [left; eauto |].
  right.
  exists {| Factor_ID := id; Factor_UserID := User_ID (ctx_user r);
            FriendlyName := P_FriendlyName params;
            FactorType := P_FactorType params;
            Status := "unverified"; Secret := Key_Secret key |}.
  repeat (split; [reflexivity |]).
  split; [cbn [Factor_ID]; now apply existsb_fresh_factor |].
  left. eexists. split; [reflexivity |]. split; [reflexivity |].
  cbn [FactorType]. exact Hty.
Qed.

Lemma X13_totp_caps_witness :
  EnrollFactor Fixture.env Scenario.small_config
    (Fixture.request Fixture.totp_factor Fixture.new_session "totp")
    (Fixture.db Fixture.totp_factor Fixture.new_session)
  = (inl (forbiddenError
            "Enrolled factors exceed allowed limit, unenroll to continue"),
     Fixture.db Fixture.totp_factor Fixture.new_session)
  /\ EnrollFactor Fixture.env Fixture.strict_config
       (Fixture.request Fixture.totp_factor Fixture.new_session "totp")
       (Fixture.db Fixture.totp_factor Fixture.new_session)
     = (inl (forbiddenError
          "Maximum number of enrolled factors reached, unenroll to continue"),
        Fixture.db Fixture.totp_factor Fixture.new_session).
Proof.
  split.
  - destruct (EnrollFactor_totp_caps Fixture.env Scenario.small_config
                (Fixture.request Fixture.totp_factor Fixture.new_session
                   "totp")
                (Fixture.db Fixture.totp_factor Fixture.new_session)
                "totp"
                {| P_FriendlyName := "key"; P_FactorType := "totp";
                   P_Issuer := "" |}
                eq_refl eq_refl eq_refl eq_refl "https://auth.example.com"
                eq_refl eq_refl) as [H _].
    apply H. cbn. lia.
  - destruct (EnrollFactor_totp_caps Fixture.env Fixture.strict_config
                (Fixture.request Fixture.totp_factor Fixture.new_session
                   "totp")
                (Fixture.db Fixture.totp_factor Fixture.new_session)
                "totp"
                {| P_FriendlyName := "key"; P_FactorType := "totp";
                   P_Issuer := "" |}
                eq_refl eq_refl eq_refl eq_refl "https://auth.example.com"
                eq_refl eq_refl) as [_ H].
    apply H; cbn; lia.
Defined.

Lemma X14_webauthn_caps_witness :
  EnrollFactor Fixture.env Fixture.config
    (Fixture.request Fixture.verified_factor Fixture.new_session "webauthn")
    (Fixture.db Fixture.verified_factor Fixture.new_session)
  = (inl (forbiddenError
    "number of enrolled factors exceeds the allowed value, unenroll to continue"),
     Fixture.db Fixture.verified_factor Fixture.new_session).
Proof.
  destruct (EnrollFactor_webauthn_caps Fixture.env Fixture.config
              (Fixture.request Fixture.verified_factor Fixture.new_session
                 "webauthn")
              (Fixture.db Fixture.verified_factor Fixture.new_session)
              "webauthn"
              {| P_FriendlyName := "key"; P_FactorType := "webauthn";
                 P_Issuer := "" |}
              eq_refl eq_refl eq_refl eq_refl "webauthn"
              {| P_FriendlyName := "key"; P_FactorType := "webauthn";
                 P_Issuer := "" |}
              eq_refl eq_refl eq_refl eq_refl) as [_ H].
  apply H; cbn; lia.
Defined.

(** X15: on the TOTP path the address of the site is parsed only when the
    body names no issuer: without issuer, a site address that does not parse
    fails the enrollment with the 500 error and nothing is written; with an
    issuer, two configurations with the same caps give the same enrollment,
    whatever their site addresses are. *)
Theorem EnrollFactor_issuer (env : Env) (config : Configuration) (r : Request)
    (db : DB) (body : string) (params : EnrollFactorParams) :
  getBodyBytes env 0 (Body r) = Some body ->
  json_EnrollFactorParams env body = Some params ->
  IsSSOUser (ctx_user r) = false ->
  P_FactorType params = "totp" ->
  (P_Issuer params = "" ->
   url_ParseRequestURI env (SiteURL config) = None ->
   EnrollFactor env config r db
   = (inl (internalServerError "site url is improperly formatted" []), db))
  /\ (P_Issuer params <> "" ->
      forall config2,
        MaxEnrolledFactors config2 = MaxEnrolledFactors config ->
        MaxVerifiedFactors config2 = MaxVerifiedFactors config ->
        EnrollFactor env config2 r db = EnrollFactor env config r db).
Proof.
  intros Hb Hj Hsso Hty. split.
  - intros Hi Hurl. unfold EnrollFactor.
    rewrite Hb, Hj, Hsso, Hty, Hi. cbn. now rewrite Hurl.
  - intros Hi config2 He Hv. apply String.eqb_neq in Hi.
    unfold EnrollFactor.
    rewrite Hb, Hj, Hsso, Hty, Hi, He, Hv. reflexivity.
Qed.

Lemma EnrollFactor_issuer_witness :
  EnrollFactor Scenario.no_site_env Fixture.config
    (Fixture.request Fixture.totp_factor Fixture.new_session "totp")
    (Fixture.db Fixture.totp_factor Fixture.new_session)
  = (inl (internalServerError "site url is improperly formatted" []),
     Fixture.db Fixture.totp_factor Fixture.new_session)
  /\ EnrollFactor Scenario.issuer_env Scenario.moved_config
       (Fixture.request Fixture.totp_factor Fixture.new_session "totp")
       (Fixture.db Fixture.totp_factor Fixture.new_session)
     = EnrollFactor Scenario.issuer_env Fixture.config
         (Fixture.request Fixture.totp_factor Fixture.new_session "totp")
         (Fixture.db Fixture.totp_factor Fixture.new_session).
Proof.
  split.
  - destruct (EnrollFactor_issuer Scenario.no_site_env Fixture.config
                (Fixture.request Fixture.totp_factor Fixture.new_session
                   "totp")
                (Fixture.db Fixture.totp_factor Fixture.new_session)
                "totp"
                {| P_FriendlyName := "key"; P_FactorType := "totp";
                   P_Issuer := "" |}
                eq_refl eq_refl eq_refl eq_refl) as [H _].
    apply H; reflexivity.
  - destruct (EnrollFactor_issuer Scenario.issuer_env Fixture.config
                (Fixture.request Fixture.totp_factor Fixture.new_session
                   "totp")
                (Fixture.db Fixture.totp_factor Fixture.new_session)
                "totp"
                {| P_FriendlyName := "key"; P_FactorType := "totp";
                   P_Issuer := "Example" |}
                eq_refl eq_refl eq_refl eq_refl) as [_ H].
    apply H; [discriminate | reflexivity | reflexivity].
Defined.

(** ** Unenrollment by a requester who does not own the factor *)

(** X16: a requester who does not own the factor never removes it: the call
    fails and the database is the one it started from. The assurance check
    comes first, so for a verified factor and a session below AAL2 the error
    is the AAL2 error; in every other case it is the ownership error. *)
Theorem UnenrollFactor_not_owner (env : Env) (r : Request) (db : DB) :
  Factor_UserID (ctx_factor r) <> User_ID (ctx_user r) ->
  UnenrollFactor env r db
  = (inl (if is_verified (ctx_factor r)
             && AAL_ltb (Session_AAL (ctx_session r)) AAL2
          then badRequestError "AAL2 required to unenroll verified factor" []
          else internalServerError "user must own factor to unenroll" []),
     db).
Proof.
  intros Hown. apply Nat.eqb_neq in Hown.
  unfold UnenrollFactor. rewrite GetAAL_not_AAL2.
  destruct (is_verified (ctx_factor r)
            && AAL_ltb (Session_AAL (ctx_session r)) AAL2);
    [reflexivity |].
  rewrite Hown. reflexivity.
Qed.

(** Bob asks for the removal of Alice's factor. *)
Lemma UnenrollFactor_not_owner_witness :
  UnenrollFactor Fixture.env
    (Scenario.request Scenario.bob Fixture.totp_factor Scenario.bob_session
       "" "10.0.0.1")
    Scenario.db
  = (inl (internalServerError "user must own factor to unenroll" []),
     Scenario.db).
Proof.
  apply (UnenrollFactor_not_owner Fixture.env
           (Scenario.request Scenario.bob Fixture.totp_factor
              Scenario.bob_session "" "10.0.0.1")
           Scenario.db).
  discriminate.
Defined.

(** ** The count of verified factors *)

(** X17: the loop over the user's factors counts exactly the verified ones:
    the count lies between 0 and the number of factors, it is 0 exactly when
    no factor is verified, and the count of two lists joined is the sum of
    their counts. *)
Theorem numVerifiedFactors_bounds (fs gs : list Factor) :
  0 <= numVerifiedFactors fs <= Z.of_nat (List.length fs)
  /\ (numVerifiedFactors fs = 0
      <-> forall f, In f fs -> Status f <> "verified")
  /\ numVerifiedFactors (fs ++ gs)
     = numVerifiedFactors fs + numVerifiedFactors gs.
Proof.
  rewrite !numVerifiedFactors_count. split; [| split].
  - pose proof (filter_length_le is_verified fs). lia.
  - split.
    + intros H f Hf Hs. apply is_verified_Status in Hs.
      assert (Hin : In f (filter is_verified fs))
        by (apply filter_In; now split).
      destruct (filter is_verified fs); [contradiction | discriminate].
    + intros H.
      assert (Hnil : filter is_verified fs = []).
      { induction fs as [| f fs IH]; [reflexivity |].
        cbn. destruct (is_verified f) eqn:Hv.
        - exfalso. apply (H f); [now left |]. now apply is_verified_Status.
        - apply IH. intros g Hg. apply H. now right. }
      now rewrite Hnil.
  - rewrite filter_app, length_app. lia.
Qed.
